(** * Flood monitoring front ends: web dashboard and mobile app

  A shallow embedding of the TypeScript sources of the presentation layer
  (the React dashboard under [frontend/src] and the React Native
  [mobile-app/App.tsx]) and the properties their specification states.

  JavaScript numbers are IEEE 754 binary64 values: they are modelled by
  Rocq's primitive floats, so a comparison such as [p >= 0.4] is the very
  comparison the engine performs.  Values that flow through the code
  untyped (the result of [response.json()] or [JSON.parse]) are modelled
  by the type [JS.value]; data that the sources type with an interface
  are records with the interface's fields.  Functions of the JavaScript
  library whose text is not part of the repository ([toFixed],
  [parseFloat], [JSON.parse], ...) are the fields of the class
  [JS.Builtins]; every theorem holds for every implementation of them. *)

From Stdlib Require Import ZArith List String Ascii Bool Lia Floats.
From stdpp Require Import base gmap strings list.
Import ListNotations.

Set Warnings "-inexact-float,-register-all".
Local Open Scope string_scope.
Local Open Scope list_scope.

(* ===================================================================== *)
(** * JavaScript values, conversions and completions                      *)
(* ===================================================================== *)

Module JS.

(** A JavaScript value as [JSON.parse] can produce it, and [undefined]
    (the value of a missing property). *)
Inductive value : Type :=
| VUndefined
| VNull
| VBool (b : bool)
| VNum (n : float)
| VStr (s : string)
| VArr (items : list value)
| VObj (fields : list (string * value)).

(** What a [throw] carries. *)
Inductive error : Type :=
| TypeError (msg : string)
| SyntaxError (msg : string)
| Error (msg : string)
| Rejected (msg : string).

(** The completion of a statement or of an awaited promise. *)
Inductive completion (A : Type) : Type :=
| Return (a : A)
| Throw (e : error).
Arguments Return {A} a.
Arguments Throw {A} e.

(** [>=], [>] and [<] on numbers; all three are false on NaN. *)
Definition ge (a b : float) : bool := PrimFloat.leb b a.
Definition gt (a b : float) : bool := PrimFloat.ltb b a.
Definition lt (a b : float) : bool := PrimFloat.ltb a b.

(** ToBoolean of a number: [0], [-0] and [NaN] are falsy. *)
Definition truthy_num (n : float) : bool :=
  negb (PrimFloat.is_zero n || PrimFloat.is_nan n).

(** ToBoolean of a string: only the empty string is falsy. *)
Definition truthy_str (s : string) : bool := negb (String.eqb s "").

(** ToBoolean of an optional string ([string | null], [string?]). *)
Definition truthy_opt (o : option string) : bool :=
  match o with
  | Some s => truthy_str s
  | None => false
  end.

(** ToBoolean. *)
Definition truthy (v : value) : bool :=
  match v with
  | VUndefined | VNull => false
  | VBool b => b
  | VNum n => truthy_num n
  | VStr s => truthy_str s
  | VArr _ | VObj _ => true
  end.

(** [a || b] on values. *)
Definition or_else (a b : value) : value := if truthy a then a else b.

(** The functions of the language's library that the sources call. *)
Class Builtins : Type := {
  (** [JSON.parse]; [None] when it throws a SyntaxError. *)
  JSON_parse : string -> option value;
  (** [JSON.stringify]. *)
  JSON_stringify : value -> string;
  (** ToNumber of a string. *)
  StringToNumber : string -> float;
  (** ToString of an array or object. *)
  ObjectToString : value -> string;
  (** [Number.prototype.toString]. *)
  NumberToString : float -> string;
  (** [Number.prototype.toFixed]. *)
  toFixed : float -> nat -> string;
  (** The global [parseFloat] and [parseInt]. *)
  parseFloat : string -> float;
  parseInt : string -> float;
  (** [String.prototype.toUpperCase]. *)
  toUpperCase : string -> string;
  (** [Date.prototype.toISOString], of the date with this time value. *)
  toISOString : float -> string
}.

Section Conversions.
Context `{Builtins}.

(** ToNumber. *)
Definition ToNumber (v : value) : float :=
  match v with
  | VUndefined => PrimFloat.nan
  | VNull => 0%float
  | VBool b => if b then 1%float else 0%float
  | VNum n => n
  | VStr s => StringToNumber s
  | VArr _ | VObj _ => StringToNumber (ObjectToString v)
  end.

(** ToString. *)
Definition ToString (v : value) : string :=
  match v with
  | VUndefined => "undefined"
  | VNull => "null"
  | VBool b => if b then "true" else "false"
  | VNum n => NumberToString n
  | VStr s => s
  | VArr _ | VObj _ => ObjectToString v
  end.

(** [v.toString()]: a TypeError on [undefined] and [null]. *)
Definition toString_method (v : value) : completion string :=
  match v with
  | VUndefined | VNull => Throw (TypeError "Cannot read properties")
  | _ => Return (ToString v)
  end.
End Conversions.

(** Lookup of an own property in an object literal's field list. *)
Fixpoint assoc (k : string) (fs : list (string * value)) : value :=
  match fs with
  | [] => VUndefined
  | (k', v) :: fs' => if String.eqb k k' then v else assoc k fs'
  end.

(** [v.length] for a value that is not [null] or [undefined]. *)
Definition length_of (v : value) : value :=
  match v with
  | VArr items => VNum (PrimFloat.of_uint63 (Uint63.of_Z (Z.of_nat (List.length items))))
  | VStr s => VNum (PrimFloat.of_uint63 (Uint63.of_Z (Z.of_nat (String.length s))))
  | VObj fs => assoc "length" fs
  | _ => VUndefined
  end.

(** [v[0]] for a value that is not [null] or [undefined]. *)
Definition index0 (v : value) : value :=
  match v with
  | VArr items => List.hd VUndefined items
  | VStr s => match s with
              | EmptyString => VUndefined
              | String c _ => VStr (String c EmptyString)
              end
  | VObj fs => assoc "0" fs
  | _ => VUndefined
  end.

(** [v.name]: a TypeError on [undefined] and [null], the own property of
    an object, [undefined] on the rest (the properties read by the sources
    are no methods of strings, numbers or arrays). *)
Definition get (v : value) (name : string) : completion value :=
  match v with
  | VUndefined | VNull => Throw (TypeError "Cannot read properties")
  | VObj fs => Return (assoc name fs)
  | _ => Return VUndefined
  end.

(** [Array.prototype.slice(start)] on a list: a negative [start] counts
    from the end. *)
Definition slice {A : Type} (start : Z) (l : list A) : list A :=
  let len := Z.of_nat (List.length l) in
  let k := if (start <? 0)%Z then Z.max (len + start) 0 else Z.min start len in
  skipn (Z.to_nat k) l.

(** [Array.prototype.slice(0, n)]. *)
Definition slice_to {A : Type} (n : nat) (l : list A) : list A := firstn n l.

End JS.

Import JS.

(* ===================================================================== *)
(** * The reading exchanged with the backend ([services/api.ts])          *)
(* ===================================================================== *)

(** [interface FloodData]: optional properties are options. *)
Record FloodData : Type := mkFloodData {
  timestamp : string;
  floodProbability : float;
  risk_level : option string;
  rainfall : float;
  waterLevel : float;
  temperature : float;
  humidity : float;
  windSpeed : float;
  soilMoisture : float;
  drainageCapacity : float;
  riverDischarge : float;
  deforestation : float;
  climateChange : float;
  cloudCover : float;
  urbanization : float;
  latitude : option float;
  longitude : option float
}.

(** An HTTP request as [fetch] receives it. *)
Record Request : Type := mkRequest {
  req_method : string;
  req_url : string;
  req_body : option string
}.

(** What the awaited [fetch] gives: a rejection (no connection), or a
    response with its [ok] flag, its status and what [response.json()]
    resolves to ([None]: the body is no JSON text and [json()] rejects). *)
Record Response : Type := mkResponse {
  resp_ok : bool;
  resp_status : float;
  resp_json : option value
}.

Inductive FetchOutcome : Type :=
| NetworkError
| Responded (r : Response).


(* ===================================================================== *)
(** * The API client ([class FloodMonitoringAPI], [services/api.ts])      *)
(* ===================================================================== *)

Module WebApi.

Definition API_BASE_URL : string := "http://localhost:8000".

Section WithBuiltins.
Context `{Builtins}.

(** ** [getRecentReadings] *)

Definition recentReadingsRequest (limit : float) : Request :=
  mkRequest "GET"
    (API_BASE_URL ++ "/api/recent-readings?limit=" ++ NumberToString limit)%string None.

(** [Array.isArray(data) ? data : []]. *)
Definition arrayOrEmpty (data : value) : value :=
  match data with
  | VArr _ => data
  | _ => VArr []
  end.

(** [getRecentReadings], given what the awaited [fetch] produced. *)
Definition getRecentReadings (fetched : FetchOutcome) : completion value :=
  match fetched with
  | NetworkError => Throw (TypeError "Failed to fetch")
  | Responded response =>
      if negb (resp_ok response) then Throw (Error "Failed to fetch recent readings")
      else
        match resp_json response with
        | None => Throw (SyntaxError "Unexpected token")
        | Some data => Return (arrayOrEmpty data)
        end
  end.

End WithBuiltins.

(** ** The WebSocket connection and its listeners *)

(** A listener is a function object; it is known by its identity (what
    [indexOf] compares).  The arrays of listeners live in a heap, because
    [disconnectWebSocket] replaces the array that [this.wsListeners]
    refers to while [push] and [splice] change it in place.  [timeouts]
    lists the delays of the [setTimeout] calls made so far, [fired] counts
    the timers that went off, and [app] is the state of the page outside
    the client. *)
Record Client (App : Type) : Type := mkClient {
  arrays : list (list nat);
  wsListeners : nat;
  ws : option nat;
  sockets : nat;
  timeouts : list float;
  fired : nat;
  console : list string;
  app : App
}.
Arguments mkClient {App}.
Arguments arrays {App}.
Arguments wsListeners {App}.
Arguments ws {App}.
Arguments sockets {App}.
Arguments timeouts {App}.
Arguments fired {App}.
Arguments console {App}.
Arguments app {App}.

(** A client as the module creates it: one empty array of listeners. *)
Definition newClient {App : Type} (a : App) : Client App :=
  mkClient [[]] 0 None 0 [] 0 [] a.

(** The methods of the client that other code calls; [constructed] tells
    whether [new WebSocket(url)] returns a socket (it can throw). *)
Inductive Method : Type :=
| Connect (constructed : bool)
| AddListener (callback : nat)
| RemoveListener (callback : nat)
| Disconnect.

Section Connection.
Context {App : Type}.
Context `{Builtins}.

(** What a listener does when it is called with the parsed data: it
    changes the page's state, calls methods of the client, and returns or
    throws. *)
Variable call : nat -> value -> App -> completion unit * App * list Method.

Definition log (line : string) (c : Client App) : Client App :=
  mkClient (arrays c) (wsListeners c) (ws c) (sockets c) (timeouts c) (fired c)
    (console c ++ [line]) (app c).

Definition setApp (a : App) (c : Client App) : Client App :=
  mkClient (arrays c) (wsListeners c) (ws c) (sockets c) (timeouts c) (fired c)
    (console c) a.

(** The array that [this.wsListeners] refers to. *)
Definition listeners (c : Client App) : list nat :=
  default [] (arrays c !! wsListeners c).

(** [onRealtimeData]: [this.wsListeners.push(callback)]. *)
Definition onRealtimeData (callback : nat) (c : Client App) : Client App :=
  mkClient (<[wsListeners c := listeners c ++ [callback]]> (arrays c))
    (wsListeners c) (ws c) (sockets c) (timeouts c) (fired c) (console c) (app c).

(** [indexOf]. *)
Fixpoint indexOf (callback : nat) (l : list nat) : option nat :=
  match l with
  | [] => None
  | x :: l' => if Nat.eqb x callback then Some 0%nat
               else option_map S (indexOf callback l')
  end.

(** [splice(index, 1)]. *)
Definition splice1 (index : nat) (l : list nat) : list nat :=
  firstn index l ++ skipn (S index) l.

(** [removeRealtimeListener]. *)
Definition removeRealtimeListener (callback : nat) (c : Client App) : Client App :=
  match indexOf callback (listeners c) with
  | Some index =>
      mkClient (<[wsListeners c := splice1 index (listeners c)]> (arrays c))
        (wsListeners c) (ws c) (sockets c) (timeouts c) (fired c) (console c) (app c)
  | None => c
  end.

(** [disconnectWebSocket]: [this.ws] is closed and forgotten (its close
    event arrives later), and [this.wsListeners] refers to a new, empty
    array. *)
Definition disconnectWebSocket (c : Client App) : Client App :=
  mkClient (arrays c ++ [[]]) (List.length (arrays c)) None
    (sockets c) (timeouts c) (fired c) (console c) (app c).

(** [connectWebSocket].  The socket created gets the four handlers below. *)
Definition connectWebSocket (constructed : bool) (c : Client App) : Client App :=
  if constructed then
    mkClient (arrays c) (wsListeners c) (Some (sockets c)) (S (sockets c))
      (timeouts c) (fired c) (console c) (app c)
  else log "Failed to connect WebSocket:" c.

Definition invoke (m : Method) (c : Client App) : Client App :=
  match m with
  | Connect constructed => connectWebSocket constructed c
  | AddListener l => onRealtimeData l c
  | RemoveListener l => removeRealtimeListener l c
  | Disconnect => disconnectWebSocket c
  end.

(** [setTimeout(callback, delay)], the callback being the reconnection. *)
Definition setTimeout (delay : float) (c : Client App) : Client App :=
  mkClient (arrays c) (wsListeners c) (ws c) (sockets c)
    (timeouts c ++ [delay]) (fired c) (console c) (app c).

(** The client after a listener ran: the page's new state, and the
    methods the listener called, in order. *)
Definition afterCall (a : App) (methods : list Method) (c : Client App) : Client App :=
  fold_left (fun c m => invoke m c) methods (setApp a c).

(** [this.wsListeners.forEach(listener => listener(data))] on the array at
    reference [r], from index [k], with [n] indices left to visit: the
    length is read once, an index that is no longer in the array is
    skipped, and a listener that throws ends the loop.  The result lists
    the calls made. *)
Fixpoint forEachFrom (r : nat) (data : value) (n k : nat) (c : Client App)
    : list (nat * value) * completion unit * Client App :=
  match n with
  | O => ([], Return tt, c)
  | S n' =>
      match default [] (arrays c !! r) !! k with
      | None => forEachFrom r data n' (S k) c
      | Some listener =>
          match call listener data (app c) with
          | (Return _, a, methods) =>
              let '(calls, result, c') :=
                forEachFrom r data n' (S k) (afterCall a methods c) in
              ((listener, data) :: calls, result, c')
          | (Throw e, a, methods) =>
              ([(listener, data)], Throw e, afterCall a methods c)
          end
      end
  end.

Definition forEach (data : value) (c : Client App)
    : list (nat * value) * completion unit * Client App :=
  forEachFrom (wsListeners c) data (List.length (listeners c)) 0 c.

(** The [onmessage] handler: the calls it made, its completion, the state. *)
Definition onmessage (eventData : string) (c : Client App)
    : list (nat * value) * completion unit * Client App :=
  match JSON_parse eventData with
  | Some data =>
      match forEach data c with
      | (calls, Return _, c') => (calls, Return tt, c')
      | (calls, Throw _, c') => (calls, Return tt, log "Error parsing WebSocket data:" c')
      end
  | None => ([], Return tt, log "Error parsing WebSocket data:" c)
  end.

(** The [onopen], [onclose] and [onerror] handlers. *)
Definition onopen (c : Client App) : Client App := log "WebSocket connected" c.

Definition onclose (c : Client App) : Client App :=
  setTimeout 5000 (log "WebSocket disconnected" c).

Definition onerror (c : Client App) : Client App := log "WebSocket error:" c.

(** What can happen to the client: an event of a socket, the oldest
    pending timer going off, or a call of one of its methods. *)
Inductive Event : Type :=
| Open (socket : nat)
| Message (socket : nat) (eventData : string)
| Close (socket : nat)
| Fault (socket : nat)
| TimerFires (constructed : bool)
| Call (m : Method).

(** Only a socket that [connectWebSocket] created has the handlers. *)
Definition hasHandlers (socket : nat) (c : Client App) : bool :=
  (socket <? sockets c)%nat.

Definition step (e : Event) (c : Client App) : Client App :=
  match e with
  | Open s => if hasHandlers s c then onopen c else c
  | Message s d => if hasHandlers s c then snd (onmessage d c) else c
  | Close s => if hasHandlers s c then onclose c else c
  | Fault s => if hasHandlers s c then onerror c else c
  | TimerFires constructed =>
      if (fired c <? List.length (timeouts c))%nat then
        connectWebSocket constructed
          (mkClient (arrays c) (wsListeners c) (ws c) (sockets c)
             (timeouts c) (S (fired c)) (console c) (app c))
      else c
  | Call m => invoke m c
  end.

Definition run (events : list Event) (c : Client App) : Client App :=
  fold_left (fun c e => step e c) events c.

(** A listener that returns normally and calls no method of the client,
    whatever it is called with. *)
Definition wellBehaved (listener : nat) : Prop :=
  forall (data : value) (a : App),
    exists a', call listener data a = (Return tt, a', []).

(** The number of close events that reach a handler along a run. *)
Fixpoint closesHandled (events : list Event) (c : Client App) : nat :=
  match events with
  | [] => 0
  | e :: events' =>
      (match e with
       | Close s => if hasHandlers s c then 1 else 0
       | _ => 0
       end + closesHandled events' (step e c))%nat
  end.

End Connection.

End WebApi.
(* ===================================================================== *)
(** * The dashboard component ([FloodMonitoringDashboard])                *)
(* ===================================================================== *)

Module Dashboard.

(** The component state that the WebSocket callback touches. *)
Record State : Type := mkState {
  data : list FloodData;
  isConnected : bool;
  currentData : option FloodData;
  isMonitoring : bool
}.

(** [prev => [...prev.slice(-49), newData]]. *)
Definition appendReading (newData : FloodData) (prev : list FloodData) : list FloodData :=
  JS.slice (-49) prev ++ [newData].

(** [['HIGH', 'SEVERE'].includes(s)]. *)
Definition isHighOrSevere (s : string) : bool :=
  String.eqb "HIGH" s || String.eqb "SEVERE" s.

Section WithBuiltins.
Context `{Builtins}.

(** The test that guards [triggerAutoAlerts] in the callback. *)
Definition shouldAutoAlert (newData : FloodData) : bool :=
  match risk_level newData with
  | Some l => truthy_str l && isHighOrSevere (toUpperCase l)
  | None => false
  end.

(** [triggerAutoAlerts] starts with this request (its outcome is only
    logged). *)
Definition autoSendRequest : Request :=
  mkRequest "POST" "http://localhost:8000/api/alerts/auto-send" None.

(** The callback registered with [floodAPI.onRealtimeData]: the new state
    and the requests it starts. *)
Definition onRealtimeData (newData : FloodData) (st : State) : State * list Request :=
  let st1 := mkState (data st) (isConnected st) (Some newData) (isMonitoring st) in
  let st2 := mkState (appendReading newData (data st1)) (isConnected st1)
                     (currentData st1) (isMonitoring st1) in
  let st3 := mkState (data st2) true (currentData st2) (isMonitoring st2) in
  (st3, if shouldAutoAlert newData then [autoSendRequest] else []).

(** The state after the listener received the readings [rs], in order. *)
Definition deliver (rs : list FloodData) (st : State) : State :=
  fold_left (fun s r => fst (onRealtimeData r s)) rs st.

End WithBuiltins.

(** The last [n] elements of a list (all of it when it is shorter). *)
Definition lastn {A : Type} (n : nat) (l : list A) : list A :=
  skipn (List.length l - n) l.

End Dashboard.

(* ===================================================================== *)
(** * The status cards ([components/StatusCards.tsx])                     *)
(* ===================================================================== *)

Module StatusCards.

Inductive Icon : Type := WarningSign | RainCloud | Ruler | Thermometer.

(** One card: heading, the figure with its class, the optional line under
    the figure (class and text), the icon and whether it is dimmed. *)
Record Card : Type := mkCard {
  heading : string;
  figureClass : string;
  figureText : string;
  caption : option (string * string);
  icon : Icon;
  dimmed : bool
}.

(** The colour class chosen from the reading's [risk_level] (the nested
    conditional that both paragraphs of the first card use). *)
Definition riskColor (currentData : FloodData) : string :=
  if negb (truthy_opt (risk_level currentData)) then "text-gray-600"
  else match risk_level currentData with
       | Some l =>
           if String.eqb l "LOW" then "text-green-600"
           else if String.eqb l "MILD" then "text-yellow-600"
           else if String.eqb l "HIGH" then "text-orange-600"
           else "text-red-600"
       | None => "text-red-600"
       end.

(** [currentData.risk_level || 'Analyzing...']. *)
Definition riskText (currentData : FloodData) : string :=
  match risk_level currentData with
  | Some l => if truthy_str l then l else "Analyzing..."
  | None => "Analyzing..."
  end.

Section WithBuiltins.
Context `{Builtins}.

Definition StatusCards (currentData : option FloodData) (isConnected : bool) : list Card :=
  match currentData with
  | None =>
      [ mkCard "Flood Risk" "text-2xl font-bold text-gray-400" "---%"
          (Some ("text-xs text-gray-500 mt-1",
                 if isConnected then "Waiting for data..." else "Disconnected"))
          WarningSign true;
        mkCard "Rainfall" "text-2xl font-bold text-gray-400" "-- mm/h" None RainCloud true;
        mkCard "Water Level" "text-2xl font-bold text-gray-400" "-- m" None Ruler true;
        mkCard "Temperature" "text-2xl font-bold text-gray-400" "--°C" None Thermometer true ]
  | Some d =>
      [ mkCard "Flood Risk"
          ("text-2xl font-bold " ++ riskColor d)%string
          (toFixed (floodProbability d * 100)%float 1 ++ "%")%string
          (Some (("text-xs font-medium " ++ riskColor d)%string, riskText d))
          WarningSign false;
        mkCard "Rainfall" "text-2xl font-bold text-blue-600"
          (toFixed (rainfall d) 1 ++ " mm/h")%string
          (Some ("text-xs text-gray-500", "Current intensity")) RainCloud false;
        mkCard "Water Level" "text-2xl font-bold text-indigo-600"
          (toFixed (waterLevel d) 2 ++ " m")%string
          (Some ("text-xs text-gray-500", "River height")) Ruler false;
        mkCard "Temperature" "text-2xl font-bold text-orange-600"
          (toFixed (temperature d) 1 ++ "°C")%string
          (Some ("text-xs text-gray-500", "Current weather")) Thermometer false ]
  end.

End WithBuiltins.

End StatusCards.

(* ===================================================================== *)
(** * The alerts panel ([components/AlertsPanel.tsx])                     *)
(* ===================================================================== *)

Module AlertsPanel.

(** ['critical' | 'warning' | 'info' | 'success']. *)
Inductive AlertType : Type := critical | warning | info | success.

Record Alert : Type := mkAlert {
  id : string;
  type : AlertType;
  title : string;
  message : string;
  timestamp : string;
  acknowledged : bool
}.

Definition getAlertBorderColor (t : AlertType) : string :=
  match t with
  | critical => "border-l-red-500 bg-red-50"
  | warning => "border-l-orange-500 bg-orange-50"
  | info => "border-l-blue-500 bg-blue-50"
  | success => "border-l-green-500 bg-green-50"
  end.

Section WithBuiltins.
Context `{Builtins}.

(** [generateSampleAlerts]; [now] is the time value of [new Date()]. *)
Definition generateSampleAlerts (now : float) (floodProbability : float)
    (riskLevel : option string) : list Alert :=
  let alerts : list Alert := [] in
  let alerts :=
    if decide (riskLevel = Some "SEVERE") then
      alerts ++ [ mkAlert ("critical-" ++ NumberToString now)%string
                    critical
                    "SEVERE Flood Risk (Model Determined)"
                    ("Model classified risk as SEVERE (probability: "
                       ++ toFixed (floodProbability * 100)%float 1
                       ++ "%). Immediate action required.")%string
                    (toISOString now)
                    false ]
    else if decide (riskLevel = Some "HIGH") then
      alerts ++ [ mkAlert ("warning-" ++ NumberToString now)%string
                    warning
                    "HIGH Flood Risk (Model Determined)"
                    ("Model classified risk as HIGH (probability: "
                       ++ toFixed (floodProbability * 100)%float 1
                       ++ "%). Monitor conditions closely.")%string
                    (toISOString now)
                    false ]
    else alerts in
  if (List.length alerts =? 0)%nat then
    alerts ++ [ mkAlert "info-1" info "System Status"
                  "All sensors are operating normally. Last data sync completed successfully."
                  (toISOString (now - 300000)%float)
                  true ]
  else alerts.

End WithBuiltins.

End AlertsPanel.

(* ===================================================================== *)
(** * The map's colour helpers ([FloodMap])                               *)
(* ===================================================================== *)

Module FloodMap.

(** [getMarkerColor]: the marker colour from the flood probability. *)
Definition getMarkerColor (risk : float) : string :=
  if JS.lt risk 0.3 then "#22c55e"
  else if JS.lt risk 0.5 then "#eab308"
  else if JS.lt risk 0.7 then "#f97316"
  else "#ef4444".

(** [getModelRiskText]. *)
Definition getModelRiskText (riskLevel : option string) : string :=
  match riskLevel with
  | Some l => if truthy_str l then l else "Waiting for Model..."
  | None => "Waiting for Model..."
  end.

Section WithBuiltins.
Context `{Builtins}.

(** [getModelRiskColor]: [switch (riskLevel?.toUpperCase())]. *)
Definition getModelRiskColor (riskLevel : option string) : string :=
  match riskLevel with
  | Some l =>
      let u := toUpperCase l in
      if String.eqb u "SEVERE" then "#ef4444"
      else if String.eqb u "HIGH" then "#f97316"
      else if String.eqb u "MILD" then "#eab308"
      else if String.eqb u "LOW" then "#22c55e"
      else "#6b7280"
  | None => "#6b7280"
  end.

(** [getModelRiskColorClass]. *)
Definition getModelRiskColorClass (riskLevel : option string) : string :=
  match riskLevel with
  | Some l =>
      let u := toUpperCase l in
      if String.eqb u "SEVERE" then "bg-red-500"
      else if String.eqb u "HIGH" then "bg-orange-500"
      else if String.eqb u "MILD" then "bg-yellow-500"
      else if String.eqb u "LOW" then "bg-green-500"
      else "bg-gray-500"
  | None => "bg-gray-500"
  end.

End WithBuiltins.

End FloodMap.

(* ===================================================================== *)
(** * The dashboard's sensor alerts ([generateAlerts])                    *)
(* ===================================================================== *)

Module SensorAlerts.

(** ['online' | 'offline' | 'warning']. *)
Inductive SensorStatus : Type := online | offline | warning.

(** [interface SensorData], and the property [risk_level] that
    [generateAlerts] reads through [(sensor as any)]. *)
Record SensorData : Type := mkSensorData {
  id : string;
  name : string;
  latitude : float;
  longitude : float;
  floodProbability : float;
  lastUpdate : string;
  status : SensorStatus;
  risk_level : option string
}.

Section WithBuiltins.
Context `{Builtins}.

(** The alerts that one sensor contributes; [now] is [Date.now()].  The
    dashboard declares the same [Alert] interface as the alerts panel. *)
Definition alertsOf (now : float) (sensor : SensorData) : list AlertsPanel.Alert :=
  (match risk_level sensor with
   | Some l =>
       if String.eqb l "SEVERE" || String.eqb l "HIGH" then
         [ AlertsPanel.mkAlert
             ("alert-" ++ id sensor ++ "-" ++ NumberToString now)%string
             (if String.eqb l "SEVERE" then AlertsPanel.critical else AlertsPanel.warning)
             (l ++ " Flood Risk Detected")%string
             ("Model determined " ++ l ++ " flood risk at " ++ name sensor ++ " ("
                ++ toFixed (floodProbability sensor * 100)%float 1 ++ "%)")%string
             (toISOString now)
             false ]
       else []
   | None => []
   end)
  ++
  (match status sensor with
   | warning =>
       [ AlertsPanel.mkAlert
           ("sensor-" ++ id sensor ++ "-" ++ NumberToString now)%string
           AlertsPanel.warning
           "Sensor Communication Warning"
           ("Intermittent connection issues with sensor at " ++ name sensor)%string
           (toISOString now)
           false ]
   | _ => []
   end).

(** [generateAlerts]: the [forEach] pushes each sensor's alerts in turn. *)
Definition generateAlerts (now : float) (sensorData : list SensorData)
    : list AlertsPanel.Alert :=
  flat_map (alertsOf now) sensorData.

End WithBuiltins.

End SensorAlerts.

(* ===================================================================== *)
(** * The mobile app ([mobile-app/App.tsx])                               *)
(* ===================================================================== *)

Module Mobile.

(** What [getFloodStatus] returns.  The properties copied from the parsed
    reading keep whatever value the reading had there. *)
Record Status : Type := mkStatus {
  riskLevel : string;
  riskPercentage : float;
  rainfall : value;
  waterLevel : value;
  temperature : value;
  humidity : value;
  lastUpdated : value;
  recommendations : value
}.

(** The world the app runs in: the device's AsyncStorage (and the keys
    whose operations are rejected), the clock, the backend's answer to
    each request, and what the app did so far: the requests it sent, the
    dialogs it showed with [Alert.alert], the errors it logged, the
    home screen's state and the polling timer in force (milliseconds).
    [console.log] output is not recorded. *)
Record World : Type := mkWorld {
  storage : gmap string string;
  storageFails : string -> bool;
  clock : float;
  backend : Request -> FetchOutcome;
  requests : list Request;
  dialogs : list (string * string);
  errorsLogged : list string;
  floodData : option Status;
  loading : bool;
  monitoringInterval : option Z
}.

(** An [async] function: a state transformer that completes normally or
    abruptly; the effects made before a [throw] stay. *)
Definition M (A : Type) : Type := World -> completion A * World.

Definition ret {A : Type} (a : A) : M A := fun w => (Return a, w).
Definition throw {A : Type} (e : error) : M A := fun w => (Throw e, w).
Definition bind {A B : Type} (c : M A) (k : A -> M B) : M B :=
  fun w =>
    match c w with
    | (Return a, w') => k a w'
    | (Throw e, w') => (Throw e, w')
    end.
Definition lift {A : Type} (c : completion A) : M A := fun w => (c, w).

(** [try { body } catch (error) { handler }]. *)
Definition try_catch {A : Type} (body : M A) (handler : error -> M A) : M A :=
  fun w =>
    match body w with
    | (Return a, w') => (Return a, w')
    | (Throw e, w') => handler e w'
    end.

Notation "'let*' x ':=' c 'in' k" := (bind c (fun x => k))
  (at level 10, x name, c at level 100, k at level 200).
Notation "c ';;' k" := (bind c (fun _ => k))
  (at level 100, k at level 200, right associativity).

(** ** The platform *)

Definition API_BASE_URL : string := "http://10.49.178.86:8000".

(** The world after a request was sent: only the list of requests grew. *)
Definition sent (r : Request) (w : World) : World :=
  mkWorld (storage w) (storageFails w) (clock w) (backend w)
    (requests w ++ [r]) (dialogs w) (errorsLogged w)
    (floodData w) (loading w) (monitoringInterval w).

Definition fetch (r : Request) : M Response :=
  fun w =>
    match backend w r with
    | NetworkError => (Throw (TypeError "Network request failed"), sent r w)
    | Responded resp => (Return resp, sent r w)
    end.

(** [await response.json()]. *)
Definition json (resp : Response) : M value :=
  match resp_json resp with
  | Some v => ret v
  | None => throw (SyntaxError "JSON Parse error")
  end.

(** [AsyncStorage.getItem] and [AsyncStorage.setItem]. *)
Definition getItem (key : string) : M (option string) :=
  fun w =>
    if storageFails w key then (Throw (Rejected "AsyncStorage"), w)
    else (Return (storage w !! key), w).

Definition setItem (key : string) (v : string) : M unit :=
  fun w =>
    if storageFails w key then (Throw (Rejected "AsyncStorage"), w)
    else (Return tt,
          mkWorld (<[key := v]> (storage w)) (storageFails w) (clock w) (backend w)
            (requests w) (dialogs w) (errorsLogged w)
            (floodData w) (loading w) (monitoringInterval w)).

(** [Date.now()], also the time value of [new Date()]. *)
Definition Date_now : M float := fun w => (Return (clock w), w).

(** [Alert.alert(title, message, ...)]. *)
Definition Alert_alert (title message : string) : M unit :=
  fun w =>
    (Return tt,
     mkWorld (storage w) (storageFails w) (clock w) (backend w)
       (requests w) (dialogs w ++ [(title, message)]) (errorsLogged w)
       (floodData w) (loading w) (monitoringInterval w)).

(** [console.error(label, ...)] and the world after it. *)
Definition logged (label : string) (w : World) : World :=
  mkWorld (storage w) (storageFails w) (clock w) (backend w)
    (requests w) (dialogs w) (errorsLogged w ++ [label])
    (floodData w) (loading w) (monitoringInterval w).

Definition console_error (label : string) : M unit :=
  fun w => (Return tt, logged label w).

(** The home screen's [setFloodData], [setLoading] and the replacement of
    the polling timer ([clearInterval] then [setInterval]). *)
Definition setFloodData (d : Status) : M unit :=
  fun w =>
    (Return tt,
     mkWorld (storage w) (storageFails w) (clock w) (backend w)
       (requests w) (dialogs w) (errorsLogged w)
       (Some d) (loading w) (monitoringInterval w)).

Definition setLoading (b : bool) : M unit :=
  fun w =>
    (Return tt,
     mkWorld (storage w) (storageFails w) (clock w) (backend w)
       (requests w) (dialogs w) (errorsLogged w)
       (floodData w) b (monitoringInterval w)).

Definition clearInterval : M unit :=
  fun w =>
    (Return tt,
     mkWorld (storage w) (storageFails w) (clock w) (backend w)
       (requests w) (dialogs w) (errorsLogged w)
       (floodData w) (loading w) None).

Definition setInterval (ms : Z) : M unit :=
  fun w =>
    (Return tt,
     mkWorld (storage w) (storageFails w) (clock w) (backend w)
       (requests w) (dialogs w) (errorsLogged w)
       (floodData w) (loading w) (Some ms)).

(** The four default recommendations. *)
Definition defaultRecommendations : value :=
  VArr [ VStr "Monitor weather conditions regularly";
         VStr "Check drainage systems in your area";
         VStr "Stay informed about weather updates";
         VStr "Keep emergency contacts handy" ].

Section WithBuiltins.
Context `{Builtins}.

(** ** [apiService] *)

(** [alerts.unshift(x)]: only an array has the method. *)
Definition unshift (alerts x : value) : completion value :=
  match alerts with
  | VArr items => Return (VArr (x :: items))
  | _ => Throw (TypeError "alerts.unshift is not a function")
  end.

(** [alerts.slice(0, 50)] of the array that [unshift] returned. *)
Definition slice50 (alerts : value) : value :=
  match alerts with
  | VArr items => VArr (JS.slice_to 50 items)
  | _ => alerts
  end.

Definition getAlertHistory : M value :=
  try_catch
    (let* history := getItem "alertHistory" in
     match history with
     | Some h =>
         if truthy_str h then
           match JSON_parse h with
           | Some v => ret v
           | None => throw (SyntaxError "JSON Parse error")
           end
         else ret (VArr [])
     | None => ret (VArr [])
     end)
    (fun _ => console_error "Error loading alert history:" ;; ret (VArr [])).

(** The [switch] that words the alert. *)
Definition alertMessage (riskLevel : string) (riskPercentage : float) : string :=
  if String.eqb riskLevel "severe" then
    ("SEVERE flood risk detected (" ++ NumberToString riskPercentage
       ++ "%)! Take immediate action and evacuate if necessary.")%string
  else if String.eqb riskLevel "high" then
    ("HIGH flood risk detected (" ++ NumberToString riskPercentage
       ++ "%)! Stay alert and prepare for potential flooding.")%string
  else if String.eqb riskLevel "mild" then
    ("MODERATE flood risk detected (" ++ NumberToString riskPercentage
       ++ "%). Monitor conditions closely.")%string
  else
    ("Flood risk level: " ++ riskLevel ++ " (" ++ NumberToString riskPercentage
       ++ "%). Stay informed.")%string.

Definition showFloodAlert (riskLevel : string) (riskPercentage : float) : M unit :=
  let title := ("🚨 Flood Risk Alert: " ++ toUpperCase riskLevel)%string in
  let message := alertMessage riskLevel riskPercentage in
  let* alerts := getAlertHistory in
  let* now := Date_now in
  let newAlert :=
    VObj [ ("id", VStr (NumberToString now));
           ("title", VStr title);
           ("message", VStr message);
           ("riskLevel", VStr riskLevel);
           ("timestamp", VStr (toISOString now));
           ("read", VBool false) ] in
  let* alerts := lift (unshift alerts newAlert) in
  setItem "alertHistory" (JSON_stringify (slice50 alerts)) ;;
  Alert_alert title message.

Definition HIGH_RISK_THRESHOLD : float := 0.4.
Definition SEVERE_RISK_THRESHOLD : float := 0.7.

(** [currentRisk >= HIGH_RISK_THRESHOLD ||
     (previousRisk && (currentRisk - previousRisk) >= 0.05)], as the [if]
    reads it. *)
Definition shouldAlert (currentRisk : value) (previousRisk : float) : bool :=
  JS.ge (ToNumber currentRisk) HIGH_RISK_THRESHOLD
  || (truthy_num previousRisk
      && JS.ge (ToNumber currentRisk - previousRisk)%float 0.05).

(** [30 * 60 * 1000] for a severe risk, [60 * 60 * 1000] otherwise. *)
Definition cooldownTime (currentRisk : value) : float :=
  if JS.ge (ToNumber currentRisk) SEVERE_RISK_THRESHOLD
  then (30 * 60 * 1000)%float
  else (60 * 60 * 1000)%float.

(** [!lastAlertTime || (now - parseInt(lastAlertTime)) > cooldownTime]. *)
Definition shouldShowAlert (lastAlertTime : option string) (now cooldown : float) : bool :=
  match lastAlertTime with
  | Some t =>
      negb (truthy_str t) || JS.gt (now - parseInt t)%float cooldown
  | None => true
  end.

(** The request that asks the backend to send the SMS alerts. *)
Definition autoSendRequest : Request :=
  mkRequest "POST" (API_BASE_URL ++ "/api/alerts/auto-send")%string None.

Definition triggerSms : M unit :=
  try_catch
    (let* response := fetch autoSendRequest in
     if resp_ok response then
       let* result := json response in
       let* _ := lift (JS.get result "alerts_sent") in
       let* _ := lift (JS.get result "failed_alerts") in
       ret tt
     else console_error "❌ Failed to trigger SMS alerts:")
    (fun _ => console_error "❌ SMS alert error:").

Definition checkRiskAndNotify (currentRisk : value) (previousRisk : float)
    (riskLevel : string) : M unit :=
  if shouldAlert currentRisk previousRisk then
    let* lastAlertTime := getItem "lastFloodAlert" in
    let* now := Date_now in
    (if shouldShowAlert lastAlertTime now (cooldownTime currentRisk) then
       showFloodAlert riskLevel (ToNumber currentRisk * 100)%float ;;
       (if JS.ge (ToNumber currentRisk) SEVERE_RISK_THRESHOLD
           || String.eqb riskLevel "high" || String.eqb riskLevel "severe"
        then triggerSms else ret tt) ;;
       setItem "lastFloodAlert" (NumberToString now)
     else ret tt) ;;
    let* s := lift (toString_method currentRisk) in
    setItem "lastRiskLevel" s
  else ret tt.

Definition getRecommendations : M value :=
  let* early :=
    try_catch
      (let* response :=
         fetch (mkRequest "GET" (API_BASE_URL ++ "/api/ai-recommendations")%string None) in
       if resp_ok response then
         let* data := json response in
         let* r := lift (JS.get data "recommendations") in
         ret (Some (JS.or_else r defaultRecommendations))
       else ret None)
      (fun _ => console_error "Recommendations Error:" ;; ret None) in
  match early with
  | Some r => ret r
  | None => ret defaultRecommendations
  end.

(** The label that [getFloodStatus] computes from [latest.floodProbability]. *)
Definition riskLevelOf (floodProbability : value) : string :=
  if JS.ge (ToNumber floodProbability) 0.8 then "severe"
  else if JS.ge (ToNumber floodProbability) 0.6 then "high"
  else if JS.ge (ToNumber floodProbability) 0.4 then "mild"
  else "low".

(** The placeholder returned when there is no reading; [now] is the time
    value of the [new Date()] that stamps it. *)
Definition fallbackData (now : float) : Status :=
  mkStatus "low" 15.3 (VNum 2.5) (VNum 1.8) (VNum 26) (VNum 68)
    (VStr (toISOString now)) defaultRecommendations.

(** The request for the latest reading. *)
Definition recentReadingsRequest : Request :=
  mkRequest "GET" (API_BASE_URL ++ "/api/recent-readings?limit=1")%string None.

Definition getFloodStatus : M Status :=
  try_catch
    (let* response := fetch recentReadingsRequest in
     if negb (resp_ok response) then throw (Error "Failed to fetch flood data")
     else
       let* readings := json response in
       if truthy readings && JS.gt (ToNumber (JS.length_of readings)) 0 then
         let latest := JS.index0 readings in
         let* floodProbability := lift (JS.get latest "floodProbability") in
         let riskPercentage := toFixed (ToNumber floodProbability * 100)%float 1 in
         let riskLevel := riskLevelOf floodProbability in
         let* rainfall := lift (JS.get latest "rainfall") in
         let* waterLevel := lift (JS.get latest "waterLevel") in
         let* temperature := lift (JS.get latest "temperature") in
         let* humidity := lift (JS.get latest "humidity") in
         let* timestamp := lift (JS.get latest "timestamp") in
         let* recommendations := getRecommendations in
         let floodData :=
           mkStatus riskLevel (parseFloat riskPercentage)
             (JS.or_else rainfall (VNum 0)) (JS.or_else waterLevel (VNum 0))
             (JS.or_else temperature (VNum 26)) (JS.or_else humidity (VNum 68))
             timestamp recommendations in
         let* previousRisk := getItem "lastRiskLevel" in
         let currentRisk := floodProbability in
         let firstTime : M unit :=
           let* s := lift (toString_method currentRisk) in
           setItem "lastRiskLevel" s ;;
           (if JS.ge (ToNumber currentRisk) 0.4
            then showFloodAlert riskLevel (ToNumber currentRisk * 100)%float
            else ret tt) in
         (match previousRisk with
          | Some p =>
              if truthy_str p
              then checkRiskAndNotify currentRisk (parseFloat p) riskLevel
              else firstTime
          | None => firstTime
          end) ;;
         ret floodData
       else
         let* now := Date_now in
         ret (fallbackData now))
    (fun _ =>
       console_error "API Error:" ;;
       let* now := Date_now in
       ret (fallbackData now)).

(** ** [HomeScreen] *)

Definition loadFloodData : M unit :=
  try_catch
    (let* data := getFloodStatus in
     setFloodData data ;;
     setLoading false)
    (fun _ =>
       console_error "Failed to load flood data:" ;;
       Alert_alert "Error" "Failed to load flood data" ;;
       setLoading false).

(** The [switch] of [checkAndUpdateInterval]: minutes between two polls. *)
Definition intervalMinutes (riskLevel : string) : Z :=
  if String.eqb riskLevel "severe" then 1
  else if String.eqb riskLevel "high" then 2
  else if String.eqb riskLevel "mild" then 5
  else 10.

Definition checkAndUpdateInterval : M unit :=
  try_catch
    (loadFloodData ;;
     let* currentData := getFloodStatus in
     let riskLevel := riskLevel currentData in
     (fun w => match monitoringInterval w with
               | Some _ => clearInterval w
               | None => ret tt w
               end) ;;
     setInterval (intervalMinutes riskLevel * 60 * 1000))
    (fun _ =>
       console_error "Background monitoring error:" ;;
       setInterval (5 * 60 * 1000)).

(** AsyncStorage rejects no operation. *)
Definition storageWorks (w : World) : Prop :=
  forall key : string, storageFails w key = false.

(** The stored alert history is absent, empty or the JSON text of an
    array (what [showFloodAlert] itself stores). *)
Definition historyReadable (w : World) : Prop :=
  match storage w !! "alertHistory" with
  | Some h => truthy_str h = false \/ exists items, JSON_parse h = Some (VArr items)
  | None => True
  end.

End WithBuiltins.

(** The order of the risk labels: low (and any other label) below mild
    below high below severe. *)
Definition riskRank (riskLevel : string) : nat :=
  if String.eqb riskLevel "severe" then 3
  else if String.eqb riskLevel "high" then 2
  else if String.eqb riskLevel "mild" then 1
  else 0.

End Mobile.

(* ===================================================================== *)
(** * Strings of the registration form and the phone pattern              *)
(* ===================================================================== *)

(** The text typed into a form is modelled as the sequence of its UTF-16
    code units, which is what [trim] and a regular expression see. *)
Module UString.

Definition ustring : Type := list N.

Fixpoint of_string (s : string) : ustring :=
  match s with
  | EmptyString => []
  | String c s' => N_of_ascii c :: of_string s'
  end.

(** WhiteSpace and LineTerminator of ECMAScript: what [trim] removes. *)
Definition isWhiteSpace (c : N) : bool :=
  (((9 <=? c) && (c <=? 13))
   || (c =? 32) || (c =? 160) || (c =? 5760)
   || ((8192 <=? c) && (c <=? 8202))
   || (c =? 8232) || (c =? 8233) || (c =? 8239) || (c =? 8287)
   || (c =? 12288) || (c =? 65279))%N.

Fixpoint trimStart (s : ustring) : ustring :=
  match s with
  | [] => []
  | c :: s' => if isWhiteSpace c then trimStart s' else s
  end.

(** [String.prototype.trim]. *)
Definition trim (s : ustring) : ustring :=
  rev (trimStart (rev (trimStart s))).

(** ToBoolean of a string. *)
Definition truthy (s : ustring) : bool :=
  match s with
  | [] => false
  | _ => true
  end.

End UString.

(** A backtracking matcher for the regular expressions the sources use. *)
Module Regex.

Inductive regex : Type :=
| Char (c : N)
| Class (lo hi : N)
| Seq (r1 r2 : regex)
| Repeat (min max : nat) (r : regex)
| Bol
| Eol.

(** [min] to [max] matches of [m] in a row, from position [pos] with [s]
    left: the positions and rests at which the repetition can end. *)
Fixpoint repeatFrom (m : nat -> UString.ustring -> list (nat * UString.ustring))
    (min max : nat) (pos : nat) (s : UString.ustring)
    : list (nat * UString.ustring) :=
  match max with
  | O => if Nat.eqb min 0 then [(pos, s)] else []
  | S max' =>
      (if Nat.eqb min 0 then [(pos, s)] else [])
      ++ flat_map (fun pt => repeatFrom m (Nat.pred min) max' (fst pt) (snd pt)) (m pos s)
  end.

(** The positions and rests at which a match of [r] that starts at [pos],
    with [s] left, can end. *)
Fixpoint matchAt (r : regex) (pos : nat) (s : UString.ustring)
    : list (nat * UString.ustring) :=
  match r with
  | Char c =>
      match s with
      | x :: t => if (x =? c)%N then [(S pos, t)] else []
      | [] => []
      end
  | Class lo hi =>
      match s with
      | x :: t => if ((lo <=? x) && (x <=? hi))%N then [(S pos, t)] else []
      | [] => []
      end
  | Seq r1 r2 => flat_map (fun pt => matchAt r2 (fst pt) (snd pt)) (matchAt r1 pos s)
  | Repeat min max r' => repeatFrom (matchAt r') min max pos s
  | Bol => if Nat.eqb pos 0 then [(pos, s)] else []
  | Eol =>
      match s with
      | [] => [(pos, s)]
      | _ :: _ => []
      end
  end.

(** [RegExp.prototype.test]: a match may start at any index. *)
Definition test (r : regex) (s : UString.ustring) : bool :=
  existsb
    (fun i => match matchAt r i (skipn i s) with
              | [] => false
              | _ :: _ => true
              end)
    (seq 0 (S (List.length s))).

End Regex.

(* ===================================================================== *)
(** * The alert portal ([AlertPortal], registration)                      *)
(* ===================================================================== *)

Module AlertPortal.

Record RegistrationData : Type := mkRegistrationData {
  phone_number : UString.ustring;
  name : UString.ustring;
  area : UString.ustring;
  latitude : float;
  longitude : float
}.

(** The form as [useState] initialises it and as a successful
    registration resets it. *)
Definition emptyForm : RegistrationData :=
  mkRegistrationData [] [] [] 30.3165 78.0322.

Inductive MessageType : Type := success | error.

Record State : Type := mkState {
  registrationData : RegistrationData;
  users : value;
  loading : bool;
  message : option (MessageType * string)
}.

Definition setMessage (m : option (MessageType * string)) (st : State) : State :=
  mkState (registrationData st) (users st) (loading st) m.
Definition setLoading (b : bool) (st : State) : State :=
  mkState (registrationData st) (users st) b (message st).
Definition setUsers (u : value) (st : State) : State :=
  mkState (registrationData st) u (loading st) (message st).
Definition setRegistrationData (d : RegistrationData) (st : State) : State :=
  mkState d (users st) (loading st) (message st).

(** The requests of the portal: the POST to [/api/users/register] with
    the form as its JSON body, and the GET of [/api/users]. *)
Inductive Call : Type :=
| PostRegister (body : RegistrationData)
| GetUsers.

(** [/^\+[1-9]\d{1,14}$/]. *)
Definition phoneRegex : Regex.regex :=
  Regex.Seq Regex.Bol
    (Regex.Seq (Regex.Char 43)
       (Regex.Seq (Regex.Class 49 57)
          (Regex.Seq (Regex.Repeat 1 14 (Regex.Class 48 57)) Regex.Eol))).

(** The [message] property of a thrown error. *)
Definition errorMessage (e : JS.error) : string :=
  match e with
  | TypeError m | SyntaxError m | Error m | Rejected m => m
  end.

Section WithBuiltins.
Context `{Builtins}.

(** [fetchUsers], given the backend's answers: the state once it settled. *)
Definition fetchUsers (net : Call -> FetchOutcome) (st : State) : State :=
  let st1 := setLoading true st in
  let attempt : completion State :=
    match net GetUsers with
    | NetworkError => Throw (TypeError "Failed to fetch")
    | Responded response =>
        if resp_ok response then
          match resp_json response with
          | Some data => Return (setUsers data st1)
          | None => Throw (SyntaxError "Unexpected token")
          end
        else Throw (Error "Failed to fetch users")
    end in
  let st2 :=
    match attempt with
    | Return s => s
    | Throw _ => setMessage (Some (error, "Failed to load users")) st1
    end in
  setLoading false st2.

(** [handleRegistration], given the backend's answers: the state once
    everything settled, and the requests sent, in order.  [fetchUsers] is
    started and not awaited: it settles after the handler's [finally]. *)
Definition handleRegistration (net : Call -> FetchOutcome) (st : State)
    : State * list Call :=
  let data := registrationData st in
  if negb (Regex.test phoneRegex (phone_number data)) then
    (setMessage
       (Some (error, "Please enter a valid phone number (e.g., +919876543210)")) st,
     [])
  else if negb (UString.truthy (UString.trim (name data))) then
    (setMessage (Some (error, "Please enter your name")) st, [])
  else if negb (UString.truthy (area data)) then
    (setMessage (Some (error, "Please select your area")) st, [])
  else
    let st1 := setLoading true st in
    let attempt : completion State :=
      match net (PostRegister data) with
      | NetworkError => Throw (TypeError "Failed to fetch")
      | Responded response =>
          if resp_ok response then
            Return
              (setRegistrationData emptyForm
                 (setMessage
                    (Some (success,
                           "Registration successful! You will receive flood alerts on your phone."))
                    st1))
          else
            match resp_json response with
            | None => Throw (SyntaxError "Unexpected token")
            | Some err =>
                match JS.get err "detail" with
                | Throw e => Throw e
                | Return detail =>
                    Throw (Error (ToString
                                    (JS.or_else detail (VStr "Registration failed"))))
                end
            end
      end in
    match attempt with
    | Return st2 =>
        (fetchUsers net (setLoading false st2), [PostRegister data; GetUsers])
    | Throw e =>
        (setLoading false (setMessage (Some (error, errorMessage e)) st1),
         [PostRegister data])
    end.

End WithBuiltins.

(** The phone numbers that the pattern describes: a plus sign, a digit
    from 1 to 9, then one to fourteen digits, and nothing else. *)
Definition isDigit (c : N) : Prop := (48 <= c <= 57)%N.

Definition phonePattern (s : UString.ustring) : Prop :=
  exists (d : N) (ds : UString.ustring),
    s = 43%N :: d :: ds /\
    (49 <= d <= 57)%N /\
    Forall isDigit ds /\
    (1 <= List.length ds <= 14)%nat.

(** A form that may be sent. *)
Definition validForm (d : RegistrationData) : Prop :=
  phonePattern (phone_number d) /\
  UString.trim (name d) <> [] /\
  area d <> [].

End AlertPortal.

(* ===================================================================== *)
(** * Concrete inputs                                                     *)
(* ===================================================================== *)

(** A small implementation of the library functions, used only to run the
    model on concrete inputs.  It upper-cases ASCII letters, parses the
    JSON texts [[]] and [null], and reads and prints the numbers [0] and
    [0.1]; every other number prints as [#] and every other text reads as
    NaN.  No theorem about all inputs depends on it. *)
Module Sample.

Definition upper (c : ascii) : ascii :=
  let n := nat_of_ascii c in
  if (97 <=? n)%nat && (n <=? 122)%nat then ascii_of_nat (n - 32) else c.

Fixpoint upperCase (s : string) : string :=
  match s with
  | EmptyString => EmptyString
  | String c s' => String (upper c) (upperCase s')
  end.

Definition readNumber (s : string) : float :=
  if String.eqb s "0" then 0%float
  else if String.eqb s "0.1" then 0.1%float
  else PrimFloat.nan.

Definition printNumber (n : float) : string :=
  if PrimFloat.eqb n 0 then "0"
  else if PrimFloat.eqb n 0.1 then "0.1"
  else "#".

Definition builtins : Builtins := {|
  JSON_parse s :=
    if String.eqb s "[]" then Some (VArr [])
    else if String.eqb s "null" then Some VNull
    else None;
  JSON_stringify _ := "[]";
  StringToNumber := readNumber;
  ObjectToString _ := "[object Object]";
  NumberToString := printNumber;
  toFixed n _ := printNumber n;
  parseFloat := readNumber;
  parseInt := readNumber;
  toUpperCase := upperCase;
  toISOString _ := "1970-01-01T00:00:00.000Z"
|}.

(** A reading of the dashboard with the given label and probability. *)
Definition reading (label : option string) (p : float) : FloodData :=
  mkFloodData "2025-01-01T00:00:00Z" p label 0 0 0 0 0 0 0 0 0 0 0 0 None None.

(** The same reading as the backend sends it to the mobile app. *)
Definition readingJson (label : string) (p : float) : value :=
  VObj [ ("timestamp", VStr "2025-01-01T00:00:00Z");
         ("floodProbability", VNum p);
         ("risk_level", VStr label) ].

(** A backend that answers every request with [200 OK] and the body [body]. *)
Definition backendWith (body : option value) : Request -> FetchOutcome :=
  fun _ => Responded (mkResponse true 200 body).

(** A freshly installed app talking to the given backend. *)
Definition freshWorld (b : Request -> FetchOutcome) : Mobile.World :=
  Mobile.mkWorld ∅ (fun _ => false) 1000000 b [] [] [] None true None.

(** The same device, the backend now answering as [b]. *)
Definition withBackend (b : Request -> FetchOutcome) (w : Mobile.World) : Mobile.World :=
  Mobile.mkWorld (Mobile.storage w) (Mobile.storageFails w) (Mobile.clock w) b
    (Mobile.requests w) (Mobile.dialogs w) (Mobile.errorsLogged w)
    (Mobile.floodData w) (Mobile.loading w) (Mobile.monitoringInterval w).

(** Two polls of the mobile app: the backend reports the probability [p1],
    then [p2]. *)
Definition twoPolls (p1 p2 : float) : Mobile.World :=
  let w1 := snd (@Mobile.getFloodStatus builtins
                   (freshWorld (backendWith (Some (VArr [readingJson "LOW" p1]))))) in
  snd (@Mobile.getFloodStatus builtins
         (withBackend (backendWith (Some (VArr [readingJson "LOW" p2]))) w1)).

(** Two listeners of the API client: listener 0 throws (as the dashboard's
    callback does when the message is the JSON text [null]), every other
    listener returns; neither calls a method of the client. *)
Definition firstThrows (listener : nat) (data : value) (a : unit)
    : completion unit * unit * list WebApi.Method :=
  if Nat.eqb listener 0
  then (Throw (TypeError "Cannot read properties of null"), a, [])
  else (Return tt, a, []).

(** A client with the listeners 0 and 1 registered, in this order. *)
Definition twoListeners : WebApi.Client unit :=
  WebApi.onRealtimeData 1 (WebApi.onRealtimeData 0 (WebApi.newClient tt)).

End Sample.

(* ===================================================================== *)
(** * The API client: well-formed states                                  *)
(* ===================================================================== *)

Module ClientState.

(** [this.wsListeners] refers to an array of the heap: this holds of a new
    client and is kept by everything that can happen to it. *)
Definition refValid {App : Type} (c : WebApi.Client App) : Prop :=
  (WebApi.wsListeners c < List.length (WebApi.arrays c))%nat.

(** A call of a method of the client that leaves the list [l] of listeners
    as it is: [connectWebSocket], and [removeRealtimeListener] of a
    callback that is not in the list.  ([onRealtimeData] makes the list
    longer, and [disconnectWebSocket] replaces it by an empty one.) *)
Definition keepsListeners (l : list nat) (m : WebApi.Method) : Prop :=
  match m with
  | WebApi.Connect _ => True
  | WebApi.RemoveListener callback => ~ In callback l
  | WebApi.AddListener _ | WebApi.Disconnect => False
  end.

Section Quiet.
Context {App : Type}.
Variable call : nat -> value -> App -> completion unit * App * list WebApi.Method.

(** The listeners [ls] are called with [data] one after the other, the
    page being in the state [a] when the first is called: none of them
    throws and none changes the list [l] of listeners.  [a_end] is the
    state of the page after the last call. *)
Fixpoint calledQuietly (l : list nat) (data : value) (ls : list nat) (a a_end : App)
    : Prop :=
  match ls with
  | [] => a_end = a
  | listener :: ls' =>
      exists (a' : App) (methods : list WebApi.Method),
        call listener data a = (Return tt, a', methods) /\
        Forall (keepsListeners l) methods /\
        calledQuietly l data ls' a' a_end
  end.

End Quiet.

End ClientState.

(* ===================================================================== *)
(** * The mobile app: registration and the screens                        *)
(* ===================================================================== *)

(** [apiService.registerUser]. *)
Module MobileRegistration.
Import Mobile.

(** [interface UserData]. *)
Record UserData : Type := mkUserData {
  name : string;
  phone : string;
  email : option string;
  location : string
}.

(** [interface RegistrationResponse]; [userId] is whatever the backend
    sent as [id], or the text of a time. *)
Record RegistrationResponse : Type := mkRegistrationResponse {
  success : bool;
  message : string;
  userId : value
}.

(** Time passes: the clock of the world moves on by [elapsed]. *)
Definition advance (elapsed : float) : M unit :=
  fun w =>
    (Return tt,
     mkWorld (storage w) (storageFails w) (clock w + elapsed)%float (backend w)
       (requests w) (dialogs w) (errorsLogged w)
       (floodData w) (loading w) (monitoringInterval w)).

Section WithBuiltins.
Context `{Builtins}.

(** The object that [registerUser] posts. *)
Definition registrationBody (userData : UserData) : value :=
  VObj [ ("name", VStr (name userData));
         ("phone", VStr (phone userData));
         ("email", match email userData with Some e => VStr e | None => VUndefined end);
         ("location", VStr (location userData));
         ("notification_preferences",
          VObj [ ("sms", VBool true);
                 ("email", VBool (truthy_opt (email userData)));
                 ("app", VBool true) ]) ].

Definition registerRequest (userData : UserData) : Request :=
  mkRequest "POST" (API_BASE_URL ++ "/api/users/register")%string
    (Some (JSON_stringify (registrationBody userData))).

(** [registerUser]; [elapsed] is the time the 1500 ms timer of the
    fallback takes to go off. *)
Definition registerUser (elapsed : float) (userData : UserData)
    : M RegistrationResponse :=
  try_catch
    (let* response := fetch (registerRequest userData) in
     if resp_ok response then
       let* result := json response in
       let* id := lift (JS.get result "id") in
       ret (mkRegistrationResponse true
              "Registration successful! You will receive alerts." id)
     else
       let* error := json response in
       let* detail := lift (JS.get error "detail") in
       throw (Error (ToString (JS.or_else detail (VStr "Registration failed")))))
    (fun _ =>
       console_error "Registration Error:" ;;
       advance elapsed ;;
       let* now := Date_now in
       ret (mkRegistrationResponse true
              "Registration successful! You will receive SMS alerts."
              (VStr (NumberToString now)))).

End WithBuiltins.

End MobileRegistration.

(** [ProfileScreen]: the registration form of the app. *)
Module ProfileScreen.
Import Mobile.

(** The form: [{ name, phone, area }]. *)
Record FormData : Type := mkFormData {
  name : string;
  phone : string;
  area : string
}.

(** The state of the screen; [userProfile] is [null] or the profile
    object. *)
Record State : Type := mkState {
  userProfile : value;
  isRegistered : bool;
  loading : bool;
  formData : FormData
}.

(** The form as [useState] initialises it and as a logout resets it. *)
Definition initialForm : FormData := mkFormData "" "" "Clock Tower".

(** [AsyncStorage.removeItem]. *)
Definition removeItem (key : string) : M unit :=
  fun w =>
    if storageFails w key then (Throw (Rejected "AsyncStorage"), w)
    else (Return tt,
          mkWorld (delete key (storage w)) (storageFails w) (clock w) (backend w)
            (requests w) (dialogs w) (errorsLogged w)
            (Mobile.floodData w) (Mobile.loading w) (monitoringInterval w)).

Section WithBuiltins.
Context `{Builtins}.

(** The object [newProfile] of [handleRegister]. *)
Definition newProfile (form : FormData) (registeredAt : string) (userId : value) : value :=
  VObj [ ("name", VStr (name form));
         ("phone", VStr (phone form));
         ("email", VStr "");
         ("area", VStr (area form));
         ("registeredAt", VStr registeredAt);
         ("userId", userId) ].

Definition saveUserProfile (profile : value) (st : State) : M State :=
  try_catch
    (setItem "userProfile" (JSON_stringify profile) ;;
     ret (mkState profile true (loading st) (formData st)))
    (fun _ => console_error "Failed to save profile:" ;; ret st).

(** [!formData.name || !formData.phone || !formData.area]. *)
Definition fieldMissing (form : FormData) : bool :=
  negb (truthy_str (name form)) || negb (truthy_str (phone form))
  || negb (truthy_str (area form)).

Definition handleRegister (elapsed : float) (st : State) : M State :=
  if fieldMissing (formData st) then
    Alert_alert "Error" "Please fill in all required fields" ;;
    ret st
  else
    let st1 := mkState (userProfile st) (isRegistered st) true (formData st) in
    let* st2 :=
      try_catch
        (let* response :=
           MobileRegistration.registerUser elapsed
             (MobileRegistration.mkUserData (name (formData st1)) (phone (formData st1))
                None (area (formData st1))) in
         let* now := Date_now in
         let profile :=
           newProfile (formData st1) (toISOString now)
             (MobileRegistration.userId response) in
         let* st' := saveUserProfile profile st1 in
         Alert_alert "Success" (MobileRegistration.message response) ;;
         ret st')
        (fun _ =>
           console_error "Registration error:" ;;
           Alert_alert "Error" "Registration failed. Please try again." ;;
           ret st1) in
    ret (mkState (userProfile st2) (isRegistered st2) false (formData st2)).


(** The [onPress] of the logout dialog's button. *)
Definition logout (st : State) : M State :=
  try_catch
    (removeItem "userProfile" ;;
     ret (mkState VNull false (loading st) initialForm))
    (fun _ => console_error "Logout error:" ;; ret st).

End WithBuiltins.

End ProfileScreen.

(** [HomeScreen]: how the status is styled. *)
Module HomeScreen.

Definition getRiskColor (level : string) : string :=
  if String.eqb level "high" then "text-red-500"
  else if String.eqb level "medium" then "text-orange-500"
  else if String.eqb level "low" then "text-green-500"
  else "text-gray-500".

Definition getRiskBgColor (level : string) : string :=
  if String.eqb level "high" then "bg-red-500"
  else if String.eqb level "medium" then "bg-orange-500"
  else if String.eqb level "low" then "bg-green-500"
  else "bg-gray-500".

Definition getRiskIcon (level : string) : string :=
  if String.eqb level "high" then "warning"
  else if String.eqb level "medium" then "alert-circle"
  else if String.eqb level "low" then "checkmark-circle"
  else "information-circle".

(** [floodData?.riskLevel || 'low']. *)
Definition levelOrLow (floodData : option Mobile.Status) : string :=
  match floodData with
  | Some d => if truthy_str (Mobile.riskLevel d) then Mobile.riskLevel d else "low"
  | None => "low"
  end.

(** The [color] of the status icon. *)
Definition iconColor (floodData : option Mobile.Status) : string :=
  match floodData with
  | Some d =>
      if String.eqb (Mobile.riskLevel d) "high" then "#ef4444"
      else if String.eqb (Mobile.riskLevel d) "medium" then "#f97316"
      else "#10b981"
  | None => "#10b981"
  end.

(** The status card's icon, its colour and the class of the badge. *)
Record StatusHeader : Type := mkStatusHeader {
  iconName : string;
  iconTint : string;
  badgeClass : string
}.

Definition statusHeader (floodData : option Mobile.Status) : StatusHeader :=
  mkStatusHeader (getRiskIcon (levelOrLow floodData)) (iconColor floodData)
    (getRiskBgColor (levelOrLow floodData)).

Section WithBuiltins.
Context `{Builtins}.

(** The button "Test Alert". *)
Definition testAlert : Mobile.M unit :=
  Mobile.try_catch (Mobile.showFloodAlert "severe" 85)
    (fun _ =>
       Mobile.bind (Mobile.console_error "❌ Test alert failed:")
         (fun _ => Mobile.Alert_alert "Error" "Failed to trigger test alert")).

End WithBuiltins.

End HomeScreen.

(* ===================================================================== *)
(** * What the alerts panel renders, and the dashboard's alert list       *)
(* ===================================================================== *)

(** The render of [AlertsPanel]. *)
Module AlertsPanelView.
Import AlertsPanel.

(** [alerts.filter(alert => !alert.acknowledged)] and
    [alerts.filter(alert => alert.acknowledged)]. *)
Definition unacknowledgedAlerts (alerts : list Alert) : list Alert :=
  List.filter (fun alert => negb (acknowledged alert)) alerts.

Definition acknowledgedAlerts (alerts : list Alert) : list Alert :=
  List.filter (fun alert => acknowledged alert) alerts.

(** The footer: "Total: n alerts" and "p pending, r resolved". *)
Record Footer : Type := mkFooter {
  total : nat;
  pending : nat;
  resolved : nat
}.

(** The list area: the "No alerts" placeholder, or the rows of the alerts
    not acknowledged, the divider, the heading "Acknowledged (n)" and the
    rows of the acknowledged alerts. *)
Inductive Body : Type :=
| NoAlerts
| Rows (pendingRows : list Alert) (divider : bool) (heading : option nat)
       (resolvedRows : list Alert).

(** The panel: the badge "n new", the button "Clear All", the list area
    and the footer. *)
Record Panel : Type := mkPanel {
  badge : option nat;
  clearAll : bool;
  body : Body;
  footer : option Footer
}.

Definition render (alerts : list Alert) : Panel :=
  let unacknowledged := unacknowledgedAlerts alerts in
  let acknowledged := acknowledgedAlerts alerts in
  mkPanel
    (if (0 <? List.length unacknowledged)%nat
     then Some (List.length unacknowledged) else None)
    (0 <? List.length alerts)%nat
    (if (List.length alerts =? 0)%nat then NoAlerts
     else
       if (0 <? List.length acknowledged)%nat then
         Rows unacknowledged (0 <? List.length unacknowledged)%nat
           (Some (List.length acknowledged)) acknowledged
       else Rows unacknowledged false None [])
    (if (0 <? List.length alerts)%nat
     then Some (mkFooter (List.length alerts) (List.length unacknowledged)
                  (List.length acknowledged))
     else None).

End AlertsPanelView.

(** The mock sensors of the dashboard and the effect that collects the
    alerts. *)
Module DashboardAlerts.
Import SensorAlerts.

(** [sensorLocations]: id, name, latitude and longitude. *)
Definition sensorLocations : list (string * string * float * float) :=
  [ ("sensor-1", "Central Dehradun", 30.3165, 78.0322);
    ("sensor-2", "Rajpur Road", 30.3255, 78.0422);
    ("sensor-3", "Clement Town", 30.3065, 78.0222);
    ("sensor-4", "Mussoorie Road", 30.3365, 78.0522);
    ("sensor-5", "Haridwar Road", 30.2965, 78.0122) ]%float.

Section WithBuiltins.
Context `{Builtins}.

(** The [map] of [initializeSensors] from the location at index [i] on.
    [random n] is the n-th number that [Math.random()] returns and
    [clock i] the time at which the sensor of index [i] is made.  Each
    sensor draws nine numbers: the first is its flood probability, the
    last decides its status, and the seven between are readings that
    [SensorData] does not declare.  No [risk_level] is set. *)
Fixpoint sensorsFrom (random : nat -> float) (clock : nat -> float) (i : nat)
    (locations : list (string * string * float * float)) : list SensorData :=
  match locations with
  | [] => []
  | (id, name, lat, lng) :: rest =>
      mkSensorData id name lat lng
        (random (9 * i)%nat * 0.8 + 0.1)%float
        (toISOString (clock i))
        (if JS.gt (random (9 * i + 8)%nat) 0.8 then warning else online)
        None
      :: sensorsFrom random clock (S i) rest
  end.

Definition initializeSensors (random : nat -> float) (clock : nat -> float)
    : list SensorData :=
  sensorsFrom random clock 0 sensorLocations.

(** The effect on [sensors] and [isMonitoring]: the update of [alerts]. *)
Definition alertsEffect (now : float) (sensors : list SensorData) (isMonitoring : bool)
    (prev : list AlertsPanel.Alert) : list AlertsPanel.Alert :=
  if (0 <? List.length sensors)%nat && isMonitoring then
    JS.slice (-20) (prev ++ generateAlerts now sensors)
  else prev.

(** The alerts after the effect ran for each of [runs] (time, sensors and
    monitoring flag of each run), in order. *)
Definition alertsAfter (runs : list (float * list SensorData * bool))
    (prev : list AlertsPanel.Alert) : list AlertsPanel.Alert :=
  fold_left (fun alerts run => alertsEffect (fst (fst run)) (snd (fst run)) (snd run) alerts)
    runs prev.

End WithBuiltins.

End DashboardAlerts.

(* ===================================================================== *)
(** * The requests the mobile app sends                                   *)
(* ===================================================================== *)

Module MobileTraffic.
Import Mobile.

(** Running [c] takes no request back and adds only requests that
    satisfy [P], whether [c] returns or throws. *)
Definition sends {A : Type} (P : Request -> Prop) (c : M A) : Prop :=
  forall w : World,
    exists rest : list Request,
      requests (snd (c w)) = requests w ++ rest /\ Forall P rest.

(** The request of [getRecommendations]. *)
Definition recommendationsRequest : Request :=
  mkRequest "GET" (API_BASE_URL ++ "/api/ai-recommendations")%string None.

(** The requests that follow the one for the reading. *)
Definition followUp (r : Request) : Prop :=
  r = recommendationsRequest \/ r = autoSendRequest.

End MobileTraffic.

(** The stored alert history. *)
Module MobileHistory.
Import Mobile.

Section WithBuiltins.
Context `{Builtins}.

(** Whether an alert can be put into the stored history: AsyncStorage
    accepts the key, and what is stored under it is not the JSON text of
    something that is no array. *)
Definition historyWritable (w : World) : bool :=
  negb (storageFails w "alertHistory")
  && match storage w !! "alertHistory" with
     | Some h =>
         if truthy_str h then
           match JSON_parse h with
           | Some (VArr _) | None => true
           | Some _ => false
           end
         else true
     | None => true
     end.

End WithBuiltins.

End MobileHistory.

(* ===================================================================== *)
(** * Further concrete inputs                                             *)
(* ===================================================================== *)

Module Inputs.

(** Listeners of the API client that return normally: listener 0 first
    unsubscribes itself, the others call no method. *)
Definition firstUnsubscribes (listener : nat) (data : value) (a : unit)
    : completion unit * unit * list WebApi.Method :=
  if Nat.eqb listener 0
  then (Return tt, a, [WebApi.RemoveListener 0])
  else (Return tt, a, []).

(** Listeners that return normally: listener 0 disconnects the client. *)
Definition firstDisconnects (listener : nat) (data : value) (a : unit)
    : completion unit * unit * list WebApi.Method :=
  if Nat.eqb listener 0
  then (Return tt, a, [WebApi.Disconnect])
  else (Return tt, a, []).

(** Listener 0 reads a property of the data, as the dashboard's callback
    does: it throws on [null] and returns on everything else.  The other
    listeners return after a call of [connectWebSocket]. *)
Definition throwsOnNull (listener : nat) (data : value) (a : unit)
    : completion unit * unit * list WebApi.Method :=
  if Nat.eqb listener 0 then
    match data with
    | VNull | VUndefined => (Throw (TypeError "Cannot read properties of null"), a, [])
    | _ => (Return tt, a, [])
    end
  else (Return tt, a, [WebApi.Connect true]).

(** A client with the listeners 0, 1 and 2 registered, in this order. *)
Definition threeListeners : WebApi.Client unit :=
  WebApi.onRealtimeData 2 Sample.twoListeners.

(** The client with two listeners, connected. *)
Definition connectedClient : WebApi.Client unit :=
  WebApi.connectWebSocket true Sample.twoListeners.

(** The same device with an AsyncStorage that rejects every operation on
    the key [key]. *)
Definition storageRejects (key : string) (w : Mobile.World) : Mobile.World :=
  Mobile.mkWorld (Mobile.storage w)
    (fun k => String.eqb k key || Mobile.storageFails w k)
    (Mobile.clock w) (Mobile.backend w)
    (Mobile.requests w) (Mobile.dialogs w) (Mobile.errorsLogged w)
    (Mobile.floodData w) (Mobile.loading w) (Mobile.monitoringInterval w).

(** The same device with the text [h] stored as the alert history. *)
Definition withHistory (h : string) (w : Mobile.World) : Mobile.World :=
  Mobile.mkWorld (<["alertHistory" := h]> (Mobile.storage w))
    (Mobile.storageFails w)
    (Mobile.clock w) (Mobile.backend w)
    (Mobile.requests w) (Mobile.dialogs w) (Mobile.errorsLogged w)
    (Mobile.floodData w) (Mobile.loading w) (Mobile.monitoringInterval w).

(** A fresh device whose backend reports one severe reading. *)
Definition severeWorld : Mobile.World :=
  Sample.freshWorld (Sample.backendWith (Some (VArr [Sample.readingJson "SEVERE" 0.9]))).

(** The alert portal with a filled-in form. *)
Definition filledForm : AlertPortal.State :=
  AlertPortal.mkState
    (AlertPortal.mkRegistrationData (UString.of_string "+919876543210")
       (UString.of_string "Asha") (UString.of_string "Clock Tower") 30.3165 78.0322)
    (VArr []) false None.

(** A backend of the portal that accepts the registration and then fails
    to list the users. *)
Definition registersOnly (c : AlertPortal.Call) : FetchOutcome :=
  match c with
  | AlertPortal.PostRegister _ => Responded (mkResponse true 200 (Some (VObj [])))
  | AlertPortal.GetUsers => Responded (mkResponse false 500 None)
  end.

End Inputs.

(* ===================================================================== *)
(** * Properties                                                          *)
(* ===================================================================== *)

(** ** Lists and [slice] *)

Lemma slice_negative {A : Type} (n : nat) (l : list A) :
  (0 < n)%nat -> JS.slice (- Z.of_nat n) l = skipn (List.length l - n) l.
Proof.
  intros Hn. unfold JS.slice.
  destruct (Z.ltb_spec (- Z.of_nat n) 0) as [Hneg | Hpos]; [| lia].
  f_equal. lia.
Qed.

Example slice_examples :
  JS.slice (-2) [1; 2; 3]%nat = [2; 3]%nat /\
  JS.slice (-49) [1; 2]%nat = [1; 2]%nat /\
  JS.slice 1 [1; 2; 3]%nat = [2; 3]%nat /\
  JS.slice 5 [1; 2; 3]%nat = @nil nat.
Proof. repeat split. Qed.

Lemma lastn_length {A : Type} (n : nat) (l : list A) :
  List.length (Dashboard.lastn n l) = Nat.min n (List.length l).
Proof. unfold Dashboard.lastn. rewrite length_skipn. lia. Qed.

Lemma lastn_snoc {A : Type} (n : nat) (l : list A) (x : A) :
  Dashboard.lastn (S n) (l ++ [x]) = Dashboard.lastn n l ++ [x].
Proof.
  unfold Dashboard.lastn. rewrite length_app. simpl.
  replace (List.length l + 1 - S n)%nat with (List.length l - n)%nat by lia.
  rewrite skipn_app.
  replace (List.length l - n - List.length l)%nat with 0%nat by lia.
  reflexivity.
Qed.

Lemma lastn_lastn {A : Type} (n m : nat) (l : list A) :
  (n <= m)%nat -> Dashboard.lastn n (Dashboard.lastn m l) = Dashboard.lastn n l.
Proof.
  intros Hnm. unfold Dashboard.lastn at 1 3.
  rewrite lastn_length. unfold Dashboard.lastn.
  rewrite skipn_skipn. f_equal. lia.
Qed.

Lemma lastn_all {A : Type} (n : nat) (l : list A) :
  (List.length l <= n)%nat -> Dashboard.lastn n l = l.
Proof.
  intros Hle. unfold Dashboard.lastn.
  replace (List.length l - n)%nat with 0%nat by lia. reflexivity.
Qed.

(** ** The API client: [getRecentReadings] *)

Section RecentReadings.
Context `{Builtins}.

(** C10, as amended.  When the response is ok and its body is JSON text,
    [getRecentReadings] returns an array: the parsed body itself when that
    is an array, the empty array otherwise.  It throws when the response is
    not ok, and also when the fetch is rejected and when the body of an ok
    response is no JSON text.  Whatever it returns is an array. *)
Theorem getRecentReadings_array_or_throw :
  (forall (response : Response) (data : value),
     resp_ok response = true ->
     resp_json response = Some data ->
     WebApi.getRecentReadings (Responded response)
     = Return (match data with VArr items => VArr items | _ => VArr [] end)) /\
  (forall fetched : FetchOutcome,
     (exists e, WebApi.getRecentReadings fetched = Throw e) <->
     (fetched = NetworkError \/
      exists response,
        fetched = Responded response /\
        (resp_ok response = false \/ resp_json response = None))) /\
  (forall (fetched : FetchOutcome) (v : value),
     WebApi.getRecentReadings fetched = Return v -> exists items, v = VArr items).
Proof.
  split; [| split].
  - intros response data Hok Hjson. unfold WebApi.getRecentReadings.
    rewrite Hok, Hjson. destruct data; reflexivity.
  - intros fetched. unfold WebApi.getRecentReadings. split.
    + intros [e He]. destruct fetched as [| response]; [left; reflexivity |].
      right. exists response. split; [reflexivity |].
      destruct (resp_ok response); [| left; reflexivity].
      destruct (resp_json response); [discriminate | right; reflexivity].
    + intros [-> | (response & -> & [Hok | Hjson])].
      * eexists. reflexivity.
      * rewrite Hok. eexists. reflexivity.
      * destruct (resp_ok response); rewrite ?Hjson; eexists; reflexivity.
  - intros fetched v. unfold WebApi.getRecentReadings.
    destruct fetched as [| response]; [discriminate |].
    destruct (resp_ok response); [| discriminate].
    destruct (resp_json response) as [data |]; [| discriminate].
    intros [= <-]. destruct data; eexists; reflexivity.
Qed.

End RecentReadings.

(** C10 fails as stated: this response is ok (status 200), its body is no
    JSON text, and [getRecentReadings] throws instead of returning an
    array. *)
Lemma getRecentReadings_throws_on_ok_response :
  resp_ok (mkResponse true 200 None) = true /\
  WebApi.getRecentReadings (Responded (mkResponse true 200 None))
  = Throw (SyntaxError "Unexpected token").
Proof. split; reflexivity. Qed.

(** ** The API client: reconnection *)

Section Reconnection.
Context {App : Type}.
Context `{Builtins}.
Variable call : nat -> value -> App -> completion unit * App * list WebApi.Method.

Lemma invoke_timeouts (m : WebApi.Method) (c : WebApi.Client App) :
  WebApi.timeouts (WebApi.invoke m c) = WebApi.timeouts c /\
  (WebApi.sockets c <= WebApi.sockets (WebApi.invoke m c))%nat.
Proof.
  destruct m as [b | l | l |]; cbn [WebApi.invoke].
  - destruct b; cbn; split; (reflexivity || lia).
  - split; reflexivity.
  - unfold WebApi.removeRealtimeListener.
    destruct (WebApi.indexOf l (WebApi.listeners c)); split; reflexivity.
  - split; reflexivity.
Qed.

Lemma afterCall_timeouts (a : App) (methods : list WebApi.Method) :
  forall c : WebApi.Client App,
    WebApi.timeouts (WebApi.afterCall a methods c) = WebApi.timeouts c /\
    (WebApi.sockets c <= WebApi.sockets (WebApi.afterCall a methods c))%nat.
Proof.
  unfold WebApi.afterCall. intros c.
  change (WebApi.timeouts c) with (WebApi.timeouts (WebApi.setApp a c)).
  change (WebApi.sockets c) with (WebApi.sockets (WebApi.setApp a c)).
  generalize (WebApi.setApp a c). clear c.
  induction methods as [| m methods IH]; intros c; cbn [fold_left].
  - split; reflexivity.
  - destruct (IH (WebApi.invoke m c)) as [Ht Hs].
    destruct (invoke_timeouts m c) as [Ht' Hs'].
    split; [congruence | lia].
Qed.

(** Delivering a message schedules nothing and forgets no socket. *)
Lemma forEachFrom_timeouts (r : nat) (data : value) (n : nat) :
  forall (k : nat) (c : WebApi.Client App),
    WebApi.timeouts (snd (WebApi.forEachFrom call r data n k c)) = WebApi.timeouts c /\
    (WebApi.sockets c
     <= WebApi.sockets (snd (WebApi.forEachFrom call r data n k c)))%nat.
Proof.
  induction n as [| n IH]; intros k c; [split; reflexivity |].
  cbn [WebApi.forEachFrom].
  destruct (default [] (WebApi.arrays c !! r) !! k) as [listener |]; [| apply IH].
  destruct (call listener data (WebApi.app c)) as [[[u | e] a] methods].
  - destruct (afterCall_timeouts a methods c) as [Ht Hs].
    destruct (IH (S k) (WebApi.afterCall a methods c)) as [Ht' Hs'].
    destruct (WebApi.forEachFrom call r data n (S k) (WebApi.afterCall a methods c))
      as [[calls result] c2].
    cbn [snd] in *. split; [congruence | lia].
  - cbn [snd]. apply afterCall_timeouts.
Qed.

Lemma onmessage_timeouts (eventData : string) (c : WebApi.Client App) :
  WebApi.timeouts (snd (WebApi.onmessage call eventData c)) = WebApi.timeouts c /\
  (WebApi.sockets c <= WebApi.sockets (snd (WebApi.onmessage call eventData c)))%nat.
Proof.
  unfold WebApi.onmessage, WebApi.forEach.
  destruct (JSON_parse eventData) as [data |]; [| split; reflexivity].
  pose proof (forEachFrom_timeouts (WebApi.wsListeners c) data
                (List.length (WebApi.listeners c)) 0 c) as Hloop.
  destruct (WebApi.forEachFrom call _ data _ 0 c) as [[calls [u | e]] c1];
    exact Hloop.
Qed.

(** One step adds the timer of delay 5000 when it is a close event that
    reaches its handler, and no timer otherwise; no step takes the
    handlers off a socket. *)
Lemma step_timeouts (e : WebApi.Event) (c : WebApi.Client App) :
  WebApi.timeouts (WebApi.step call e c)
  = WebApi.timeouts c ++ repeat 5000%float (WebApi.closesHandled call [e] c) /\
  (WebApi.sockets c <= WebApi.sockets (WebApi.step call e c))%nat.
Proof.
  destruct e as [s | s d | s | s | b | m]; cbn [WebApi.step WebApi.closesHandled].
  - destruct (WebApi.hasHandlers s c); rewrite app_nil_r; split; reflexivity.
  - destruct (WebApi.hasHandlers s c); rewrite app_nil_r;
      [apply onmessage_timeouts | split; reflexivity].
  - destruct (WebApi.hasHandlers s c); rewrite ?app_nil_r; split; reflexivity.
  - destruct (WebApi.hasHandlers s c); rewrite app_nil_r; split; reflexivity.
  - rewrite app_nil_r. destruct (_ <? _)%nat; [destruct b |]; cbn; split;
      (reflexivity || lia).
  - rewrite app_nil_r. apply invoke_timeouts.
Qed.

Lemma run_timeouts (events : list WebApi.Event) :
  forall c : WebApi.Client App,
    WebApi.timeouts (WebApi.run call events c)
    = WebApi.timeouts c ++ repeat 5000%float (WebApi.closesHandled call events c) /\
    (WebApi.sockets c <= WebApi.sockets (WebApi.run call events c))%nat.
Proof.
  induction events as [| e events IH]; intros c.
  - cbn. rewrite app_nil_r. split; reflexivity.
  - cbn [WebApi.run fold_left WebApi.closesHandled].
    change (fold_left _ events ?x) with (WebApi.run call events x).
    destruct (IH (WebApi.step call e c)) as [Ht Hs].
    destruct (step_timeouts e c) as [Ht' Hs'].
    cbn [WebApi.closesHandled] in Ht'. rewrite Nat.add_0_r in Ht'.
    split; [| lia].
    rewrite Ht, Ht', <- app_assoc, <- repeat_app. reflexivity.
Qed.

(** No method of the client touches the count of the timers that went
    off. *)
Lemma invoke_fired (m : WebApi.Method) (c : WebApi.Client App) :
  WebApi.fired (WebApi.invoke m c) = WebApi.fired c.
Proof.
  destruct m as [b | l | l |]; cbn [WebApi.invoke].
  - destruct b; reflexivity.
  - reflexivity.
  - unfold WebApi.removeRealtimeListener.
    destruct (WebApi.indexOf l (WebApi.listeners c)); reflexivity.
  - reflexivity.
Qed.

Lemma afterCall_fired (a : App) (methods : list WebApi.Method) :
  forall c : WebApi.Client App,
    WebApi.fired (WebApi.afterCall a methods c) = WebApi.fired c.
Proof.
  unfold WebApi.afterCall. intros c.
  change (WebApi.fired c) with (WebApi.fired (WebApi.setApp a c)).
  generalize (WebApi.setApp a c). clear c.
  induction methods as [| m methods IH]; intros c; cbn [fold_left]; [reflexivity |].
  rewrite IH. apply invoke_fired.
Qed.

Lemma forEachFrom_fired (r : nat) (data : value) (n : nat) :
  forall (k : nat) (c : WebApi.Client App),
    WebApi.fired (snd (WebApi.forEachFrom call r data n k c)) = WebApi.fired c.
Proof.
  induction n as [| n IH]; intros k c; [reflexivity |].
  cbn [WebApi.forEachFrom].
  destruct (default [] (WebApi.arrays c !! r) !! k) as [listener |]; [| apply IH].
  destruct (call listener data (WebApi.app c)) as [[[u | e] a] methods].
  - pose proof (IH (S k) (WebApi.afterCall a methods c)) as Hrest.
    destruct (WebApi.forEachFrom call r data n (S k) (WebApi.afterCall a methods c))
      as [[calls result] c2].
    cbn [snd] in *. rewrite Hrest. apply afterCall_fired.
  - cbn [snd]. apply afterCall_fired.
Qed.

Lemma onmessage_fired (eventData : string) (c : WebApi.Client App) :
  WebApi.fired (snd (WebApi.onmessage call eventData c)) = WebApi.fired c.
Proof.
  unfold WebApi.onmessage, WebApi.forEach.
  destruct (JSON_parse eventData) as [data |]; [| reflexivity].
  pose proof (forEachFrom_fired (WebApi.wsListeners c) data
                (List.length (WebApi.listeners c)) 0 c) as Hloop.
  destruct (WebApi.forEachFrom call _ data _ 0 c) as [[calls [u | e]] c1];
    exact Hloop.
Qed.

(** No more timers went off than were set: this holds of a new client and
    is kept by every step. *)
Lemma step_pending (e : WebApi.Event) (c : WebApi.Client App) :
  (WebApi.fired c <= List.length (WebApi.timeouts c))%nat ->
  (WebApi.fired (WebApi.step call e c)
   <= List.length (WebApi.timeouts (WebApi.step call e c)))%nat.
Proof.
  intros Hle.
  destruct (step_timeouts e c) as [Ht _]. rewrite Ht, length_app.
  assert (Hfired : (WebApi.fired (WebApi.step call e c) <= WebApi.fired c)%nat
                   \/ (WebApi.fired (WebApi.step call e c)
                       <= List.length (WebApi.timeouts c))%nat).
  { destruct e as [s | s d | s | s | b | m]; cbn [WebApi.step].
    - left. destruct (WebApi.hasHandlers s c); cbn; lia.
    - left. destruct (WebApi.hasHandlers s c); [rewrite onmessage_fired |]; lia.
    - left. destruct (WebApi.hasHandlers s c); cbn; lia.
    - left. destruct (WebApi.hasHandlers s c); cbn; lia.
    - right. destruct (Nat.ltb_spec (WebApi.fired c) (List.length (WebApi.timeouts c)));
        [destruct b; cbn; lia | lia].
    - left. rewrite invoke_fired. lia. }
  lia.
Qed.

Lemma run_pending (events : list WebApi.Event) :
  forall c : WebApi.Client App,
    (WebApi.fired c <= List.length (WebApi.timeouts c))%nat ->
    (WebApi.fired (WebApi.run call events c)
     <= List.length (WebApi.timeouts (WebApi.run call events c)))%nat.
Proof.
  induction events as [| e events IH]; intros c Hle; [exact Hle |].
  cbn [WebApi.run fold_left].
  change (fold_left _ events ?x) with (WebApi.run call events x).
  apply IH, step_pending, Hle.
Qed.

(** C5.  After any run of events, a close event on a socket that
    [connectWebSocket] created schedules exactly one more reconnection,
    with the delay 5000 ms.  The reconnections scheduled along a run are
    one per close event handled, each with the delay 5000 ms, however many
    there were: the delay does not grow.  No event takes the handler off a
    socket.  And what was scheduled is a reconnection: after the close a
    timer is pending, and the timer that goes off calls
    [connectWebSocket], which makes a new socket the client's socket; the
    new socket has the handlers too, so that its close schedules the next
    reconnection, again after 5000 ms: reconnecting never stops. *)
Theorem reconnect_scheduled_after_every_close :
  forall (events : list WebApi.Event) (c : WebApi.Client App) (socket : nat),
    let reached := WebApi.run call events c in
    WebApi.timeouts (WebApi.step call (WebApi.Close socket) reached)
    = WebApi.timeouts reached
      ++ (if WebApi.hasHandlers socket reached then [5000%float] else []) /\
    WebApi.timeouts reached
    = WebApi.timeouts c ++ repeat 5000%float (WebApi.closesHandled call events c) /\
    (WebApi.hasHandlers socket c = true -> WebApi.hasHandlers socket reached = true) /\
    ((WebApi.fired c <= List.length (WebApi.timeouts c))%nat ->
     WebApi.hasHandlers socket reached = true ->
     let closed := WebApi.step call (WebApi.Close socket) reached in
     let reconnected := WebApi.step call (WebApi.TimerFires true) closed in
     (WebApi.fired closed < List.length (WebApi.timeouts closed))%nat /\
     reconnected
     = WebApi.connectWebSocket true
         (WebApi.mkClient (WebApi.arrays closed) (WebApi.wsListeners closed)
            (WebApi.ws closed) (WebApi.sockets closed) (WebApi.timeouts closed)
            (S (WebApi.fired closed)) (WebApi.console closed) (WebApi.app closed)) /\
     WebApi.ws reconnected = Some (WebApi.sockets closed) /\
     WebApi.sockets reconnected = S (WebApi.sockets closed) /\
     WebApi.fired reconnected = S (WebApi.fired closed) /\
     WebApi.hasHandlers (WebApi.sockets closed) closed = false /\
     WebApi.hasHandlers (WebApi.sockets closed) reconnected = true /\
     WebApi.timeouts (WebApi.step call (WebApi.Close (WebApi.sockets closed)) reconnected)
     = WebApi.timeouts closed ++ [5000%float]).
Proof.
  intros events c socket reached. split; [| split; [| split]].
  - cbn [WebApi.step].
    destruct (WebApi.hasHandlers socket reached); [reflexivity |].
    symmetry. apply app_nil_r.
  - apply run_timeouts.
  - unfold WebApi.hasHandlers. rewrite !Nat.ltb_lt. intros Hlt.
    destruct (run_timeouts events c) as [_ Hs]. fold reached in Hs. lia.
  - intros Hpending Hhandlers closed reconnected.
    pose proof (run_pending events c Hpending) as Hreached. fold reached in Hreached.
    assert (Hclosed : closed = WebApi.onclose reached).
    { subst closed. cbn [WebApi.step]. rewrite Hhandlers. reflexivity. }
    assert (Hlt : (WebApi.fired closed < List.length (WebApi.timeouts closed))%nat).
    { rewrite Hclosed. cbn. rewrite length_app. cbn. lia. }
    assert (Hstep : reconnected
                    = WebApi.connectWebSocket true
                        (WebApi.mkClient (WebApi.arrays closed) (WebApi.wsListeners closed)
                           (WebApi.ws closed) (WebApi.sockets closed)
                           (WebApi.timeouts closed) (S (WebApi.fired closed))
                           (WebApi.console closed) (WebApi.app closed))).
    { subst reconnected. cbn [WebApi.step].
      apply Nat.ltb_lt in Hlt. rewrite Hlt. reflexivity. }
    split; [exact Hlt |]. split; [exact Hstep |].
    rewrite Hstep. cbn [WebApi.connectWebSocket WebApi.ws WebApi.sockets WebApi.fired].
    split; [reflexivity |]. split; [reflexivity |]. split; [reflexivity |].
    unfold WebApi.hasHandlers. cbn [WebApi.sockets].
    split; [apply Nat.ltb_irrefl |].
    split; [apply Nat.ltb_lt; lia |].
    cbn [WebApi.step]. unfold WebApi.hasHandlers. cbn [WebApi.sockets].
    replace (WebApi.sockets closed <? S (WebApi.sockets closed))%nat with true
      by (symmetry; apply Nat.ltb_lt; lia).
    reflexivity.
Qed.

End Reconnection.

(** The cycle on a concrete run: connect, close, the timer goes off and
    connects again, close: two reconnections were scheduled, both after
    5000 ms, and a third close schedules the third. *)
Example reconnect_example :
  let events :=
    [ WebApi.Call (WebApi.Connect true); WebApi.Close 0; WebApi.TimerFires true;
      WebApi.Close 1 ] in
  let reached :=
    WebApi.run (H := Sample.builtins) Sample.firstThrows events (WebApi.newClient tt) in
  WebApi.timeouts reached = [5000; 5000]%float /\
  WebApi.timeouts
    (WebApi.step (H := Sample.builtins) Sample.firstThrows (WebApi.Close 1) reached)
  = [5000; 5000; 5000]%float.
Proof. split; reflexivity. Qed.

(** The same through the theorem: the client connected, the socket 0
    closed; the timer that goes off gives the client the socket 1. *)
Lemma reconnect_after_close_example :
  let reached :=
    WebApi.run (H := Sample.builtins) Sample.firstThrows
      [WebApi.Call (WebApi.Connect true)] (WebApi.newClient tt) in
  WebApi.hasHandlers 0 reached = true /\
  WebApi.ws
    (WebApi.run (H := Sample.builtins) Sample.firstThrows
       [WebApi.Close 0; WebApi.TimerFires true] reached)
  = Some 1%nat.
Proof.
  intros reached. split; [reflexivity |].
  destruct (@reconnect_scheduled_after_every_close unit Sample.builtins Sample.firstThrows
              [WebApi.Call (WebApi.Connect true)] (WebApi.newClient tt) 0%nat)
    as (_ & _ & _ & Hcycle).
  destruct (Hcycle (le_n 0) eq_refl) as (_ & _ & Hws & _).
  exact Hws.
Defined.

(** ** The API client: delivery of a message to the listeners *)

Lemma indexOf_absent (callback : nat) (l : list nat) :
  WebApi.indexOf callback l = None <-> ~ In callback l.
Proof.
  induction l as [| x l IH]; cbn [WebApi.indexOf In].
  - split; [intros _ [] | reflexivity].
  - destruct (Nat.eqb_spec x callback) as [-> | Hne].
    + split; [discriminate | intros Hn; exfalso; apply Hn; left; reflexivity].
    + destruct (WebApi.indexOf callback l) as [i |]; cbn [option_map].
      * split; [discriminate |].
        intros Hn. destruct IH as [_ IH].
        assert (Habs : ~ In callback l) by (intros Hin; apply Hn; right; exact Hin).
        specialize (IH Habs). discriminate.
      * split; [| reflexivity]. intros _ [Heq | Hin]; [congruence |].
        apply (proj1 IH); [reflexivity | exact Hin].
Qed.

Section Delivery.
Context {App : Type}.
Context `{Builtins}.
Variable call : nat -> value -> App -> completion unit * App * list WebApi.Method.

(** The loop over a stretch [mid] of well-behaved listeners calls each of
    them once, in order, and goes on behind it with the array unchanged. *)
Lemma forEachFrom_wellBehaved (r : nat) (data : value) (mid : list nat) :
  forall (pre post : list nat) (n : nat) (c : WebApi.Client App),
    WebApi.arrays c !! r = Some (pre ++ mid ++ post) ->
    Forall (WebApi.wellBehaved call) mid ->
    exists c',
      WebApi.arrays c' = WebApi.arrays c /\
      WebApi.wsListeners c' = WebApi.wsListeners c /\
      WebApi.forEachFrom call r data (List.length mid + n) (List.length pre) c
      = (let '(calls, result, c'') :=
           WebApi.forEachFrom call r data n (List.length pre + List.length mid) c' in
         (map (fun l => (l, data)) mid ++ calls, result, c'')).
Proof.
  induction mid as [| l mid IH]; intros pre post n c Harr Hgood.
  - exists c. split; [reflexivity |]. split; [reflexivity |].
    cbn [List.length Nat.add map app]. rewrite Nat.add_0_r.
    destruct (WebApi.forEachFrom call r data n (List.length pre) c) as [[calls result] c''].
    reflexivity.
  - inversion Hgood as [| ? ? Hl Hmid]; subst.
    cbn [List.length Nat.add WebApi.forEachFrom].
    change (pre ++ (l :: mid) ++ post) with (pre ++ l :: mid ++ post) in Harr.
    rewrite Harr. cbn [default from_option id].
    rewrite list_lookup_middle by reflexivity.
    destruct (Hl data (WebApi.app c)) as (a1 & Hcall). rewrite Hcall.
    change (WebApi.afterCall a1 [] c) with (WebApi.setApp a1 c).
    destruct (IH (pre ++ [l]) post n (WebApi.setApp a1 c)) as (c' & Harr' & Hws' & Hloop).
    { cbn [WebApi.setApp WebApi.arrays]. rewrite Harr, <- app_assoc. reflexivity. }
    { exact Hmid. }
    exists c'. split; [exact Harr' |]. split; [exact Hws' |].
    rewrite length_app in Hloop. cbn [List.length] in Hloop.
    replace (List.length pre + 1)%nat with (S (List.length pre)) in Hloop by lia.
    rewrite Hloop.
    replace (S (List.length pre) + List.length mid)%nat
      with (List.length pre + S (List.length mid))%nat by lia.
    destruct (WebApi.forEachFrom call r data n
                (List.length pre + S (List.length mid)) c') as [[calls result] c''].
    reflexivity.
Qed.

Lemma listeners_lookup (c : WebApi.Client App) :
  WebApi.listeners c = [] \/
  WebApi.arrays c !! WebApi.wsListeners c = Some (WebApi.listeners c).
Proof.
  unfold WebApi.listeners.
  destruct (WebApi.arrays c !! WebApi.wsListeners c); [right | left]; reflexivity.
Qed.

(** With well-behaved listeners, [forEach] calls every listener of the
    array exactly once, in the order of registration. *)
Lemma forEach_all (data : value) (c : WebApi.Client App) :
  Forall (WebApi.wellBehaved call) (WebApi.listeners c) ->
  exists c',
    WebApi.forEach call data c
    = (map (fun l => (l, data)) (WebApi.listeners c), Return tt, c').
Proof.
  intros Hgood. unfold WebApi.forEach.
  destruct (listeners_lookup c) as [Hnone | Harr].
  - rewrite Hnone. exists c. reflexivity.
  - destruct (forEachFrom_wellBehaved (WebApi.wsListeners c) data
                (WebApi.listeners c) [] [] 0 c) as (c' & _ & _ & Hloop).
    { rewrite app_nil_r. exact Harr. }
    { exact Hgood. }
    cbn [List.length Nat.add] in Hloop. rewrite Nat.add_0_r in Hloop.
    exists c'. rewrite Hloop. cbn [WebApi.forEachFrom]. rewrite app_nil_r.
    reflexivity.
Qed.

(** A listener that throws ends the loop: the listeners registered after
    it are not called. *)
Lemma forEach_until_throw (data : value) (c : WebApi.Client App)
    (before after : list nat) (l : nat) (e : error) :
  WebApi.listeners c = before ++ l :: after ->
  Forall (WebApi.wellBehaved call) before ->
  (forall a, exists a' methods, call l data a = (Throw e, a', methods)) ->
  exists c',
    WebApi.forEach call data c
    = (map (fun l => (l, data)) (before ++ [l]), Throw e, c').
Proof.
  intros Hls Hgood Hthrow. unfold WebApi.forEach.
  destruct (listeners_lookup c) as [Hnone | Harr].
  { rewrite Hnone in Hls. destruct before; discriminate. }
  rewrite Hls in *.
  destruct (forEachFrom_wellBehaved (WebApi.wsListeners c) data before
              [] (l :: after) (S (List.length after)) c) as (c' & Harr' & Hws' & Hloop).
  { exact Harr. }
  { exact Hgood. }
  rewrite length_app. cbn [List.length Nat.add] in *.
  rewrite Hloop. cbn [WebApi.forEachFrom].
  rewrite Harr', Harr. cbn [default from_option id].
  rewrite list_lookup_middle by reflexivity.
  destruct (Hthrow (WebApi.app c')) as (a1 & methods & ->).
  eexists. rewrite map_app. reflexivity.
Qed.

(** A method that keeps the list of listeners leaves the heap of arrays,
    the reference and the page alone. *)
Lemma invoke_keepsListeners (m : WebApi.Method) (c : WebApi.Client App) :
  ClientState.keepsListeners (WebApi.listeners c) m ->
  WebApi.arrays (WebApi.invoke m c) = WebApi.arrays c /\
  WebApi.wsListeners (WebApi.invoke m c) = WebApi.wsListeners c /\
  WebApi.app (WebApi.invoke m c) = WebApi.app c.
Proof.
  destruct m as [b | l | l |]; cbn [ClientState.keepsListeners WebApi.invoke].
  - intros _. destruct b; repeat split.
  - intros [].
  - intros Habsent. apply indexOf_absent in Habsent.
    unfold WebApi.removeRealtimeListener. rewrite Habsent. repeat split.
  - intros [].
Qed.

Lemma invokes_keepsListeners (methods : list WebApi.Method) :
  forall c : WebApi.Client App,
    Forall (ClientState.keepsListeners (WebApi.listeners c)) methods ->
    WebApi.arrays (fold_left (fun c m => WebApi.invoke m c) methods c) = WebApi.arrays c /\
    WebApi.wsListeners (fold_left (fun c m => WebApi.invoke m c) methods c)
    = WebApi.wsListeners c /\
    WebApi.app (fold_left (fun c m => WebApi.invoke m c) methods c) = WebApi.app c.
Proof.
  induction methods as [| m methods IH]; intros c Hkeep; cbn [fold_left].
  - repeat split.
  - inversion Hkeep as [| ? ? Hm Hrest]; subst.
    destruct (invoke_keepsListeners m c Hm) as (Harr & Hws & Happ).
    destruct (IH (WebApi.invoke m c)) as (Harr' & Hws' & Happ').
    { unfold WebApi.listeners. rewrite Harr, Hws. exact Hrest. }
    repeat split; congruence.
Qed.

Lemma afterCall_keepsListeners (a : App) (methods : list WebApi.Method)
    (c : WebApi.Client App) :
  Forall (ClientState.keepsListeners (WebApi.listeners c)) methods ->
  WebApi.arrays (WebApi.afterCall a methods c) = WebApi.arrays c /\
  WebApi.wsListeners (WebApi.afterCall a methods c) = WebApi.wsListeners c /\
  WebApi.app (WebApi.afterCall a methods c) = a.
Proof.
  intros Hkeep. unfold WebApi.afterCall.
  exact (invokes_keepsListeners methods (WebApi.setApp a c) Hkeep).
Qed.

(** The loop over a stretch [mid] of listeners that are called quietly
    calls each of them once, in order, and goes on behind it with the
    array unchanged. *)
Lemma forEachFrom_quiet (data : value) (mid : list nat) :
  forall (pre post : list nat) (n : nat) (c : WebApi.Client App) (a_end : App),
    WebApi.arrays c !! WebApi.wsListeners c = Some (pre ++ mid ++ post) ->
    ClientState.calledQuietly call (pre ++ mid ++ post) data mid (WebApi.app c) a_end ->
    exists c',
      WebApi.arrays c' = WebApi.arrays c /\
      WebApi.wsListeners c' = WebApi.wsListeners c /\
      WebApi.app c' = a_end /\
      WebApi.forEachFrom call (WebApi.wsListeners c) data (List.length mid + n)
        (List.length pre) c
      = (let '(calls, result, c'') :=
           WebApi.forEachFrom call (WebApi.wsListeners c) data n
             (List.length pre + List.length mid) c' in
         (map (fun l => (l, data)) mid ++ calls, result, c'')).
Proof.
  induction mid as [| l mid IH]; intros pre post n c a_end Harr Hquiet.
  - cbn [ClientState.calledQuietly] in Hquiet. subst a_end.
    exists c. split; [reflexivity |]. split; [reflexivity |]. split; [reflexivity |].
    cbn [List.length Nat.add map app]. rewrite Nat.add_0_r.
    destruct (WebApi.forEachFrom call (WebApi.wsListeners c) data n (List.length pre) c)
      as [[calls result] c''].
    reflexivity.
  - cbn [ClientState.calledQuietly] in Hquiet.
    destruct Hquiet as (a1 & methods & Hcall & Hkeep & Hquiet).
    cbn [List.length Nat.add WebApi.forEachFrom].
    change (pre ++ (l :: mid) ++ post) with (pre ++ l :: mid ++ post) in *.
    rewrite Harr. cbn [default from_option id].
    rewrite list_lookup_middle by reflexivity.
    rewrite Hcall.
    destruct (afterCall_keepsListeners a1 methods c) as (Harr1 & Hws1 & Happ1).
    { unfold WebApi.listeners. rewrite Harr. exact Hkeep. }
    destruct (IH (pre ++ [l]) post n (WebApi.afterCall a1 methods c) a_end)
      as (c' & Harr' & Hws' & Happ' & Hloop).
    { rewrite Harr1, Hws1, Harr, <- app_assoc. reflexivity. }
    { rewrite Happ1, <- app_assoc. exact Hquiet. }
    exists c'. split; [congruence |]. split; [congruence |]. split; [exact Happ' |].
    rewrite Hws1 in Hloop.
    rewrite length_app in Hloop. cbn [List.length] in Hloop.
    replace (List.length pre + 1)%nat with (S (List.length pre)) in Hloop by lia.
    rewrite Hloop.
    replace (S (List.length pre) + List.length mid)%nat
      with (List.length pre + S (List.length mid))%nat by lia.
    destruct (WebApi.forEachFrom call (WebApi.wsListeners c) data n
                (List.length pre + S (List.length mid)) c') as [[calls result] c''].
    reflexivity.
Qed.

(** When no listener throws or changes the list, [forEach] calls every
    listener of the array exactly once, in the order of registration. *)
Lemma forEach_quiet (data : value) (c : WebApi.Client App) (a_end : App) :
  ClientState.calledQuietly call (WebApi.listeners c) data (WebApi.listeners c)
    (WebApi.app c) a_end ->
  exists c',
    WebApi.forEach call data c
    = (map (fun l => (l, data)) (WebApi.listeners c), Return tt, c') /\
    WebApi.listeners c' = WebApi.listeners c /\
    WebApi.app c' = a_end.
Proof.
  intros Hquiet. unfold WebApi.forEach.
  destruct (listeners_lookup c) as [Hnone | Harr].
  - rewrite Hnone in *. cbn [ClientState.calledQuietly] in Hquiet. subst a_end.
    exists c. repeat split. exact Hnone.
  - destruct (forEachFrom_quiet data (WebApi.listeners c) [] [] 0 c a_end)
      as (c' & Harr' & Hws' & Happ' & Hloop).
    { rewrite app_nil_r. exact Harr. }
    { rewrite app_nil_r. exact Hquiet. }
    cbn [List.length Nat.add] in Hloop. rewrite Nat.add_0_r in Hloop.
    exists c'. rewrite Hloop. cbn [WebApi.forEachFrom]. rewrite app_nil_r.
    split; [reflexivity |]. split; [| exact Happ'].
    unfold WebApi.listeners. rewrite Harr', Hws'. reflexivity.
Qed.

(** The first listener that throws ends the loop. *)
Lemma forEach_quiet_until_throw (data : value) (c : WebApi.Client App)
    (before after : list nat) (l : nat) (e : error) (a1 a2 : App)
    (methods : list WebApi.Method) :
  WebApi.listeners c = before ++ l :: after ->
  ClientState.calledQuietly call (WebApi.listeners c) data before (WebApi.app c) a1 ->
  call l data a1 = (Throw e, a2, methods) ->
  exists c',
    WebApi.forEach call data c
    = (map (fun l => (l, data)) (before ++ [l]), Throw e, c').
Proof.
  intros Hls Hquiet Hthrow. unfold WebApi.forEach.
  destruct (listeners_lookup c) as [Hnone | Harr].
  { rewrite Hnone in Hls. destruct before; discriminate. }
  rewrite Hls in *.
  destruct (forEachFrom_quiet data before [] (l :: after) (S (List.length after)) c a1)
    as (c' & Harr' & Hws' & Happ' & Hloop).
  { exact Harr. }
  { exact Hquiet. }
  rewrite length_app. cbn [List.length Nat.add] in *.
  rewrite Hloop. cbn [WebApi.forEachFrom].
  rewrite Harr', Harr. cbn [default from_option id].
  rewrite list_lookup_middle by reflexivity.
  rewrite Happ', Hthrow.
  eexists. rewrite map_app. reflexivity.
Qed.

(** C8, as amended.  The message handler always completes normally.  When
    the body is no JSON text, no listener is called and the error is
    logged.  When it parses and no listener throws or changes the list of
    listeners (each, called with the parsed value in the state the page is
    then in, returns, and the methods of the client it calls leave the
    list as it is), every registered listener is called exactly once with
    the parsed value, in the order of registration, and the list is as
    before.  The first listener that throws ends the delivery: the
    listeners registered after it are not called, and the error is
    logged. *)
Theorem onmessage_delivery :
  forall (eventData : string) (c : WebApi.Client App),
    (exists calls c', WebApi.onmessage call eventData c = (calls, Return tt, c')) /\
    (JSON_parse eventData = None ->
     WebApi.onmessage call eventData c
     = ([], Return tt, WebApi.log "Error parsing WebSocket data:" c)) /\
    (forall data a_end,
       JSON_parse eventData = Some data ->
       ClientState.calledQuietly call (WebApi.listeners c) data (WebApi.listeners c)
         (WebApi.app c) a_end ->
       exists c',
         WebApi.onmessage call eventData c
         = (map (fun l => (l, data)) (WebApi.listeners c), Return tt, c') /\
         WebApi.listeners c' = WebApi.listeners c /\
         WebApi.app c' = a_end) /\
    (forall data before l after e a1 a2 methods,
       JSON_parse eventData = Some data ->
       WebApi.listeners c = before ++ l :: after ->
       ClientState.calledQuietly call (WebApi.listeners c) data before (WebApi.app c) a1 ->
       call l data a1 = (Throw e, a2, methods) ->
       exists c',
         WebApi.onmessage call eventData c
         = (map (fun l => (l, data)) (before ++ [l]), Return tt,
            WebApi.log "Error parsing WebSocket data:" c')) /\
    (forall (data : value) (ls : list nat) (a : App),
       Forall (WebApi.wellBehaved call) ls ->
       exists a_end,
         ClientState.calledQuietly call (WebApi.listeners c) data ls a a_end).
Proof.
  intros eventData c. split; [| split; [| split; [| split]]].
  - unfold WebApi.onmessage.
    destruct (JSON_parse eventData) as [data |]; [| eexists; eexists; reflexivity].
    destruct (WebApi.forEach call data c) as [[calls [u | e]] c'];
      eexists; eexists; reflexivity.
  - intros Hparse. unfold WebApi.onmessage. rewrite Hparse. reflexivity.
  - intros data a_end Hparse Hquiet. unfold WebApi.onmessage. rewrite Hparse.
    destruct (forEach_quiet data c a_end Hquiet) as (c' & -> & Hls & Happ).
    exists c'. repeat split; assumption.
  - intros data before l after e a1 a2 methods Hparse Hls Hquiet Hthrow.
    unfold WebApi.onmessage. rewrite Hparse.
    destruct (forEach_quiet_until_throw data c before after l e a1 a2 methods
                Hls Hquiet Hthrow) as (c' & ->).
    exists c'. reflexivity.
  - intros data ls. induction ls as [| l ls IH]; intros a Hgood.
    + exists a. reflexivity.
    + inversion Hgood as [| ? ? Hl Hrest]; subst.
      destruct (Hl data a) as (a1 & Hcall).
      destruct (IH a1 Hrest) as (a_end & Hquiet).
      exists a_end. cbn [ClientState.calledQuietly].
      exists a1, []. split; [exact Hcall |]. split; [constructor | exact Hquiet].
Qed.

End Delivery.

(** C8 fails as stated: the body [null] parses, the listeners 0 and 1 are
    registered, listener 0 throws, and listener 1 is never called. *)
Lemma second_listener_not_called_when_first_throws :
  @JSON_parse Sample.builtins "null" = Some VNull /\
  WebApi.listeners Sample.twoListeners = [0; 1]%nat /\
  WebApi.onmessage (H := Sample.builtins) Sample.firstThrows "null" Sample.twoListeners
  = ([(0%nat, VNull)], Return tt,
     WebApi.log "Error parsing WebSocket data:" Sample.twoListeners).
Proof. repeat split. Qed.

(** The amended claim on listeners like the dashboard's: the body [[]]
    parses, listener 0 (which would throw on [null]) returns, listener 1
    reconnects and returns, and both are called. *)
Lemma onmessage_delivery_example :
  @JSON_parse Sample.builtins "[]" = Some (VArr []) /\
  exists c',
    WebApi.onmessage (H := Sample.builtins) Inputs.throwsOnNull "[]" Sample.twoListeners
    = ([(0%nat, VArr []); (1%nat, VArr [])], Return tt, c') /\
    WebApi.listeners c' = [0; 1]%nat.
Proof.
  split; [reflexivity |].
  destruct (@onmessage_delivery unit Sample.builtins Inputs.throwsOnNull "[]"
              Sample.twoListeners) as (_ & _ & Hall & _).
  destruct (Hall (VArr []) tt eq_refl) as (c' & Hrun & Hls & _).
  { exists tt, []. split; [reflexivity |]. split; [constructor |].
    exists tt, [WebApi.Connect true]. split; [reflexivity |].
    split; [repeat constructor | reflexivity]. }
  exists c'. split; [exact Hrun | exact Hls].
Defined.

(** ** The dashboard's readings buffer *)

Section DashboardBuffer.
Context `{Builtins}.

Lemma appendReading_lastn (r : FloodData) (prev : list FloodData) :
  Dashboard.appendReading r prev = Dashboard.lastn 49 prev ++ [r].
Proof.
  unfold Dashboard.appendReading.
  change (-49)%Z with (- Z.of_nat 49)%Z.
  rewrite slice_negative by lia. reflexivity.
Qed.

Lemma onRealtimeData_data (r : FloodData) (st : Dashboard.State) :
  Dashboard.data (fst (Dashboard.onRealtimeData r st))
  = Dashboard.appendReading r (Dashboard.data st).
Proof. reflexivity. Qed.

(** The buffer after a run of deliveries is the window of the last 50
    elements of everything that was ever put in it. *)
Lemma deliver_window (rs : list FloodData) :
  forall (st : Dashboard.State) (r : FloodData),
    Dashboard.data (Dashboard.deliver (rs ++ [r]) st)
    = Dashboard.lastn 50 (Dashboard.data st ++ rs ++ [r]).
Proof.
  induction rs as [| r' rs IH] using rev_ind; intros st r.
  - simpl. rewrite appendReading_lastn.
    change 50%nat with (S 49). rewrite lastn_snoc. reflexivity.
  - unfold Dashboard.deliver in *. rewrite fold_left_app. simpl.
    rewrite appendReading_lastn, IH.
    rewrite lastn_lastn by lia.
    replace (Dashboard.data st ++ (rs ++ [r']) ++ [r])
      with ((Dashboard.data st ++ rs ++ [r']) ++ [r])
      by (rewrite <- !app_assoc; reflexivity).
    change 50%nat with (S 49).
    rewrite lastn_snoc. reflexivity.
Qed.

(** C2.  Whatever the buffer held and whatever readings [rs] the WebSocket
    listener received before, after the delivery of one more reading [r]
    the buffer holds at most 50 readings, [r] is its last element, it is
    the window of the 50 newest readings of the whole history, nothing is
    dropped while fewer than 50 readings were held, and the oldest reading
    is dropped when 50 were held. *)
Theorem realtime_buffer_is_rolling_window :
  forall (st : Dashboard.State) (rs : list FloodData) (r : FloodData),
    let before := Dashboard.deliver rs st in
    let after := fst (Dashboard.onRealtimeData r before) in
    Dashboard.deliver (rs ++ [r]) st = after /\
    (List.length (Dashboard.data after) <= 50)%nat /\
    last (Dashboard.data after) = Some r /\
    Dashboard.data after = Dashboard.lastn 50 (Dashboard.data st ++ rs ++ [r]) /\
    ((List.length (Dashboard.data before) < 50)%nat ->
       Dashboard.data after = Dashboard.data before ++ [r]) /\
    (List.length (Dashboard.data before) = 50%nat ->
       Dashboard.data after = List.tl (Dashboard.data before) ++ [r]).
Proof.
  intros st rs r before after.
  assert (Hrun : Dashboard.deliver (rs ++ [r]) st = after).
  { unfold Dashboard.deliver. rewrite fold_left_app. reflexivity. }
  assert (Hdata : Dashboard.data after
                  = Dashboard.lastn 49 (Dashboard.data before) ++ [r]).
  { unfold after. rewrite onRealtimeData_data. apply appendReading_lastn. }
  split; [exact Hrun |].
  split.
  { rewrite Hdata, length_app, lastn_length. cbn [List.length]. lia. }
  split.
  { rewrite Hdata. apply last_snoc. }
  split.
  { rewrite <- Hrun. apply deliver_window. }
  split.
  - intros Hlt. rewrite Hdata, lastn_all by lia. reflexivity.
  - intros Hfull. rewrite Hdata. f_equal.
    unfold Dashboard.lastn. rewrite Hfull. simpl.
    destruct (Dashboard.data before); [discriminate | reflexivity].
Qed.

End DashboardBuffer.

(** ** The status card and the sample alerts *)

Section SevereReading.
Context `{Builtins}.

Lemma riskColor_severe (d : FloodData) :
  risk_level d = Some "SEVERE" -> StatusCards.riskColor d = "text-red-600".
Proof. intros Hl. unfold StatusCards.riskColor. rewrite Hl. reflexivity. Qed.

(** C3.  For a reading whose backend label is 'SEVERE', the first status
    card shows the flood-risk figure (and the label under it) in the class
    [text-red-600], and [generateSampleAlerts] returns exactly one alert,
    of type [critical] and not acknowledged. *)
Theorem severe_reading_red_card_one_critical_alert :
  forall (d : FloodData) (isConnected : bool) (now : float),
    risk_level d = Some "SEVERE" ->
    (exists rest,
       StatusCards.StatusCards (Some d) isConnected
       = StatusCards.mkCard "Flood Risk"
           "text-2xl font-bold text-red-600"
           (toFixed (floodProbability d * 100)%float 1 ++ "%")%string
           (Some ("text-xs font-medium text-red-600", "SEVERE"))
           StatusCards.WarningSign false
         :: rest) /\
    (exists a,
       AlertsPanel.generateSampleAlerts now (floodProbability d) (risk_level d) = [a] /\
       AlertsPanel.type a = AlertsPanel.critical /\
       AlertsPanel.acknowledged a = false).
Proof.
  intros d isConnected now Hl. split.
  - eexists. unfold StatusCards.StatusCards.
    rewrite (riskColor_severe d Hl).
    unfold StatusCards.riskText. rewrite Hl. reflexivity.
  - unfold AlertsPanel.generateSampleAlerts. rewrite Hl.
    eexists. split; [reflexivity |]. split; reflexivity.
Qed.

End SevereReading.

Lemma severe_reading_example :
  risk_level (Sample.reading (Some "SEVERE") 0.93) = Some "SEVERE" /\
  (exists rest,
     @StatusCards.StatusCards Sample.builtins
       (Some (Sample.reading (Some "SEVERE") 0.93)) true
     = StatusCards.mkCard "Flood Risk" "text-2xl font-bold text-red-600" "#%"
         (Some ("text-xs font-medium text-red-600", "SEVERE"))
         StatusCards.WarningSign false
       :: rest) /\
  (exists a,
     @AlertsPanel.generateSampleAlerts Sample.builtins 1000000 0.93 (Some "SEVERE") = [a] /\
     AlertsPanel.type a = AlertsPanel.critical /\
     AlertsPanel.acknowledged a = false).
Proof.
  split; [reflexivity |].
  exact (@severe_reading_red_card_one_critical_alert Sample.builtins
           (Sample.reading (Some "SEVERE") 0.93) true 1000000 eq_refl).
Defined.

(** ** The mobile app *)

Section MobileApp.
Context `{Builtins}.

(** A [try]/[catch] whose handler returns always returns. *)
Lemma try_catch_returns {A : Type} (body : Mobile.M A) (handler : error -> Mobile.M A) :
  (forall e w, exists a w', handler e w = (Return a, w')) ->
  forall w, exists a w', Mobile.try_catch body handler w = (Return a, w').
Proof.
  intros Hh w. unfold Mobile.try_catch.
  destruct (body w) as [[a | e] w'].
  - exists a, w'. reflexivity.
  - apply Hh.
Qed.

Lemma getFloodStatus_returns (w : Mobile.World) :
  exists d w', Mobile.getFloodStatus w = (Return d, w').
Proof.
  unfold Mobile.getFloodStatus. apply try_catch_returns.
  intros e w0. eexists; eexists. reflexivity.
Qed.

Lemma loadFloodData_returns (w : Mobile.World) :
  exists w', Mobile.loadFloodData w = (Return tt, w').
Proof.
  unfold Mobile.loadFloodData, Mobile.try_catch, Mobile.bind.
  destruct (getFloodStatus_returns w) as (d & w1 & ->).
  eexists. reflexivity.
Qed.

(** The polling timer that [checkAndUpdateInterval] leaves in force is the
    table's entry for the label of the status it has just fetched. *)
Lemma checkAndUpdateInterval_sets_table_entry (w : Mobile.World) :
  exists w1 d w2,
    Mobile.loadFloodData w = (Return tt, w1) /\
    Mobile.getFloodStatus w1 = (Return d, w2) /\
    Mobile.monitoringInterval (snd (Mobile.checkAndUpdateInterval w))
    = Some (Mobile.intervalMinutes (Mobile.riskLevel d) * 60 * 1000)%Z.
Proof.
  destruct (loadFloodData_returns w) as (w1 & Hload).
  destruct (getFloodStatus_returns w1) as (d & w2 & Hget).
  exists w1, d, w2. split; [exact Hload |]. split; [exact Hget |].
  unfold Mobile.checkAndUpdateInterval, Mobile.try_catch, Mobile.bind.
  rewrite Hload, Hget.
  destruct (Mobile.monitoringInterval w2); reflexivity.
Qed.

Lemma intervalMinutes_by_rank (l : string) :
  Mobile.intervalMinutes l
  = match Mobile.riskRank l with
    | 3%nat => 1%Z
    | 2%nat => 2%Z
    | 1%nat => 5%Z
    | _ => 10%Z
    end.
Proof.
  unfold Mobile.intervalMinutes, Mobile.riskRank.
  destruct (String.eqb l "severe"); [reflexivity |].
  destruct (String.eqb l "high"); [reflexivity |].
  destruct (String.eqb l "mild"); reflexivity.
Qed.

Lemma riskRank_le_3 (l : string) : (Mobile.riskRank l <= 3)%nat.
Proof.
  unfold Mobile.riskRank.
  repeat match goal with |- context [String.eqb ?a ?b] => destruct (String.eqb a b) end; lia.
Qed.

(** C4.  The polling interval is a lookup table of the risk label:
    'severe' gives 1 minute, 'high' 2, 'mild' 5 and every other label 10;
    of two labels the one of strictly higher risk never gets the longer
    interval; and the timer that [checkAndUpdateInterval] installs is the
    table's entry, in milliseconds, for the label it has just observed. *)
Theorem polling_interval_is_lookup_table :
  Mobile.intervalMinutes "severe" = 1%Z /\
  Mobile.intervalMinutes "high" = 2%Z /\
  Mobile.intervalMinutes "mild" = 5%Z /\
  (forall l : string,
     l <> "severe" -> l <> "high" -> l <> "mild" -> Mobile.intervalMinutes l = 10%Z) /\
  (forall l1 l2 : string,
     (Mobile.riskRank l1 < Mobile.riskRank l2)%nat ->
     (Mobile.intervalMinutes l2 <= Mobile.intervalMinutes l1)%Z) /\
  (forall w : Mobile.World,
     exists w1 d w2,
       Mobile.loadFloodData w = (Return tt, w1) /\
       Mobile.getFloodStatus w1 = (Return d, w2) /\
       Mobile.monitoringInterval (snd (Mobile.checkAndUpdateInterval w))
       = Some (Mobile.intervalMinutes (Mobile.riskLevel d) * 60 * 1000)%Z).
Proof.
  repeat split; try reflexivity.
  - intros l Hs Hh Hm. unfold Mobile.intervalMinutes.
    apply String.eqb_neq in Hs, Hh, Hm. rewrite Hs, Hh, Hm. reflexivity.
  - intros l1 l2. rewrite !intervalMinutes_by_rank.
    pose proof (riskRank_le_3 l1). pose proof (riskRank_le_3 l2).
    destruct (Mobile.riskRank l1) as [| [| [| [| ?]]]];
      destruct (Mobile.riskRank l2) as [| [| [| [| ?]]]]; lia.
  - apply checkAndUpdateInterval_sets_table_entry.
Qed.

End MobileApp.

(** ** [getFloodStatus]: fallback data and the origin of the risk label *)

Section MobileStatus.
Context `{Builtins}.

Lemma getFloodStatus_network_error (w : Mobile.World) :
  Mobile.backend w Mobile.recentReadingsRequest = NetworkError ->
  Mobile.getFloodStatus w
  = (Return (Mobile.fallbackData (Mobile.clock w)),
     Mobile.logged "API Error:" (Mobile.sent Mobile.recentReadingsRequest w)).
Proof.
  intros Hnet.
  unfold Mobile.getFloodStatus, Mobile.try_catch, Mobile.bind, Mobile.fetch.
  rewrite Hnet. reflexivity.
Qed.

Lemma getFloodStatus_not_ok (w : Mobile.World) (resp : Response) :
  Mobile.backend w Mobile.recentReadingsRequest = Responded resp ->
  resp_ok resp = false ->
  Mobile.getFloodStatus w
  = (Return (Mobile.fallbackData (Mobile.clock w)),
     Mobile.logged "API Error:" (Mobile.sent Mobile.recentReadingsRequest w)).
Proof.
  intros Hresp Hok.
  unfold Mobile.getFloodStatus, Mobile.try_catch, Mobile.bind, Mobile.fetch.
  rewrite Hresp, Hok. reflexivity.
Qed.

Lemma getFloodStatus_no_readings (w : Mobile.World) (resp : Response) :
  Mobile.backend w Mobile.recentReadingsRequest = Responded resp ->
  resp_ok resp = true ->
  resp_json resp = Some (VArr []) ->
  Mobile.getFloodStatus w
  = (Return (Mobile.fallbackData (Mobile.clock w)),
     Mobile.sent Mobile.recentReadingsRequest w).
Proof.
  intros Hresp Hok Hjson.
  unfold Mobile.getFloodStatus, Mobile.try_catch, Mobile.bind, Mobile.fetch, Mobile.json.
  rewrite Hresp, Hok, Hjson. reflexivity.
Qed.

(** C6.  [getFloodStatus] never throws: in every world it returns a status.
    When the fetch fails, when the response is not ok, and when the list of
    readings is empty, the status is the fixed placeholder: risk level
    'low', 15.3 percent, rainfall 2.5, water level 1.8, temperature 26,
    humidity 68 and the four default recommendations, stamped with the
    current time. *)
Theorem getFloodStatus_never_throws_and_falls_back :
  forall w : Mobile.World,
    let placeholder :=
      Mobile.mkStatus "low" 15.3 (VNum 2.5) (VNum 1.8) (VNum 26) (VNum 68)
        (VStr (toISOString (Mobile.clock w)))
        (VArr [ VStr "Monitor weather conditions regularly";
                VStr "Check drainage systems in your area";
                VStr "Stay informed about weather updates";
                VStr "Keep emergency contacts handy" ]) in
    (exists d w', Mobile.getFloodStatus w = (Return d, w')) /\
    (Mobile.backend w Mobile.recentReadingsRequest = NetworkError ->
     exists w', Mobile.getFloodStatus w = (Return placeholder, w')) /\
    (forall resp,
       Mobile.backend w Mobile.recentReadingsRequest = Responded resp ->
       resp_ok resp = false ->
       exists w', Mobile.getFloodStatus w = (Return placeholder, w')) /\
    (forall resp,
       Mobile.backend w Mobile.recentReadingsRequest = Responded resp ->
       resp_ok resp = true ->
       resp_json resp = Some (VArr []) ->
       exists w', Mobile.getFloodStatus w = (Return placeholder, w')).
Proof.
  intros w placeholder. split; [apply getFloodStatus_returns |].
  split; [| split].
  - intros Hnet. eexists. apply getFloodStatus_network_error, Hnet.
  - intros resp Hresp Hok. eexists. eapply getFloodStatus_not_ok; eassumption.
  - intros resp Hresp Hok Hjson. eexists.
    eapply getFloodStatus_no_readings; eassumption.
Qed.

End MobileStatus.

(** ** Where the mobile app's risk label comes from *)

Lemma bind_returns {A B : Type} (c : Mobile.M A) (k : A -> Mobile.M B)
    (w w' : Mobile.World) (b : B) :
  Mobile.bind c k w = (Return b, w') ->
  exists a w1, c w = (Return a, w1) /\ k a w1 = (Return b, w').
Proof.
  unfold Mobile.bind. destruct (c w) as [[a | e] w1]; intros Hk.
  - exists a, w1. split; [reflexivity | exact Hk].
  - discriminate.
Qed.

(** Peels the outermost [bind] off a hypothesis that says a computation
    returned. *)
Tactic Notation "bind_inv" hyp(Hrun) "as" ident(a) ident(w1) ident(Ha) :=
  apply bind_returns in Hrun; destruct Hrun as (a & w1 & Ha & Hrun).

Section MobileLabel.
Context `{Builtins}.

(** The status that [getFloodStatus] returns is the placeholder, or its
    label was computed from the [floodProbability] of the first reading. *)
Lemma getFloodStatus_label (w : Mobile.World) :
  exists d w',
    Mobile.getFloodStatus w = (Return d, w') /\
    ((exists t, d = Mobile.fallbackData t) \/
     (exists resp readings fp,
        Mobile.backend w Mobile.recentReadingsRequest = Responded resp /\
        resp_json resp = Some readings /\
        JS.get (JS.index0 readings) "floodProbability" = Return fp /\
        Mobile.riskLevel d = Mobile.riskLevelOf fp)).
Proof.
  unfold Mobile.getFloodStatus, Mobile.try_catch.
  unfold Mobile.bind at 1. unfold Mobile.fetch.
  destruct (Mobile.backend w Mobile.recentReadingsRequest) as [| resp] eqn:Hb.
  { eexists; eexists; split; [reflexivity | left; eexists; reflexivity]. }
  destruct (resp_ok resp) eqn:Hok; cbn [negb];
    [| eexists; eexists; split; [reflexivity | left; eexists; reflexivity]].
  unfold Mobile.bind at 1. unfold Mobile.json.
  destruct (resp_json resp) as [readings |] eqn:Hj;
    [| eexists; eexists; split; [reflexivity | left; eexists; reflexivity]].
  cbn [Mobile.ret].
  destruct (truthy readings && JS.gt (ToNumber (JS.length_of readings)) 0);
    [| eexists; eexists; split; [reflexivity | left; eexists; reflexivity]].
  unfold Mobile.bind at 1. unfold Mobile.lift at 1.
  destruct (JS.get (JS.index0 readings) "floodProbability") as [fp | e] eqn:Hfp;
    [| eexists; eexists; split; [reflexivity | left; eexists; reflexivity]].
  match goal with
  | |- context [match ?body ?w0 with _ => _ end] =>
      destruct (body w0) as [[d | e] w'] eqn:Hbody
  end.
  2:{ eexists; eexists; split; [reflexivity | left; eexists; reflexivity]. }
  exists d, w'. split; [reflexivity |]. right.
  exists resp, readings, fp. repeat split; try assumption.
  bind_inv Hbody as rainfall w1 H1.
  bind_inv Hbody as waterLevel w2 H2.
  bind_inv Hbody as temperature w3 H3.
  bind_inv Hbody as humidity w4 H4.
  bind_inv Hbody as timestamp w5 H5.
  bind_inv Hbody as recommendations w6 H6.
  bind_inv Hbody as previousRisk w7 H7.
  bind_inv Hbody as u w8 H8.
  unfold Mobile.ret in Hbody. injection Hbody as <- _. reflexivity.
Qed.

End MobileLabel.

(** ** Which code classifies by the backend's label, and which does not *)

Section LabelSources.
Context `{Builtins}.

Lemma sample_alert_types (now p : float) (l : option string) :
  map AlertsPanel.type (AlertsPanel.generateSampleAlerts now p l)
  = if decide (l = Some "SEVERE") then [AlertsPanel.critical]
    else if decide (l = Some "HIGH") then [AlertsPanel.warning]
    else [AlertsPanel.info].
Proof.
  unfold AlertsPanel.generateSampleAlerts.
  destruct (decide (l = Some "SEVERE")); [reflexivity |].
  destruct (decide (l = Some "HIGH")); reflexivity.
Qed.

Lemma sensor_alert_types (now : float) (s : SensorAlerts.SensorData) :
  map AlertsPanel.type (SensorAlerts.alertsOf now s)
  = (match SensorAlerts.risk_level s with
     | Some l =>
         if String.eqb l "SEVERE" then [AlertsPanel.critical]
         else if String.eqb l "HIGH" then [AlertsPanel.warning]
         else []
     | None => []
     end)
    ++
    (match SensorAlerts.status s with
     | SensorAlerts.warning => [AlertsPanel.warning]
     | _ => []
     end).
Proof.
  unfold SensorAlerts.alertsOf. rewrite map_app. f_equal.
  - destruct (SensorAlerts.risk_level s) as [l |]; [| reflexivity].
    destruct (String.eqb l "SEVERE"); [reflexivity |].
    destruct (String.eqb l "HIGH"); reflexivity.
  - destruct (SensorAlerts.status s); reflexivity.
Qed.

(** C1, as amended.  In the web dashboard the status card's colour and
    label, the sample alerts, the sensor alerts and the automatic SMS
    trigger depend on a reading's probability not at all: two readings with
    the same backend label are classified alike.  The mobile app does not
    use the backend label: the status it returns is the placeholder, or its
    risk level is computed from the first reading's [floodProbability],
    'severe' from 0.8, 'high' from 0.6, 'mild' from 0.4 and 'low' below. *)
Theorem risk_label_from_backend_on_web_from_thresholds_on_mobile :
  (forall d1 d2 : FloodData,
     risk_level d1 = risk_level d2 ->
     StatusCards.riskColor d1 = StatusCards.riskColor d2 /\
     StatusCards.riskText d1 = StatusCards.riskText d2 /\
     Dashboard.shouldAutoAlert d1 = Dashboard.shouldAutoAlert d2 /\
     (forall now1 now2 : float,
        map AlertsPanel.type
          (AlertsPanel.generateSampleAlerts now1 (floodProbability d1) (risk_level d1))
        = map AlertsPanel.type
            (AlertsPanel.generateSampleAlerts now2 (floodProbability d2) (risk_level d2)))) /\
  (forall (s1 s2 : SensorAlerts.SensorData) (now1 now2 : float),
     SensorAlerts.risk_level s1 = SensorAlerts.risk_level s2 ->
     SensorAlerts.status s1 = SensorAlerts.status s2 ->
     map AlertsPanel.type (SensorAlerts.generateAlerts now1 [s1])
     = map AlertsPanel.type (SensorAlerts.generateAlerts now2 [s2])) /\
  (forall w : Mobile.World,
     exists d w',
       Mobile.getFloodStatus w = (Return d, w') /\
       ((exists t, d = Mobile.fallbackData t) \/
        (exists resp readings fp,
           Mobile.backend w Mobile.recentReadingsRequest = Responded resp /\
           resp_json resp = Some readings /\
           JS.get (JS.index0 readings) "floodProbability" = Return fp /\
           Mobile.riskLevel d = Mobile.riskLevelOf fp))) /\
  (forall p : float,
     Mobile.riskLevelOf (VNum p)
     = if JS.ge p 0.8 then "severe"
       else if JS.ge p 0.6 then "high"
       else if JS.ge p 0.4 then "mild"
       else "low").
Proof.
  split; [| split; [| split]].
  - intros d1 d2 Hl. unfold StatusCards.riskColor, StatusCards.riskText,
      Dashboard.shouldAutoAlert.
    rewrite Hl. repeat split; try reflexivity.
    intros now1 now2. rewrite !sample_alert_types. reflexivity.
  - intros s1 s2 now1 now2 Hl Hs. unfold SensorAlerts.generateAlerts.
    cbn [flat_map]. rewrite !app_nil_r, !sensor_alert_types, Hl, Hs. reflexivity.
  - apply getFloodStatus_label.
  - intros p. reflexivity.
Qed.

End LabelSources.

(** C1 fails as stated: the backend labels both readings LOW, and the
    mobile app shows the one of probability 0.9 as 'severe' and the other
    as 'low'. *)
Lemma mobile_label_recomputed_from_probability :
  JS.get (Sample.readingJson "LOW" 0.9) "risk_level" = Return (VStr "LOW") /\
  JS.get (Sample.readingJson "LOW" 0.1) "risk_level" = Return (VStr "LOW") /\
  (exists d w',
     @Mobile.getFloodStatus Sample.builtins
       (Sample.freshWorld (Sample.backendWith (Some (VArr [Sample.readingJson "LOW" 0.9]))))
     = (Return d, w') /\
     Mobile.riskLevel d = "severe") /\
  (exists d w',
     @Mobile.getFloodStatus Sample.builtins
       (Sample.freshWorld (Sample.backendWith (Some (VArr [Sample.readingJson "LOW" 0.1]))))
     = (Return d, w') /\
     Mobile.riskLevel d = "low").
Proof.
  split; [reflexivity |]. split; [reflexivity |].
  split; eexists; eexists; (split; [vm_compute; reflexivity | reflexivity]).
Qed.

(** ** [checkRiskAndNotify] *)

Section MobileNotify.
Context `{Builtins}.

(** The decision to alert, for a numeric current risk: the threshold test,
    or a previous risk that is neither zero nor NaN and a rise of 0.05. *)
Lemma shouldAlert_number (currentRisk previousRisk : float) :
  Mobile.shouldAlert (VNum currentRisk) previousRisk
  = JS.ge currentRisk 0.4
    || (negb (PrimFloat.is_zero previousRisk || PrimFloat.is_nan previousRisk)
        && JS.ge (currentRisk - previousRisk)%float 0.05).
Proof. reflexivity. Qed.

Lemma checkRiskAndNotify_quiet (currentRisk : value) (previousRisk : float)
    (riskLevel : string) (w : Mobile.World) :
  Mobile.shouldAlert currentRisk previousRisk = false ->
  Mobile.checkRiskAndNotify currentRisk previousRisk riskLevel w = (Return tt, w).
Proof.
  intros Hquiet. unfold Mobile.checkRiskAndNotify. rewrite Hquiet. reflexivity.
Qed.

(** C7, at the input where the code departs from it.  The stored previous
    risk is 0 and the current risk is 0.1: the risk rose by 0.1, at least
    0.05, yet [shouldAlert] is false, and [checkRiskAndNotify] returns
    without showing an alert and without touching the world (the stored
    risk stays 0). *)
Theorem checkRiskAndNotify_misses_rise_from_zero :
  forall (riskLevel : string) (w : Mobile.World),
    JS.ge (0.1 - 0)%float 0.05 = true /\
    Mobile.shouldAlert (VNum 0.1) 0 = false /\
    Mobile.checkRiskAndNotify (VNum 0.1) 0 riskLevel w = (Return tt, w).
Proof.
  intros riskLevel w. split; [reflexivity |]. split; [reflexivity |].
  apply checkRiskAndNotify_quiet. reflexivity.
Qed.

End MobileNotify.

(** The same on a device: the first reading has probability 0, which is
    stored; the second has probability 0.1.  No alert is shown, and the
    stored risk is still 0. *)
Example rise_from_zero_on_device :
  Mobile.dialogs (Sample.twoPolls 0 0.1) = [] /\
  Mobile.storage (Sample.twoPolls 0 0.1) !! "lastRiskLevel" = Some "0".
Proof. split; vm_compute; reflexivity. Qed.

(** ** The cooldown of [checkRiskAndNotify] *)

Section MobileCooldown.
Context `{Builtins}.

(** Asking the backend for the SMS alerts always returns; it touches
    neither the storage nor the dialogs. *)
Lemma triggerSms_frame (w : Mobile.World) :
  exists w',
    Mobile.triggerSms w = (Return tt, w') /\
    Mobile.storage w' = Mobile.storage w /\
    Mobile.storageFails w' = Mobile.storageFails w /\
    Mobile.clock w' = Mobile.clock w /\
    Mobile.dialogs w' = Mobile.dialogs w.
Proof.
  unfold Mobile.triggerSms, Mobile.try_catch, Mobile.bind, Mobile.fetch.
  destruct (Mobile.backend w Mobile.autoSendRequest) as [| response];
    [eexists; split; [reflexivity | repeat split] |].
  destruct (resp_ok response); [| eexists; split; [reflexivity | repeat split]].
  unfold Mobile.json.
  destruct (resp_json response) as [result |];
    [| eexists; split; [reflexivity | repeat split]].
  unfold Mobile.ret, Mobile.lift.
  destruct (JS.get result "alerts_sent"); [| eexists; split; [reflexivity | repeat split]].
  destruct (JS.get result "failed_alerts"); eexists; (split; [reflexivity | repeat split]).
Qed.

(** With a working storage and a readable history, [showFloodAlert] shows
    its dialog and stores the history; nothing else changes. *)
Lemma showFloodAlert_shows (riskLevel : string) (riskPercentage : float)
    (w : Mobile.World) :
  Mobile.storageWorks w ->
  Mobile.historyReadable w ->
  exists w',
    Mobile.showFloodAlert riskLevel riskPercentage w = (Return tt, w') /\
    Mobile.dialogs w'
    = Mobile.dialogs w
      ++ [(("🚨 Flood Risk Alert: " ++ toUpperCase riskLevel)%string,
           Mobile.alertMessage riskLevel riskPercentage)] /\
    (forall key, key <> "alertHistory" ->
                 Mobile.storage w' !! key = Mobile.storage w !! key) /\
    Mobile.storageFails w' = Mobile.storageFails w /\
    Mobile.clock w' = Mobile.clock w.
Proof.
  intros Hworks Hhistory.
  assert (Hget : exists items, Mobile.getAlertHistory w = (Return (VArr items), w)).
  { unfold Mobile.getAlertHistory, Mobile.try_catch, Mobile.bind, Mobile.getItem.
    rewrite Hworks. unfold Mobile.historyReadable in Hhistory.
    destruct (Mobile.storage w !! "alertHistory") as [h |]; [| eexists; reflexivity].
    destruct Hhistory as [Hempty | (items & Hparse)].
    - rewrite Hempty. eexists; reflexivity.
    - destruct (truthy_str h); [| eexists; reflexivity].
      rewrite Hparse. eexists; reflexivity. }
  destruct Hget as (items & Hget).
  unfold Mobile.showFloodAlert, Mobile.bind. rewrite Hget.
  cbn [Mobile.Date_now Mobile.lift Mobile.unshift].
  unfold Mobile.setItem. rewrite Hworks.
  eexists. split; [reflexivity |].
  cbn [Mobile.dialogs Mobile.storage Mobile.storageFails Mobile.clock].
  split; [reflexivity |]. split; [| split; reflexivity].
  intros key Hkey. apply lookup_insert_ne. congruence.
Qed.

Lemma cooldownTime_number (currentRisk : float) :
  Mobile.cooldownTime (VNum currentRisk)
  = if JS.ge currentRisk 0.7 then 1800000%float else 3600000%float.
Proof. unfold Mobile.cooldownTime. destruct (JS.ge _ _); reflexivity. Qed.

(** X1.  When [checkRiskAndNotify] decides to alert (the storage working and
    the history readable), it records the current risk, and the only thing
    that keeps the alert back is the cooldown: an alert time is stored and
    no more than 30 minutes (current risk at least 0.7) or 60 minutes
    (otherwise) have passed since.  An alert that is shown is one dialog,
    and its time is stored. *)
Theorem alert_suppressed_only_by_cooldown :
  forall (currentRisk previousRisk : float) (riskLevel : string) (w : Mobile.World),
    Mobile.storageWorks w ->
    Mobile.historyReadable w ->
    Mobile.shouldAlert (VNum currentRisk) previousRisk = true ->
    let cooldown := if JS.ge currentRisk 0.7 then 1800000%float else 3600000%float in
    let suppressed :=
      match Mobile.storage w !! "lastFloodAlert" with
      | Some t => truthy_str t && negb (JS.gt (Mobile.clock w - parseInt t)%float cooldown)
      | None => false
      end in
    exists w',
      Mobile.checkRiskAndNotify (VNum currentRisk) previousRisk riskLevel w
      = (Return tt, w') /\
      Mobile.storage w' !! "lastRiskLevel" = Some (NumberToString currentRisk) /\
      (if suppressed then
         Mobile.dialogs w' = Mobile.dialogs w /\
         Mobile.storage w' !! "lastFloodAlert" = Mobile.storage w !! "lastFloodAlert"
       else
         Mobile.dialogs w'
         = Mobile.dialogs w
           ++ [(("🚨 Flood Risk Alert: " ++ toUpperCase riskLevel)%string,
                Mobile.alertMessage riskLevel (currentRisk * 100)%float)] /\
         Mobile.storage w' !! "lastFloodAlert"
         = Some (NumberToString (Mobile.clock w))).
Proof.
  intros currentRisk previousRisk riskLevel w Hworks Hhistory Hshould cooldown suppressed.
  unfold Mobile.checkRiskAndNotify. rewrite Hshould.
  unfold Mobile.bind at 1. unfold Mobile.getItem at 1. rewrite Hworks.
  unfold Mobile.bind at 1. cbn [Mobile.Date_now].
  unfold Mobile.bind at 1.
  assert (Hshow : Mobile.shouldShowAlert (Mobile.storage w !! "lastFloodAlert")
                    (Mobile.clock w) (Mobile.cooldownTime (VNum currentRisk))
                  = negb suppressed).
  { unfold Mobile.shouldShowAlert, suppressed, cooldown.
    rewrite cooldownTime_number.
    destruct (Mobile.storage w !! "lastFloodAlert") as [t |]; [| reflexivity].
    destruct (truthy_str t); cbn [negb orb andb]; [| reflexivity].
    rewrite negb_involutive. reflexivity. }
  rewrite Hshow. destruct suppressed; cbn [negb].
  - cbn [toString_method ToString].
    unfold Mobile.bind, Mobile.setItem, Mobile.lift, Mobile.ret. rewrite Hworks.
    eexists. split; [reflexivity |].
    cbn [Mobile.storage Mobile.dialogs].
    split; [apply lookup_insert_eq |].
    split; [reflexivity |]. apply lookup_insert_ne. discriminate.
  - destruct (showFloodAlert_shows riskLevel (currentRisk * 100)%float w Hworks Hhistory)
      as (w1 & Hrun1 & Hdialogs1 & Hstorage1 & Hfails1 & Hclock1).
    unfold Mobile.bind at 1. unfold Mobile.bind at 1.
    cbn [ToNumber]. rewrite Hrun1.
    assert (Hsms : exists w2,
               (if JS.ge currentRisk Mobile.SEVERE_RISK_THRESHOLD
                   || String.eqb riskLevel "high" || String.eqb riskLevel "severe"
                then Mobile.triggerSms else Mobile.ret tt) w1 = (Return tt, w2) /\
               Mobile.storage w2 = Mobile.storage w1 /\
               Mobile.storageFails w2 = Mobile.storageFails w1 /\
               Mobile.dialogs w2 = Mobile.dialogs w1).
    { destruct (_ || _ || _).
      - destruct (triggerSms_frame w1) as (w2 & Hrun & Hs & Hf & _ & Hd).
        exists w2. repeat split; assumption.
      - exists w1. repeat split. }
    destruct Hsms as (w2 & Hrun2 & Hstorage2 & Hfails2 & Hdialogs2).
    unfold Mobile.bind at 1. rewrite Hrun2.
    unfold Mobile.setItem, Mobile.lift. cbn beta. cbn [toString_method ToString].
    rewrite Hfails2, Hfails1, Hworks. lazy beta iota zeta.
    cbn [Mobile.storageFails]. rewrite ?Hfails2, ?Hfails1, Hworks.
    eexists. split; [reflexivity |].
    cbn [Mobile.storage Mobile.dialogs].
    split; [apply lookup_insert_eq |].
    split; [congruence |].
    rewrite lookup_insert_ne by discriminate. apply lookup_insert_eq.
Qed.

End MobileCooldown.

Lemma alert_cooldown_example :
  Mobile.storageWorks (Sample.freshWorld (Sample.backendWith None)) /\
  @Mobile.historyReadable Sample.builtins (Sample.freshWorld (Sample.backendWith None)) /\
  @Mobile.shouldAlert Sample.builtins (VNum 0.9) 0.1 = true /\
  exists w',
    @Mobile.checkRiskAndNotify Sample.builtins (VNum 0.9) 0.1 "severe"
      (Sample.freshWorld (Sample.backendWith None))
    = (Return tt, w') /\
    Mobile.dialogs w'
    = [("🚨 Flood Risk Alert: SEVERE",
        "SEVERE flood risk detected (#%)! Take immediate action and evacuate if necessary.")].
Proof.
  assert (Hworks : Mobile.storageWorks (Sample.freshWorld (Sample.backendWith None)))
    by (intros key; reflexivity).
  assert (Hhistory : @Mobile.historyReadable Sample.builtins
                       (Sample.freshWorld (Sample.backendWith None)))
    by exact I.
  split; [exact Hworks |]. split; [exact Hhistory |]. split; [reflexivity |].
  destruct (@alert_suppressed_only_by_cooldown Sample.builtins 0.9 0.1 "severe"
              (Sample.freshWorld (Sample.backendWith None)) Hworks Hhistory eq_refl)
    as (w' & Hrun & _ & Hdialog & _).
  exists w'. split; [exact Hrun | exact Hdialog].
Defined.

(** ** The phone pattern *)

Lemma matchAt_Class (lo hi : N) (pos : nat) (s : UString.ustring)
    (p : nat) (t : UString.ustring) :
  In (p, t) (Regex.matchAt (Regex.Class lo hi) pos s) <->
  exists x, s = x :: t /\ (lo <= x <= hi)%N /\ p = S pos.
Proof.
  cbn [Regex.matchAt]. destruct s as [| x s'].
  - split; [intros [] | intros (x & Hs & _); discriminate].
  - destruct (N.leb_spec lo x) as [Hlo | Hlo];
      destruct (N.leb_spec x hi) as [Hhi | Hhi]; cbn [andb In].
    + split.
      * intros [[= <- <-] | []]. exists x. repeat split; assumption.
      * intros (y & [= <- <-] & _ & ->). left. reflexivity.
    + split; [intros [] | intros (y & [= <- <-] & Hy & _); lia].
    + split; [intros [] | intros (y & [= <- <-] & Hy & _); lia].
    + split; [intros [] | intros (y & [= <- <-] & Hy & _); lia].
Qed.

Lemma matchAt_Char (c : N) (pos : nat) (s : UString.ustring)
    (p : nat) (t : UString.ustring) :
  In (p, t) (Regex.matchAt (Regex.Char c) pos s) <-> s = c :: t /\ p = S pos.
Proof.
  cbn [Regex.matchAt]. destruct s as [| x s'].
  - split; [intros [] | intros [Hs _]; discriminate].
  - destruct (N.eqb_spec x c) as [-> | Hne]; cbn [In].
    + split.
      * intros [[= <- <-] | []]. split; reflexivity.
      * intros [[= <-] ->]. left. reflexivity.
    + split; [intros [] | intros [[= -> _] _]; congruence].
Qed.

(** A repetition of the digit class ends after [min] to [max] digits. *)
Lemma repeatFrom_digits (max : nat) :
  forall (min pos : nat) (s : UString.ustring) (p : nat) (t : UString.ustring),
    In (p, t) (Regex.repeatFrom (Regex.matchAt (Regex.Class 48 57)) min max pos s) <->
    exists ds,
      s = ds ++ t /\ p = (pos + List.length ds)%nat /\
      (min <= List.length ds <= max)%nat /\ Forall AlertPortal.isDigit ds.
Proof.
  induction max as [| max IH]; intros min pos s p t.
  - cbn [Regex.repeatFrom]. destruct (Nat.eqb_spec min 0) as [-> | Hmin].
    + split.
      * intros [[= <- <-] | []]. exists []. cbn. repeat split; try lia. constructor.
      * intros (ds & -> & -> & Hlen & _). destruct ds; [| cbn in Hlen; lia].
        left. cbn. f_equal. lia.
    + split; [intros [] |].
      intros (ds & _ & _ & Hlen & _). lia.
  - cbn [Regex.repeatFrom]. rewrite in_app_iff, in_flat_map. split.
    + intros [Hnow | ((p1 & t1) & Hstep & Hrest)].
      * destruct (Nat.eqb_spec min 0) as [-> | Hmin]; [| destruct Hnow].
        destruct Hnow as [[= <- <-] | []].
        exists []. cbn. repeat split; try lia. constructor.
      * apply matchAt_Class in Hstep. destruct Hstep as (x & -> & Hx & ->).
        cbn [fst snd] in Hrest. apply IH in Hrest.
        destruct Hrest as (ds & -> & -> & Hlen & Hds).
        exists (x :: ds). cbn [List.length app]. repeat split; try lia.
        constructor; [exact Hx | exact Hds].
    + intros (ds & -> & -> & Hlen & Hds). destruct ds as [| x ds].
      * left. cbn in Hlen. assert (min = 0%nat) as -> by lia.
        cbn. left. f_equal. lia.
      * right. exists (S pos, ds ++ t). split.
        -- apply matchAt_Class. exists x. inversion Hds as [| ? ? Hx Hrest]; subst.
           unfold AlertPortal.isDigit in Hx. repeat split; lia.
        -- cbn [fst snd]. apply IH. exists ds. inversion Hds as [| ? ? Hx Hrest]; subst.
           cbn [List.length] in *. repeat split; try lia. exact Hrest.
Qed.

Lemma matchAt_Seq (r1 r2 : Regex.regex) (pos : nat) (s : UString.ustring)
    (pt : nat * UString.ustring) :
  In pt (Regex.matchAt (Regex.Seq r1 r2) pos s) <->
  exists mid, In mid (Regex.matchAt r1 pos s) /\
              In pt (Regex.matchAt r2 (fst mid) (snd mid)).
Proof. cbn [Regex.matchAt]. apply in_flat_map. Qed.

Lemma matchAt_Bol (pos : nat) (s : UString.ustring) (p : nat) (t : UString.ustring) :
  In (p, t) (Regex.matchAt Regex.Bol pos s) <-> pos = 0%nat /\ p = 0%nat /\ t = s.
Proof.
  cbn [Regex.matchAt]. destruct (Nat.eqb_spec pos 0) as [-> | Hpos]; cbn [In].
  - split.
    + intros [[= <- <-] | []]. repeat split.
    + intros (_ & -> & ->). left. reflexivity.
  - split; [intros [] | intros (Hp & _); contradiction].
Qed.

Lemma matchAt_Eol (pos : nat) (s : UString.ustring) (p : nat) (t : UString.ustring) :
  In (p, t) (Regex.matchAt Regex.Eol pos s) <-> s = [] /\ p = pos /\ t = [].
Proof.
  cbn [Regex.matchAt]. destruct s as [| x s']; cbn [In].
  - split.
    + intros [[= <- <-] | []]. repeat split.
    + intros (_ & -> & ->). left. reflexivity.
  - split; [intros [] | intros (Hs & _); discriminate].
Qed.

Lemma matchAt_Repeat_digits (min max pos : nat) (s : UString.ustring)
    (p : nat) (t : UString.ustring) :
  In (p, t) (Regex.matchAt (Regex.Repeat min max (Regex.Class 48 57)) pos s) <->
  exists ds,
    s = ds ++ t /\ p = (pos + List.length ds)%nat /\
    (min <= List.length ds <= max)%nat /\ Forall AlertPortal.isDigit ds.
Proof. cbn [Regex.matchAt]. apply repeatFrom_digits. Qed.

(** Where a match of the phone pattern can start and end. *)
Lemma phoneRegex_matchAt (i : nat) (s : UString.ustring) (pt : nat * UString.ustring) :
  In pt (Regex.matchAt AlertPortal.phoneRegex i s) <->
  i = 0%nat /\ pt = (List.length s, []) /\ AlertPortal.phonePattern s.
Proof.
  unfold AlertPortal.phoneRegex. destruct pt as [p t]. split.
  - intros Hin.
    apply matchAt_Seq in Hin. destruct Hin as ((p0 & t0) & Hbol & Hin).
    apply matchAt_Bol in Hbol. destruct Hbol as (-> & -> & ->). cbn [fst snd] in Hin.
    apply matchAt_Seq in Hin. destruct Hin as ((p1 & t1) & Hplus & Hin).
    apply matchAt_Char in Hplus. destruct Hplus as [-> ->]. cbn [fst snd] in Hin.
    apply matchAt_Seq in Hin. destruct Hin as ((p2 & t2) & Hfirst & Hin).
    apply matchAt_Class in Hfirst. destruct Hfirst as (d & -> & Hd & ->).
    cbn [fst snd] in Hin.
    apply matchAt_Seq in Hin. destruct Hin as ((p3 & t3) & Hdigits & Hend).
    apply matchAt_Repeat_digits in Hdigits.
    destruct Hdigits as (ds & -> & -> & Hlen & Hds). cbn [fst snd] in Hend.
    apply matchAt_Eol in Hend. destruct Hend as (-> & -> & ->).
    rewrite app_nil_r. split; [reflexivity |]. split.
    + cbn [List.length]. reflexivity.
    + exists d, ds. repeat split; try assumption; lia.
  - intros (-> & [= -> ->] & (d & ds & -> & Hd & Hds & Hlen)).
    apply matchAt_Seq. exists (0%nat, 43%N :: d :: ds). split.
    { apply matchAt_Bol. repeat split. }
    cbn [fst snd]. apply matchAt_Seq. exists (1%nat, d :: ds). split.
    { apply matchAt_Char. split; reflexivity. }
    cbn [fst snd]. apply matchAt_Seq. exists (2%nat, ds). split.
    { apply matchAt_Class. exists d. repeat split; lia. }
    cbn [fst snd]. apply matchAt_Seq.
    exists ((2 + List.length ds)%nat, []). split.
    { apply matchAt_Repeat_digits. exists ds. rewrite app_nil_r.
      repeat split; try lia. exact Hds. }
    cbn [fst snd]. apply matchAt_Eol. repeat split.
Qed.

(** The matcher accepts exactly the numbers of the pattern. *)
Lemma phoneRegex_test_spec (s : UString.ustring) :
  Regex.test AlertPortal.phoneRegex s = true <-> AlertPortal.phonePattern s.
Proof.
  unfold Regex.test. rewrite existsb_exists. split.
  - intros (i & _ & Hmatch).
    destruct (Regex.matchAt AlertPortal.phoneRegex i (skipn i s))
      as [| pt rest] eqn:Hm; [discriminate |].
    assert (Hin : In pt (Regex.matchAt AlertPortal.phoneRegex i (skipn i s)))
      by (rewrite Hm; left; reflexivity).
    apply phoneRegex_matchAt in Hin. destruct Hin as (-> & _ & Hpat).
    exact Hpat.
  - intros Hpat. exists 0%nat. split; [apply in_seq; cbn; lia |].
    change (skipn 0 s) with s.
    assert (Hin : In (List.length s, []) (Regex.matchAt AlertPortal.phoneRegex 0 s))
      by (apply phoneRegex_matchAt; repeat split; assumption).
    destruct (Regex.matchAt AlertPortal.phoneRegex 0 s);
      [destruct Hin | reflexivity].
Qed.

(** ** The registration handler *)

Lemma ustring_truthy (s : UString.ustring) : UString.truthy s = true <-> s <> [].
Proof. destruct s; cbn; split; congruence. Qed.

(** The three checks of the handler decide [validForm]. *)
Lemma validForm_checks (d : AlertPortal.RegistrationData) :
  AlertPortal.validForm d <->
  Regex.test AlertPortal.phoneRegex (AlertPortal.phone_number d) = true /\
  UString.truthy (UString.trim (AlertPortal.name d)) = true /\
  UString.truthy (AlertPortal.area d) = true.
Proof.
  unfold AlertPortal.validForm.
  rewrite phoneRegex_test_spec, !ustring_truthy. reflexivity.
Qed.

Section Registration.
Context `{Builtins}.

Lemma handleRegistration_valid (net : AlertPortal.Call -> FetchOutcome)
    (st : AlertPortal.State) :
  AlertPortal.validForm (AlertPortal.registrationData st) ->
  snd (AlertPortal.handleRegistration net st)
  = [AlertPortal.PostRegister (AlertPortal.registrationData st); AlertPortal.GetUsers]
  \/ snd (AlertPortal.handleRegistration net st)
     = [AlertPortal.PostRegister (AlertPortal.registrationData st)].
Proof.
  intros Hvalid. apply validForm_checks in Hvalid.
  destruct Hvalid as (Hphone & Hname & Harea).
  unfold AlertPortal.handleRegistration. rewrite Hphone, Hname, Harea. cbn [negb].
  match goal with
  | |- context [match ?attempt with Return _ => _ | Throw _ => _ end] =>
      destruct attempt
  end; [left | right]; reflexivity.
Qed.

Lemma handleRegistration_invalid (net : AlertPortal.Call -> FetchOutcome)
    (st : AlertPortal.State) :
  ~ AlertPortal.validForm (AlertPortal.registrationData st) ->
  exists text,
    AlertPortal.handleRegistration net st
    = (AlertPortal.setMessage (Some (AlertPortal.error, text)) st, []).
Proof.
  intros Hinvalid. rewrite validForm_checks in Hinvalid.
  unfold AlertPortal.handleRegistration.
  destruct (Regex.test _ _); cbn [negb]; [| eexists; reflexivity].
  destruct (UString.truthy (UString.trim _)); cbn [negb]; [| eexists; reflexivity].
  destruct (UString.truthy (AlertPortal.area _)); cbn [negb]; [| eexists; reflexivity].
  exfalso. apply Hinvalid. repeat split.
Qed.

(** C9.  The registration handler sends the POST to [/api/users/register]
    only for a valid form: every such request it sends carries the form as
    it was submitted, with a phone number of the pattern, a name that is
    not blank and an area; a valid form is always sent; and for any other
    form no request is sent at all, an error message is set and the rest
    of the state, the form included, is left as it was. *)
Theorem registration_sent_only_for_valid_form :
  forall (net : AlertPortal.Call -> FetchOutcome) (st : AlertPortal.State),
    let result := AlertPortal.handleRegistration net st in
    (forall body,
       In (AlertPortal.PostRegister body) (snd result) ->
       body = AlertPortal.registrationData st /\ AlertPortal.validForm body) /\
    (AlertPortal.validForm (AlertPortal.registrationData st) ->
     exists rest,
       snd result = AlertPortal.PostRegister (AlertPortal.registrationData st) :: rest) /\
    (~ AlertPortal.validForm (AlertPortal.registrationData st) ->
     snd result = [] /\
     AlertPortal.registrationData (fst result) = AlertPortal.registrationData st /\
     exists text,
       fst result = AlertPortal.setMessage (Some (AlertPortal.error, text)) st).
Proof.
  intros net st result. subst result.
  assert (Hdec : AlertPortal.validForm (AlertPortal.registrationData st)
                 \/ ~ AlertPortal.validForm (AlertPortal.registrationData st)).
  { rewrite validForm_checks.
    destruct (Regex.test _ _); [| right; intros (? & _); discriminate].
    destruct (UString.truthy (UString.trim _)); [| right; intros (_ & ? & _); discriminate].
    destruct (UString.truthy (AlertPortal.area _)); [| right; intros (_ & _ & ?); discriminate].
    left. repeat split. }
  split; [| split].
  - intros body Hin. destruct Hdec as [Hvalid | Hinvalid].
    + destruct (handleRegistration_valid net st Hvalid) as [Hcalls | Hcalls];
        rewrite Hcalls in Hin; cbn [In] in Hin.
      * destruct Hin as [[= <-] | [Hin | []]]; [| discriminate].
        split; [reflexivity | exact Hvalid].
      * destruct Hin as [[= <-] | []]. split; [reflexivity | exact Hvalid].
    + destruct (handleRegistration_invalid net st Hinvalid) as (text & Hrun).
      rewrite Hrun in Hin. destruct Hin.
  - intros Hvalid.
    destruct (handleRegistration_valid net st Hvalid) as [Hcalls | Hcalls];
      rewrite Hcalls; eexists; reflexivity.
  - intros Hinvalid.
    destruct (handleRegistration_invalid net st Hinvalid) as (text & Hrun).
    rewrite Hrun. split; [reflexivity |]. split; [reflexivity |].
    exists text. reflexivity.
Qed.

End Registration.

(** The pattern on some inputs: the number of the error message passes;
    a leading zero, a missing plus sign, a single digit, sixteen digits
    and a trailing newline do not. *)
Example phoneRegex_examples :
  Regex.test AlertPortal.phoneRegex (UString.of_string "+919876543210") = true /\
  Regex.test AlertPortal.phoneRegex (UString.of_string "+019876543210") = false /\
  Regex.test AlertPortal.phoneRegex (UString.of_string "919876543210") = false /\
  Regex.test AlertPortal.phoneRegex (UString.of_string "+9") = false /\
  Regex.test AlertPortal.phoneRegex (UString.of_string "+1234567890123456") = false /\
  Regex.test AlertPortal.phoneRegex (UString.of_string "+919876543210" ++ [10%N]) = false.
Proof. repeat split. Qed.

(** ** The API client: the list of listeners *)

Lemma indexOf_first (callback : nat) (pre post : list nat) :
  ~ In callback pre ->
  WebApi.indexOf callback (pre ++ callback :: post) = Some (List.length pre).
Proof.
  induction pre as [| x pre IH]; intros Hpre; cbn [app WebApi.indexOf List.length].
  - rewrite Nat.eqb_refl. reflexivity.
  - destruct (Nat.eqb_spec x callback) as [-> | Hne].
    + exfalso. apply Hpre. left. reflexivity.
    + rewrite IH; [reflexivity |]. intros Hin. apply Hpre. right. exact Hin.
Qed.

Lemma splice1_middle (pre post : list nat) (x : nat) :
  WebApi.splice1 (List.length pre) (pre ++ x :: post) = pre ++ post.
Proof.
  unfold WebApi.splice1.
  rewrite firstn_app, Nat.sub_diag, firstn_all, firstn_O, app_nil_r.
  rewrite skipn_app.
  replace (S (List.length pre) - List.length pre)%nat with 1%nat by lia.
  rewrite skipn_all2 by lia. reflexivity.
Qed.

Section Listeners.
Context {App : Type}.
Context `{Builtins}.
Variable call : nat -> value -> App -> completion unit * App * list WebApi.Method.

(** The array [this.wsListeners] refers to, after it was replaced in place. *)
Lemma listeners_after_update (c : WebApi.Client App) (l : list nat) :
  ClientState.refValid c ->
  default [] (<[WebApi.wsListeners c := l]> (WebApi.arrays c) !! WebApi.wsListeners c) = l.
Proof.
  intros Hvalid. rewrite list_lookup_insert_eq by exact Hvalid. reflexivity.
Qed.

Lemma invoke_refValid (m : WebApi.Method) (c : WebApi.Client App) :
  ClientState.refValid c -> ClientState.refValid (WebApi.invoke m c).
Proof.
  unfold ClientState.refValid. intros Hvalid.
  destruct m as [b | l | l |]; cbn [WebApi.invoke].
  - destruct b; exact Hvalid.
  - cbn. rewrite length_insert. exact Hvalid.
  - unfold WebApi.removeRealtimeListener.
    destruct (WebApi.indexOf l (WebApi.listeners c)); [| exact Hvalid].
    cbn. rewrite length_insert. exact Hvalid.
  - cbn. rewrite length_app. cbn. lia.
Qed.

Lemma afterCall_refValid (a : App) (methods : list WebApi.Method) (c : WebApi.Client App) :
  ClientState.refValid c -> ClientState.refValid (WebApi.afterCall a methods c).
Proof.
  unfold WebApi.afterCall. intros Hvalid.
  assert (Hstart : ClientState.refValid (WebApi.setApp a c)) by exact Hvalid.
  revert Hstart. generalize (WebApi.setApp a c). clear c Hvalid.
  induction methods as [| m methods IH]; intros c Hvalid; cbn [fold_left].
  - exact Hvalid.
  - apply IH, invoke_refValid, Hvalid.
Qed.

Lemma forEachFrom_refValid (r : nat) (data : value) (n : nat) :
  forall (k : nat) (c : WebApi.Client App),
    ClientState.refValid c ->
    ClientState.refValid (snd (WebApi.forEachFrom call r data n k c)).
Proof.
  induction n as [| n IH]; intros k c Hvalid; [exact Hvalid |].
  cbn [WebApi.forEachFrom].
  destruct (default [] (WebApi.arrays c !! r) !! k) as [listener |]; [| apply IH, Hvalid].
  destruct (call listener data (WebApi.app c)) as [[[u | e] a] methods].
  - specialize (IH (S k) _ (afterCall_refValid a methods c Hvalid)).
    destruct (WebApi.forEachFrom call r data n (S k) (WebApi.afterCall a methods c))
      as [[calls result] c2].
    exact IH.
  - apply afterCall_refValid, Hvalid.
Qed.

Lemma step_refValid (e : WebApi.Event) (c : WebApi.Client App) :
  ClientState.refValid c -> ClientState.refValid (WebApi.step call e c).
Proof.
  intros Hvalid.
  destruct e as [s | s d | s | s | b | m]; cbn [WebApi.step].
  - destruct (WebApi.hasHandlers s c); exact Hvalid.
  - destruct (WebApi.hasHandlers s c); [| exact Hvalid].
    unfold WebApi.onmessage, WebApi.forEach.
    destruct (JSON_parse d) as [data |]; [| exact Hvalid].
    pose proof (forEachFrom_refValid (WebApi.wsListeners c) data
                  (List.length (WebApi.listeners c)) 0 c Hvalid) as Hloop.
    destruct (WebApi.forEachFrom call _ data _ 0 c) as [[calls [u | e]] c1];
      exact Hloop.
  - destruct (WebApi.hasHandlers s c); exact Hvalid.
  - destruct (WebApi.hasHandlers s c); exact Hvalid.
  - destruct (_ <? _)%nat; [destruct b |]; exact Hvalid.
  - apply invoke_refValid, Hvalid.
Qed.

(** Every state the client can reach from its creation is well formed. *)
Lemma run_refValid (events : list WebApi.Event) :
  forall c : WebApi.Client App,
    ClientState.refValid c -> ClientState.refValid (WebApi.run call events c).
Proof.
  induction events as [| e events IH]; intros c Hvalid; [exact Hvalid |].
  cbn [WebApi.run fold_left]. apply IH, step_refValid, Hvalid.
Qed.

Lemma newClient_refValid (a : App) : ClientState.refValid (WebApi.newClient a).
Proof. unfold ClientState.refValid. cbn. lia. Qed.

Lemma listeners_onRealtimeData (callback : nat) (c : WebApi.Client App) :
  ClientState.refValid c ->
  WebApi.listeners (WebApi.onRealtimeData callback c) = WebApi.listeners c ++ [callback].
Proof.
  intros Hvalid. unfold WebApi.listeners at 1.
  cbn [WebApi.onRealtimeData WebApi.arrays WebApi.wsListeners].
  apply listeners_after_update, Hvalid.
Qed.

Lemma listeners_removed (callback : nat) (pre post : list nat) (c : WebApi.Client App) :
  ClientState.refValid c ->
  WebApi.listeners c = pre ++ callback :: post ->
  ~ In callback pre ->
  WebApi.listeners (WebApi.removeRealtimeListener callback c) = pre ++ post.
Proof.
  intros Hvalid Hls Hpre. unfold WebApi.removeRealtimeListener.
  rewrite Hls, indexOf_first by exact Hpre.
  unfold WebApi.listeners at 1. cbn [WebApi.arrays WebApi.wsListeners].
  rewrite listeners_after_update by exact Hvalid.
  apply splice1_middle.
Qed.

(** X2.  [removeRealtimeListener], in any state the client can reach:
    when the callback is not registered nothing changes; otherwise its
    first registration, and only that one, is taken out of the list, the
    other listeners keeping their order.  The socket, the timers and the
    page are not touched. *)
Theorem removeRealtimeListener_removes_first_registration :
  forall (events : list WebApi.Event) (a : App) (callback : nat),
    let c := WebApi.run call events (WebApi.newClient a) in
    let c' := WebApi.removeRealtimeListener callback c in
    (~ In callback (WebApi.listeners c) -> c' = c) /\
    (forall pre post,
       WebApi.listeners c = pre ++ callback :: post ->
       ~ In callback pre ->
       WebApi.listeners c' = pre ++ post) /\
    WebApi.ws c' = WebApi.ws c /\
    WebApi.sockets c' = WebApi.sockets c /\
    WebApi.timeouts c' = WebApi.timeouts c /\
    WebApi.app c' = WebApi.app c.
Proof.
  intros events a callback c c'.
  assert (Hvalid : ClientState.refValid c)
    by (apply run_refValid, newClient_refValid).
  split; [| split].
  - intros Habsent. subst c'. unfold WebApi.removeRealtimeListener.
    apply indexOf_absent in Habsent. rewrite Habsent. reflexivity.
  - intros pre post Hls Hpre. apply listeners_removed; assumption.
  - subst c'. unfold WebApi.removeRealtimeListener.
    destruct (WebApi.indexOf callback (WebApi.listeners c)); repeat split.
Qed.

(** X3.  Subscribing and unsubscribing, in any state the client can reach:
    [onRealtimeData] puts the callback at the end of the list, also when it
    is registered already; unsubscribing a callback that was not
    registered before restores the list; for one that was, the earlier
    registration goes and the new one stays, at the end. *)
Theorem subscribe_then_unsubscribe :
  forall (events : list WebApi.Event) (a : App) (callback : nat),
    let c := WebApi.run call events (WebApi.newClient a) in
    let c' := WebApi.removeRealtimeListener callback (WebApi.onRealtimeData callback c) in
    WebApi.listeners (WebApi.onRealtimeData callback c)
    = WebApi.listeners c ++ [callback] /\
    (~ In callback (WebApi.listeners c) -> WebApi.listeners c' = WebApi.listeners c) /\
    (forall pre post,
       WebApi.listeners c = pre ++ callback :: post ->
       ~ In callback pre ->
       WebApi.listeners c' = pre ++ post ++ [callback]).
Proof.
  intros events a callback c c'.
  assert (Hvalid : ClientState.refValid c)
    by (apply run_refValid, newClient_refValid).
  assert (Hvalid' : ClientState.refValid (WebApi.onRealtimeData callback c))
    by (apply (invoke_refValid (WebApi.AddListener callback)), Hvalid).
  pose proof (listeners_onRealtimeData callback c Hvalid) as Hadd.
  split; [exact Hadd |]. split.
  - intros Habsent. subst c'.
    rewrite (listeners_removed callback (WebApi.listeners c) [] _ Hvalid').
    + apply app_nil_r.
    + exact Hadd.
    + exact Habsent.
  - intros pre post Hls Hpre. subst c'.
    apply listeners_removed; [exact Hvalid' | | exact Hpre].
    rewrite Hadd, Hls, <- app_assoc. reflexivity.
Qed.

(** X4.  After [disconnectWebSocket], whatever the client was before:
    [this.ws] is null, the list of listeners is empty, a message calls no
    listener, and a callback registered afterwards is the only one.  The
    timers already scheduled are not cancelled. *)
Theorem disconnect_drops_all_listeners :
  forall (c : WebApi.Client App) (eventData : string) (callback : nat),
    let c' := WebApi.disconnectWebSocket c in
    WebApi.ws c' = None /\
    WebApi.listeners c' = [] /\
    fst (fst (WebApi.onmessage call eventData c')) = [] /\
    WebApi.listeners (WebApi.onRealtimeData callback c') = [callback] /\
    WebApi.timeouts c' = WebApi.timeouts c /\
    WebApi.fired c' = WebApi.fired c.
Proof.
  intros c eventData callback c'.
  assert (Hls : WebApi.listeners c' = []).
  { unfold WebApi.listeners. subst c'. cbn [WebApi.disconnectWebSocket WebApi.arrays
      WebApi.wsListeners].
    rewrite list_lookup_middle by reflexivity. reflexivity. }
  assert (Hvalid : ClientState.refValid c').
  { unfold ClientState.refValid. subst c'. cbn. rewrite length_app. cbn. lia. }
  split; [reflexivity |]. split; [exact Hls |]. split; [| split].
  - unfold WebApi.onmessage, WebApi.forEach. rewrite Hls.
    destruct (JSON_parse eventData); reflexivity.
  - rewrite listeners_onRealtimeData by exact Hvalid. rewrite Hls. reflexivity.
  - split; reflexivity.
Qed.

End Listeners.

(** ** The API client: listeners that change the list during a delivery *)

Section DeliveryUnderChange.
Context {App : Type}.
Context `{Builtins}.
Variable call : nat -> value -> App -> completion unit * App * list WebApi.Method.

(** Behind the end of the array the loop finds nothing to call. *)
Lemma forEachFrom_behind_end (r : nat) (data : value) (n : nat) :
  forall (k : nat) (c : WebApi.Client App),
    (List.length (default [] (WebApi.arrays c !! r)) <= k)%nat ->
    WebApi.forEachFrom call r data n k c = ([], Return tt, c).
Proof.
  induction n as [| n IH]; intros k c Hk; [reflexivity |].
  cbn [WebApi.forEachFrom].
  rewrite (lookup_ge_None_2 _ k) by exact Hk.
  apply IH. lia.
Qed.

(** X5.  A listener that unsubscribes itself while a message is delivered
    makes the loop skip the listener registered right after it: with the
    listeners [before], [l], [next], [after] registered in this order, [l]
    not among [before], all but [l] and [next] well behaved and [l]
    returning after [removeRealtimeListener(l)], the message reaches
    [before], [l] and [after], and [next] is not called. *)
Theorem self_unsubscribe_skips_next_listener :
  forall (c : WebApi.Client App) (data : value)
         (before after : list nat) (l next : nat),
    ClientState.refValid c ->
    WebApi.listeners c = before ++ l :: next :: after ->
    ~ In l before ->
    Forall (WebApi.wellBehaved call) before ->
    Forall (WebApi.wellBehaved call) after ->
    (forall a, exists a', call l data a = (Return tt, a', [WebApi.RemoveListener l])) ->
    exists c',
      WebApi.forEach call data c
      = (map (fun x => (x, data)) (before ++ l :: after), Return tt, c') /\
      WebApi.listeners c' = before ++ next :: after.
Proof.
  intros c data before after l next Hvalid Hls Hfresh Hbefore Hafter Hl.
  assert (Harr : WebApi.arrays c !! WebApi.wsListeners c
                 = Some (before ++ l :: next :: after)).
  { destruct (listeners_lookup c) as [Hnone | Harr]; [| rewrite Harr, Hls; reflexivity].
    rewrite Hnone in Hls. destruct before; discriminate. }
  unfold WebApi.forEach. rewrite Hls.
  (* the listeners before [l] *)
  destruct (forEachFrom_wellBehaved call (WebApi.wsListeners c) data before
              [] (l :: next :: after) (S (S (List.length after))) c Harr Hbefore)
    as (c1 & Harr1 & Hws1 & Hloop1).
  replace (List.length (before ++ l :: next :: after))
    with (List.length before + S (S (List.length after)))%nat
    by (rewrite length_app; reflexivity).
  cbn [List.length Nat.add] in Hloop1. rewrite Hloop1. clear Hloop1.
  (* [l] itself *)
  remember (S (List.length after)) as m eqn:Hm.
  cbn [WebApi.forEachFrom]. subst m.
  rewrite Harr1, Harr. cbn [default from_option id].
  rewrite list_lookup_middle by reflexivity.
  destruct (Hl (WebApi.app c1)) as (a1 & ->).
  assert (Hvalid1 : ClientState.refValid (WebApi.setApp a1 c1)).
  { unfold ClientState.refValid in *. cbn. rewrite Harr1, Hws1. exact Hvalid. }
  assert (Hls1 : WebApi.listeners (WebApi.setApp a1 c1) = before ++ l :: next :: after).
  { unfold WebApi.listeners. cbn. rewrite Harr1, Hws1, Harr. reflexivity. }
  set (c2 := WebApi.afterCall a1 [WebApi.RemoveListener l] c1).
  assert (Hls2 : WebApi.listeners c2 = before ++ next :: after).
  { apply listeners_removed; assumption. }
  assert (Hws2 : WebApi.wsListeners c2 = WebApi.wsListeners c).
  { subst c2. unfold WebApi.afterCall. cbn [fold_left WebApi.invoke].
    unfold WebApi.removeRealtimeListener.
    destruct (WebApi.indexOf l (WebApi.listeners (WebApi.setApp a1 c1)));
      cbn; exact Hws1. }
  assert (Harr2 : WebApi.arrays c2 !! WebApi.wsListeners c
                  = Some ((before ++ [next]) ++ after ++ [])).
  { destruct (listeners_lookup c2) as [Hnone | Hsome].
    - rewrite Hnone in Hls2. destruct before; discriminate.
    - rewrite Hws2 in Hsome. rewrite Hsome, Hls2, app_nil_r, <- app_assoc. reflexivity. }
  (* the listeners behind [next] *)
  destruct (forEachFrom_wellBehaved call (WebApi.wsListeners c) data after
              (before ++ [next]) [] 1 c2 Harr2 Hafter)
    as (c3 & Harr3 & Hws3 & Hloop3).
  rewrite length_app in Hloop3. cbn [List.length] in Hloop3.
  replace (List.length before + 1)%nat with (S (List.length before)) in Hloop3 by lia.
  replace (S (List.length after)) with (List.length after + 1)%nat by lia.
  rewrite Hloop3. clear Hloop3.
  rewrite forEachFrom_behind_end.
  2:{ rewrite Harr3, Harr2. cbn [default from_option id].
      rewrite !length_app. cbn [List.length]. lia. }
  exists c3. split.
  - rewrite map_app. cbn [map]. rewrite app_nil_r. reflexivity.
  - unfold WebApi.listeners. rewrite Hws3, Hws2, Harr3, Harr2.
    cbn [default from_option id]. rewrite app_nil_r, <- app_assoc. reflexivity.
Qed.

(** Well-behaved listeners leave the client's socket alone as well. *)
Lemma forEachFrom_wellBehaved_socket (r : nat) (data : value) (mid : list nat) :
  forall (pre post : list nat) (n : nat) (c : WebApi.Client App),
    WebApi.arrays c !! r = Some (pre ++ mid ++ post) ->
    Forall (WebApi.wellBehaved call) mid ->
    exists c',
      WebApi.arrays c' = WebApi.arrays c /\
      WebApi.wsListeners c' = WebApi.wsListeners c /\
      WebApi.ws c' = WebApi.ws c /\
      WebApi.forEachFrom call r data (List.length mid + n) (List.length pre) c
      = (let '(calls, result, c'') :=
           WebApi.forEachFrom call r data n (List.length pre + List.length mid) c' in
         (map (fun l => (l, data)) mid ++ calls, result, c'')).
Proof.
  induction mid as [| l mid IH]; intros pre post n c Harr Hgood.
  - exists c. split; [reflexivity |]. split; [reflexivity |]. split; [reflexivity |].
    cbn [List.length Nat.add map app]. rewrite Nat.add_0_r.
    destruct (WebApi.forEachFrom call r data n (List.length pre) c) as [[calls result] c''].
    reflexivity.
  - inversion Hgood as [| ? ? Hl Hmid]; subst.
    cbn [List.length Nat.add WebApi.forEachFrom].
    change (pre ++ (l :: mid) ++ post) with (pre ++ l :: mid ++ post) in Harr.
    rewrite Harr. cbn [default from_option id].
    rewrite list_lookup_middle by reflexivity.
    destruct (Hl data (WebApi.app c)) as (a1 & Hcall). rewrite Hcall.
    change (WebApi.afterCall a1 [] c) with (WebApi.setApp a1 c).
    destruct (IH (pre ++ [l]) post n (WebApi.setApp a1 c))
      as (c' & Harr' & Hws' & Hsocket' & Hloop).
    { cbn [WebApi.setApp WebApi.arrays]. rewrite Harr, <- app_assoc. reflexivity. }
    { exact Hmid. }
    exists c'. split; [exact Harr' |]. split; [exact Hws' |]. split; [exact Hsocket' |].
    rewrite length_app in Hloop. cbn [List.length] in Hloop.
    replace (List.length pre + 1)%nat with (S (List.length pre)) in Hloop by lia.
    rewrite Hloop.
    replace (S (List.length pre) + List.length mid)%nat
      with (List.length pre + S (List.length mid))%nat by lia.
    destruct (WebApi.forEachFrom call r data n
                (List.length pre + S (List.length mid)) c') as [[calls result] c''].
    reflexivity.
Qed.

(** X6.  A listener that calls [disconnectWebSocket] while a message is
    delivered does not end the delivery: the loop goes on over the array it
    started with, so the listeners registered after it still receive the
    message; afterwards the list of listeners is empty and the client has
    no socket. *)
Theorem disconnect_during_delivery_reaches_all :
  forall (c : WebApi.Client App) (data : value) (before after : list nat) (l : nat),
    WebApi.listeners c = before ++ l :: after ->
    Forall (WebApi.wellBehaved call) before ->
    Forall (WebApi.wellBehaved call) after ->
    (forall a, exists a', call l data a = (Return tt, a', [WebApi.Disconnect])) ->
    exists c',
      WebApi.forEach call data c
      = (map (fun x => (x, data)) (before ++ l :: after), Return tt, c') /\
      WebApi.listeners c' = [] /\
      WebApi.ws c' = None.
Proof.
  intros c data before after l Hls Hbefore Hafter Hl.
  assert (Harr : WebApi.arrays c !! WebApi.wsListeners c = Some (before ++ l :: after)).
  { destruct (listeners_lookup c) as [Hnone | Harr]; [| rewrite Harr, Hls; reflexivity].
    rewrite Hnone in Hls. destruct before; discriminate. }
  unfold WebApi.forEach. rewrite Hls.
  destruct (forEachFrom_wellBehaved_socket (WebApi.wsListeners c) data before
              [] (l :: after) (S (List.length after)) c Harr Hbefore)
    as (c1 & Harr1 & Hws1 & _ & Hloop1).
  replace (List.length (before ++ l :: after))
    with (List.length before + S (List.length after))%nat
    by (rewrite length_app; reflexivity).
  cbn [List.length Nat.add] in Hloop1. rewrite Hloop1. clear Hloop1.
  cbn [WebApi.forEachFrom].
  rewrite Harr1, Harr. cbn [default from_option id].
  rewrite list_lookup_middle by reflexivity.
  destruct (Hl (WebApi.app c1)) as (a1 & ->).
  set (c2 := WebApi.afterCall a1 [WebApi.Disconnect] c1).
  assert (Harr2 : WebApi.arrays c2 = WebApi.arrays c ++ [[]])
    by (subst c2; cbn; rewrite Harr1; reflexivity).
  assert (Hws2 : WebApi.wsListeners c2 = List.length (WebApi.arrays c))
    by (subst c2; cbn; rewrite Harr1; reflexivity).
  assert (Hsocket2 : WebApi.ws c2 = None) by reflexivity.
  assert (Hold : WebApi.arrays c2 !! WebApi.wsListeners c
                 = Some ((before ++ [l]) ++ after ++ [])).
  { rewrite Harr2, lookup_app_l by (eapply lookup_lt_Some; exact Harr).
    rewrite Harr, app_nil_r, <- app_assoc. reflexivity. }
  destruct (forEachFrom_wellBehaved_socket (WebApi.wsListeners c) data after
              (before ++ [l]) [] 0 c2 Hold Hafter)
    as (c3 & Harr3 & Hws3 & Hsocket3 & Hloop3).
  rewrite length_app in Hloop3. cbn [List.length] in Hloop3.
  replace (List.length before + 1)%nat with (S (List.length before)) in Hloop3 by lia.
  rewrite Nat.add_0_r in Hloop3. rewrite Hloop3. clear Hloop3.
  cbn [WebApi.forEachFrom].
  exists c3. split; [| split].
  - rewrite map_app. cbn [map]. rewrite app_nil_r. reflexivity.
  - unfold WebApi.listeners. rewrite Hws3, Hws2, Harr3, Harr2.
    rewrite list_lookup_middle by reflexivity. reflexivity.
  - rewrite Hsocket3. exact Hsocket2.
Qed.

End DeliveryUnderChange.

Lemma self_unsubscribe_example :
  ClientState.refValid Inputs.threeListeners /\
  WebApi.listeners Inputs.threeListeners = [] ++ 0%nat :: 1%nat :: [2%nat] /\
  exists c',
    WebApi.forEach Inputs.firstUnsubscribes VNull Inputs.threeListeners
    = ([(0%nat, VNull); (2%nat, VNull)], Return tt, c') /\
    WebApi.listeners c' = [1; 2]%nat.
Proof.
  assert (Hvalid : ClientState.refValid Inputs.threeListeners)
    by (unfold ClientState.refValid; cbn; lia).
  assert (Hgood : Forall (WebApi.wellBehaved Inputs.firstUnsubscribes) [2%nat]).
  { constructor; [| constructor]. intros data a. exists a. reflexivity. }
  split; [exact Hvalid |]. split; [reflexivity |].
  exact (self_unsubscribe_skips_next_listener Inputs.firstUnsubscribes
           Inputs.threeListeners VNull [] [2%nat] 0%nat 1%nat
           Hvalid eq_refl (fun Hin => Hin) ltac:(constructor) Hgood
           (fun a => ex_intro _ a eq_refl)).
Defined.

Lemma disconnect_during_delivery_example :
  WebApi.ws Inputs.connectedClient = Some 0%nat /\
  WebApi.listeners Inputs.connectedClient = [] ++ 0%nat :: [1%nat] /\
  exists c',
    WebApi.forEach Inputs.firstDisconnects VNull Inputs.connectedClient
    = ([(0%nat, VNull); (1%nat, VNull)], Return tt, c') /\
    WebApi.listeners c' = [] /\
    WebApi.ws c' = None.
Proof.
  assert (Hgood : Forall (WebApi.wellBehaved Inputs.firstDisconnects) [1%nat]).
  { repeat constructor; intros data a; exists a; reflexivity. }
  split; [reflexivity |]. split; [reflexivity |].
  exact (disconnect_during_delivery_reaches_all Inputs.firstDisconnects
           Inputs.connectedClient VNull [] [1%nat] 0%nat
           eq_refl ltac:(constructor) Hgood (fun a => ex_intro _ a eq_refl)).
Defined.

(** ** The mobile app: registration *)

Section MobileRegistrationFacts.
Context `{Builtins}.

(** Every way [registerUser] can go. *)
Lemma registerUser_outcome :
  forall (elapsed : float) (userData : MobileRegistration.UserData) (w : Mobile.World),
    exists r w',
      MobileRegistration.registerUser elapsed userData w = (Return r, w') /\
      MobileRegistration.success r = true /\
      Mobile.requests w'
      = Mobile.requests w ++ [MobileRegistration.registerRequest userData] /\
      Mobile.storage w' = Mobile.storage w /\
      Mobile.storageFails w' = Mobile.storageFails w /\
      Mobile.dialogs w' = Mobile.dialogs w /\
      ((exists response result,
          Mobile.backend w (MobileRegistration.registerRequest userData)
          = Responded response /\
          resp_ok response = true /\
          resp_json response = Some result /\
          JS.get result "id" = Return (MobileRegistration.userId r) /\
          MobileRegistration.message r
          = "Registration successful! You will receive alerts." /\
          Mobile.errorsLogged w' = Mobile.errorsLogged w)
       \/
       (MobileRegistration.message r
        = "Registration successful! You will receive SMS alerts." /\
        MobileRegistration.userId r
        = VStr (NumberToString (Mobile.clock w + elapsed)%float) /\
        Mobile.errorsLogged w' = Mobile.errorsLogged w ++ ["Registration Error:"])).
Proof.
  intros elapsed userData w.
  unfold MobileRegistration.registerUser, Mobile.try_catch.
  unfold Mobile.bind at 1. unfold Mobile.fetch.
  destruct (Mobile.backend w (MobileRegistration.registerRequest userData))
    as [| response] eqn:Hb.
  { eexists; eexists. split; [reflexivity |]. repeat split. right. repeat split. }
  destruct (resp_ok response) eqn:Hok.
  - unfold Mobile.bind at 1. unfold Mobile.json.
    destruct (resp_json response) as [result |] eqn:Hj.
    2:{ eexists; eexists. split; [reflexivity |]. repeat split. right. repeat split. }
    unfold Mobile.ret at 1. unfold Mobile.bind at 1. unfold Mobile.lift.
    destruct (JS.get result "id") as [id | e] eqn:Hid.
    2:{ eexists; eexists. split; [reflexivity |]. repeat split. right. repeat split. }
    eexists; eexists. split; [reflexivity |]. repeat split.
    left. exists response, result. repeat split; assumption.
  - unfold Mobile.bind at 1. unfold Mobile.json.
    destruct (resp_json response) as [result |] eqn:Hj.
    2:{ eexists; eexists. split; [reflexivity |]. repeat split. right. repeat split. }
    unfold Mobile.ret at 1. unfold Mobile.bind at 1. unfold Mobile.lift.
    destruct (JS.get result "detail") as [detail | e];
      eexists; eexists; (split; [reflexivity |]); repeat split; right; repeat split.
Qed.

(** X7.  [registerUser] never throws and always reports success; it
    sends one request and touches neither the storage nor the dialogs.
    What it returns is decided by the backend's answer.  When the response
    is ok and its body is JSON other than [null], the message is the one
    about alerts and the user id is the [id] property of the body:
    [undefined] when the body is no object (a number, say) or has no such
    property; nothing is logged.  In every other case (no connection, a
    response that is not ok, a body that is no JSON text, the body
    [null]) the error is logged, the 1500 ms timer is waited for, and a
    success is made up: the message about SMS alerts, and the time then
    as the user id. *)
Theorem registerUser_always_reports_success :
  forall (elapsed : float) (userData : MobileRegistration.UserData) (w : Mobile.World),
    let request := MobileRegistration.registerRequest userData in
    let answered (id : value) :=
      MobileRegistration.mkRegistrationResponse true
        "Registration successful! You will receive alerts." id in
    let madeUp :=
      MobileRegistration.mkRegistrationResponse true
        "Registration successful! You will receive SMS alerts."
        (VStr (NumberToString (Mobile.clock w + elapsed)%float)) in
    exists r w',
      MobileRegistration.registerUser elapsed userData w = (Return r, w') /\
      MobileRegistration.success r = true /\
      Mobile.requests w' = Mobile.requests w ++ [request] /\
      Mobile.storage w' = Mobile.storage w /\
      Mobile.storageFails w' = Mobile.storageFails w /\
      Mobile.dialogs w' = Mobile.dialogs w /\
      let fromBackend (id : value) :=
        r = answered id /\
        Mobile.errorsLogged w' = Mobile.errorsLogged w /\
        Mobile.clock w' = Mobile.clock w in
      let fallback :=
        r = madeUp /\
        Mobile.errorsLogged w' = Mobile.errorsLogged w ++ ["Registration Error:"] /\
        Mobile.clock w' = (Mobile.clock w + elapsed)%float in
      match Mobile.backend w request with
      | NetworkError => fallback
      | Responded response =>
          if resp_ok response then
            match resp_json response with
            | None | Some VNull | Some VUndefined => fallback
            | Some (VObj fields) => fromBackend (JS.assoc "id" fields)
            | Some (VBool _) | Some (VNum _) | Some (VStr _) | Some (VArr _) =>
                fromBackend VUndefined
            end
          else fallback
      end.
Proof.
  intros elapsed userData w request answered madeUp.
  subst request answered madeUp. cbv zeta.
  unfold MobileRegistration.registerUser, Mobile.try_catch.
  unfold Mobile.bind at 1. unfold Mobile.fetch.
  destruct (Mobile.backend w (MobileRegistration.registerRequest userData))
    as [| response].
  { eexists; eexists. split; [reflexivity |]. repeat split. }
  destruct (resp_ok response).
  - unfold Mobile.bind at 1. unfold Mobile.json.
    destruct (resp_json response) as [result |].
    2:{ eexists; eexists. split; [reflexivity |]. repeat split. }
    unfold Mobile.ret at 1. unfold Mobile.bind at 1. unfold Mobile.lift.
    destruct result; cbn [JS.get];
      eexists; eexists; (split; [reflexivity |]); repeat split.
  - unfold Mobile.bind at 1. unfold Mobile.json.
    destruct (resp_json response) as [result |].
    2:{ eexists; eexists. split; [reflexivity |]. repeat split. }
    unfold Mobile.ret at 1. unfold Mobile.bind at 1. unfold Mobile.lift.
    destruct (JS.get result "detail") as [detail | e];
      eexists; eexists; (split; [reflexivity |]); repeat split.
Qed.

(** What is left of the home screen's state and of the clock's past does
    not matter to the profile screen: the form decides. *)
Lemma saveUserProfile_outcome (profile : value) (st : ProfileScreen.State)
    (w : Mobile.World) :
  exists st' w',
    ProfileScreen.saveUserProfile profile st w = (Return st', w') /\
    Mobile.dialogs w' = Mobile.dialogs w /\
    Mobile.requests w' = Mobile.requests w /\
    ProfileScreen.loading st' = ProfileScreen.loading st /\
    ProfileScreen.formData st' = ProfileScreen.formData st /\
    (if Mobile.storageFails w "userProfile" then
       st' = st /\ Mobile.storage w' = Mobile.storage w
     else
       ProfileScreen.userProfile st' = profile /\
       ProfileScreen.isRegistered st' = true /\
       Mobile.storage w' !! "userProfile" = Some (JSON_stringify profile)).
Proof.
  unfold ProfileScreen.saveUserProfile, Mobile.try_catch, Mobile.bind, Mobile.setItem.
  destruct (Mobile.storageFails w "userProfile").
  - eexists; eexists. split; [reflexivity |]. repeat split.
  - eexists; eexists. split; [reflexivity |]. repeat split.
    cbn. apply lookup_insert_eq.
Qed.

(** X8.  [handleRegister]: with an empty name, phone or area only the
    error dialog is shown, and nothing is sent or changed.  With all three
    filled in, whatever the backend does, one registration request is sent
    and the dialog shown is "Success" (the dialog "Registration failed" is
    never shown); the screen is no longer loading and the form is kept.
    The profile is stored, and the user marked as registered, when
    AsyncStorage accepts it; when it does not, the profile and the mark
    stay as they were, the success dialog notwithstanding. *)
Theorem handleRegister_always_ends_in_success :
  forall (elapsed : float) (st : ProfileScreen.State) (w : Mobile.World),
    (ProfileScreen.fieldMissing (ProfileScreen.formData st) = true ->
     ProfileScreen.handleRegister elapsed st w
     = (Return st,
        snd (Mobile.Alert_alert "Error" "Please fill in all required fields" w))) /\
    (ProfileScreen.fieldMissing (ProfileScreen.formData st) = false ->
     exists st' w' text,
       ProfileScreen.handleRegister elapsed st w = (Return st', w') /\
       Mobile.dialogs w' = Mobile.dialogs w ++ [("Success", text)] /\
       length (Mobile.requests w') = S (length (Mobile.requests w)) /\
       ProfileScreen.loading st' = false /\
       ProfileScreen.formData st' = ProfileScreen.formData st /\
       (if Mobile.storageFails w "userProfile" then
          ProfileScreen.userProfile st' = ProfileScreen.userProfile st /\
          ProfileScreen.isRegistered st' = ProfileScreen.isRegistered st /\
          Mobile.storage w' = Mobile.storage w
        else
          ProfileScreen.isRegistered st' = true /\
          Mobile.storage w' !! "userProfile"
          = Some (JSON_stringify (ProfileScreen.userProfile st')) /\
          JS.get (ProfileScreen.userProfile st') "name"
          = Return (VStr (ProfileScreen.name (ProfileScreen.formData st))))).
Proof.
  intros elapsed st w. split.
  - intros Hmissing. unfold ProfileScreen.handleRegister. rewrite Hmissing. reflexivity.
  - intros Hfilled. unfold ProfileScreen.handleRegister. rewrite Hfilled.
    set (st1 := ProfileScreen.mkState (ProfileScreen.userProfile st)
                  (ProfileScreen.isRegistered st) true (ProfileScreen.formData st)).
    set (userData := MobileRegistration.mkUserData _ _ None _).
    destruct (registerUser_outcome elapsed userData w)
      as (r & w1 & Hreg & _ & Hreq1 & Hsto1 & Hfail1 & Hdia1 & _).
    unfold Mobile.bind at 1. unfold Mobile.try_catch.
    unfold Mobile.bind at 1. rewrite Hreg.
    unfold Mobile.bind at 1. cbn [Mobile.Date_now].
    set (profile := ProfileScreen.newProfile _ _ _).
    destruct (saveUserProfile_outcome profile st1 w1)
      as (st2 & w2 & Hsave & Hdia2 & Hreq2 & Hload2 & Hform2 & Hstored).
    unfold Mobile.bind at 1. rewrite Hsave.
    unfold Mobile.bind, Mobile.Alert_alert, Mobile.ret.
    eexists; eexists; eexists. split; [reflexivity |].
    cbn [Mobile.dialogs Mobile.requests Mobile.storage ProfileScreen.loading
         ProfileScreen.formData ProfileScreen.userProfile ProfileScreen.isRegistered].
    split; [rewrite Hdia2, Hdia1; reflexivity |].
    split; [rewrite Hreq2, Hreq1, length_app; cbn; lia |].
    split; [reflexivity |].
    split; [exact Hform2 |].
    rewrite Hfail1 in Hstored.
    destruct (Mobile.storageFails w "userProfile").
    + destruct Hstored as [-> Hsto2]. repeat split. rewrite Hsto2. exact Hsto1.
    + destruct Hstored as (Hprof & Hreg2 & Hsto2).
      split; [exact Hreg2 |]. split; [rewrite Hprof; exact Hsto2 |].
      rewrite Hprof. reflexivity.
Qed.

End MobileRegistrationFacts.

(** ** The home screen's status card *)

Section HomeScreenFacts.
Context `{Builtins}.

Lemma riskLevelOf_labels (fp : value) :
  Mobile.riskLevelOf fp = "severe" \/ Mobile.riskLevelOf fp = "high" \/
  Mobile.riskLevelOf fp = "mild" \/ Mobile.riskLevelOf fp = "low".
Proof.
  unfold Mobile.riskLevelOf.
  destruct (JS.ge (ToNumber fp) 0.8); [left; reflexivity |].
  destruct (JS.ge (ToNumber fp) 0.6); [right; left; reflexivity |].
  destruct (JS.ge (ToNumber fp) 0.4); [right; right; left; reflexivity |].
  right; right; right; reflexivity.
Qed.

(** [loadFloodData] puts the status that [getFloodStatus] returned on the
    screen. *)
Lemma loadFloodData_shows_status (w : Mobile.World) :
  exists d w1 w',
    Mobile.getFloodStatus w = (Return d, w1) /\
    Mobile.loadFloodData w = (Return tt, w') /\
    Mobile.floodData w' = Some d /\
    Mobile.loading w' = false.
Proof.
  destruct (getFloodStatus_returns w) as (d & w1 & Hget).
  exists d, w1. unfold Mobile.loadFloodData, Mobile.try_catch, Mobile.bind.
  rewrite Hget. eexists. repeat split.
Qed.

(** X9.  What the home screen shows after [loadFloodData]: the load never
    fails and leaves a status on the screen, whose label is one of
    'severe', 'high', 'mild' and 'low'.  A 'high' status gets the red
    warning header and a 'low' one the green check mark; a 'severe' or a
    'mild' status falls through the three cases 'high', 'medium' and 'low'
    of the styling switches: its badge is gray, its icon the information
    circle and the icon's colour the green of a low risk.  The orange
    styling of 'medium' is never shown. *)
Theorem home_header_after_load :
  forall w : Mobile.World,
    exists d w',
      Mobile.loadFloodData w = (Return tt, w') /\
      Mobile.floodData w' = Some d /\
      Mobile.loading w' = false /\
      ((Mobile.riskLevel d = "high" /\
        HomeScreen.statusHeader (Mobile.floodData w')
        = HomeScreen.mkStatusHeader "warning" "#ef4444" "bg-red-500") \/
       (Mobile.riskLevel d = "low" /\
        HomeScreen.statusHeader (Mobile.floodData w')
        = HomeScreen.mkStatusHeader "checkmark-circle" "#10b981" "bg-green-500") \/
       ((Mobile.riskLevel d = "severe" \/ Mobile.riskLevel d = "mild") /\
        HomeScreen.statusHeader (Mobile.floodData w')
        = HomeScreen.mkStatusHeader "information-circle" "#10b981" "bg-gray-500")).
Proof.
  intros w.
  destruct (loadFloodData_shows_status w) as (d & w1 & w' & Hget & Hload & Hdata & Hloading).
  exists d, w'. split; [exact Hload |]. split; [exact Hdata |]. split; [exact Hloading |].
  rewrite Hdata.
  assert (Hlabel : Mobile.riskLevel d = "severe" \/ Mobile.riskLevel d = "high" \/
                   Mobile.riskLevel d = "mild" \/ Mobile.riskLevel d = "low").
  { destruct (getFloodStatus_label w) as (d0 & w0 & Hget0 & Horigin).
    rewrite Hget in Hget0. injection Hget0 as <- <-.
    destruct Horigin as [[t ->] | (resp & readings & fp & _ & _ & _ & ->)].
    - right; right; right; reflexivity.
    - apply riskLevelOf_labels. }
  unfold HomeScreen.statusHeader, HomeScreen.levelOrLow, HomeScreen.iconColor.
  destruct Hlabel as [Hl | [Hl | [Hl | Hl]]]; rewrite Hl; cbn.
  - right; right. split; [left |]; reflexivity.
  - left. split; reflexivity.
  - right; right. split; [right |]; reflexivity.
  - right; left. split; reflexivity.
Qed.

End HomeScreenFacts.

(** ** [getRecommendations] and what [getFloodStatus] hides *)

Section MobileRecommendations.
Context `{Builtins}.

(** Every way [getRecommendations] can go. *)
Lemma getRecommendations_outcome (w : Mobile.World) :
  let request :=
    mkRequest "GET" (Mobile.API_BASE_URL ++ "/api/ai-recommendations")%string None in
  exists r w',
    Mobile.getRecommendations w = (Return r, w') /\
    truthy r = true /\
    Mobile.requests w' = Mobile.requests w ++ [request] /\
    Mobile.storage w' = Mobile.storage w /\
    Mobile.storageFails w' = Mobile.storageFails w /\
    Mobile.clock w' = Mobile.clock w /\
    Mobile.dialogs w' = Mobile.dialogs w /\
    (r = Mobile.defaultRecommendations \/
     exists response data,
       Mobile.backend w request = Responded response /\
       resp_ok response = true /\
       resp_json response = Some data /\
       JS.get data "recommendations" = Return r).
Proof.
  intros request.
  unfold Mobile.getRecommendations, Mobile.try_catch.
  unfold Mobile.bind at 1. unfold Mobile.bind at 1. unfold Mobile.fetch.
  fold request.
  destruct (Mobile.backend w request) as [| response] eqn:Hb.
  { eexists; eexists. split; [reflexivity |]. repeat split. left; reflexivity. }
  destruct (resp_ok response) eqn:Hok.
  2:{ eexists; eexists. split; [reflexivity |]. repeat split. left; reflexivity. }
  unfold Mobile.bind at 1. unfold Mobile.json.
  destruct (resp_json response) as [data |] eqn:Hj.
  2:{ eexists; eexists. split; [reflexivity |]. repeat split. left; reflexivity. }
  unfold Mobile.ret at 1. unfold Mobile.bind at 1. unfold Mobile.lift.
  destruct (JS.get data "recommendations") as [r | e] eqn:Hr.
  2:{ eexists; eexists. split; [reflexivity |]. repeat split. left; reflexivity. }
  eexists; eexists. split; [reflexivity |].
  unfold JS.or_else. destruct (truthy r) eqn:Htruthy.
  - repeat split; try assumption. right. exists response, data. repeat split; assumption.
  - repeat split. left; reflexivity.
Qed.

(** X10.  [getRecommendations] never throws, sends one request and touches
    neither the storage nor the dialogs.  What it returns is decided by
    the backend's answer: when the response is ok, its body is an object
    (or any JSON value but [null]) and the [recommendations] property of
    the body is truthy, it is that property; in every other case (no
    connection, a response that is not ok, a body that is no JSON text or
    is [null], a property that is missing or falsy) it is the list of the
    four default recommendations.  So the result is never falsy.  An
    error is logged exactly when the fetch or the reading of the body
    threw. *)
Theorem getRecommendations_never_empty_handed :
  forall w : Mobile.World,
    let request :=
      mkRequest "GET" (Mobile.API_BASE_URL ++ "/api/ai-recommendations")%string None in
    let defaults :=
      VArr [ VStr "Monitor weather conditions regularly";
             VStr "Check drainage systems in your area";
             VStr "Stay informed about weather updates";
             VStr "Keep emergency contacts handy" ] in
    let caught := Mobile.errorsLogged w ++ ["Recommendations Error:"] in
    exists r w',
      Mobile.getRecommendations w = (Return r, w') /\
      truthy r = true /\
      Mobile.requests w' = Mobile.requests w ++ [request] /\
      Mobile.storage w' = Mobile.storage w /\
      Mobile.dialogs w' = Mobile.dialogs w /\
      match Mobile.backend w request with
      | NetworkError => r = defaults /\ Mobile.errorsLogged w' = caught
      | Responded response =>
          if resp_ok response then
            match resp_json response with
            | None | Some VNull | Some VUndefined =>
                r = defaults /\ Mobile.errorsLogged w' = caught
            | Some (VObj fields) =>
                r = (if truthy (JS.assoc "recommendations" fields)
                     then JS.assoc "recommendations" fields
                     else defaults) /\
                Mobile.errorsLogged w' = Mobile.errorsLogged w
            | Some (VBool _) | Some (VNum _) | Some (VStr _) | Some (VArr _) =>
                r = defaults /\ Mobile.errorsLogged w' = Mobile.errorsLogged w
            end
          else r = defaults /\ Mobile.errorsLogged w' = Mobile.errorsLogged w
      end.
Proof.
  intros w request defaults caught.
  destruct (getRecommendations_outcome w)
    as (r & w' & Hrun & Htruthy & Hreq & Hsto & _ & _ & Hdia & _).
  exists r, w'. split; [exact Hrun |]. split; [exact Htruthy |].
  split; [exact Hreq |]. split; [exact Hsto |]. split; [exact Hdia |].
  clear Htruthy Hreq Hsto Hdia. revert Hrun.
  unfold Mobile.getRecommendations, Mobile.try_catch.
  unfold Mobile.bind at 1. unfold Mobile.bind at 1. unfold Mobile.fetch.
  fold request.
  destruct (Mobile.backend w request) as [| response].
  { intros [= <- <-]. split; reflexivity. }
  destruct (resp_ok response).
  2:{ intros [= <- <-]. split; reflexivity. }
  unfold Mobile.bind at 1. unfold Mobile.json.
  destruct (resp_json response) as [data |].
  2:{ intros [= <- <-]. split; reflexivity. }
  unfold Mobile.ret at 1. unfold Mobile.bind at 1. unfold Mobile.lift.
  destruct data as [| | b | n | s | items | fields]; cbn [JS.get];
    intros [= <- <-]; split; reflexivity.
Qed.

(** X11.  A storage failure hides a reading.  The backend answers with a
    reading (an object, first of a non-empty list), but AsyncStorage rejects
    the key of the last risk: [getFloodStatus] then returns the placeholder
    'low' status stamped with the current time, whatever the reading's
    probability; "API Error:" is the last error logged, no alert is shown
    and the storage is as before. *)
Theorem getFloodStatus_storage_failure_hides_reading :
  forall (w : Mobile.World) (response : Response) (readings : value)
         (fields : list (string * value)),
    Mobile.backend w Mobile.recentReadingsRequest = Responded response ->
    resp_ok response = true ->
    resp_json response = Some readings ->
    truthy readings = true ->
    JS.gt (ToNumber (JS.length_of readings)) 0 = true ->
    JS.index0 readings = VObj fields ->
    Mobile.storageFails w "lastRiskLevel" = true ->
    exists w',
      Mobile.getFloodStatus w = (Return (Mobile.fallbackData (Mobile.clock w)), w') /\
      last (Mobile.errorsLogged w') = Some "API Error:" /\
      Mobile.dialogs w' = Mobile.dialogs w /\
      Mobile.storage w' = Mobile.storage w.
Proof.
  intros w response readings fields Hb Hok Hj Htruthy Hlen Hidx Hfails.
  unfold Mobile.getFloodStatus, Mobile.try_catch.
  unfold Mobile.bind at 1. unfold Mobile.fetch. rewrite Hb, Hok. cbn [negb].
  unfold Mobile.bind at 1. unfold Mobile.json. rewrite Hj. cbn [Mobile.ret].
  rewrite Htruthy, Hlen, Hidx. cbn [andb JS.get].
  do 6 (unfold Mobile.bind at 1; unfold Mobile.lift at 1).
  destruct (getRecommendations_outcome (Mobile.sent Mobile.recentReadingsRequest w))
    as (r & w1 & Hrun & _ & _ & Hsto & Hsf & Hclock & Hdia & _).
  unfold Mobile.bind at 1. rewrite Hrun.
  unfold Mobile.bind at 1. unfold Mobile.getItem at 1.
  rewrite Hsf. cbn [Mobile.sent Mobile.storageFails]. rewrite Hfails.
  unfold Mobile.bind, Mobile.console_error, Mobile.Date_now, Mobile.ret.
  cbn [Mobile.logged Mobile.clock]. rewrite Hclock.
  eexists. split; [reflexivity |].
  cbn [Mobile.errorsLogged Mobile.dialogs Mobile.storage].
  split; [apply last_snoc |]. split; [exact Hdia | exact Hsto].
Qed.

End MobileRecommendations.

Lemma storage_failure_example :
  let w := Inputs.storageRejects "lastRiskLevel" Inputs.severeWorld in
  @Mobile.riskLevelOf Sample.builtins (VNum 0.9) = "severe" /\
  exists w',
    @Mobile.getFloodStatus Sample.builtins w
    = (Return (@Mobile.fallbackData Sample.builtins (Mobile.clock w)), w') /\
    Mobile.dialogs w' = [].
Proof.
  intros w. split; [reflexivity |].
  destruct (@getFloodStatus_storage_failure_hides_reading Sample.builtins w
              (mkResponse true 200 (Some (VArr [Sample.readingJson "SEVERE" 0.9])))
              (VArr [Sample.readingJson "SEVERE" 0.9])
              [ ("timestamp", VStr "2025-01-01T00:00:00Z");
                ("floodProbability", VNum 0.9);
                ("risk_level", VStr "SEVERE") ]
              eq_refl eq_refl eq_refl eq_refl eq_refl eq_refl eq_refl)
    as (w' & Hrun & _ & Hdia & _).
  exists w'. split; [exact Hrun | exact Hdia].
Defined.

(** ** The alert history of the mobile app *)

Section MobileHistory.
Context `{Builtins}.

(** X12.  [showFloodAlert] and the stored alert history (the storage
    working, a non-empty text stored).  When the text is the JSON text of
    an array, the new alert is put in front of it and, of the earlier
    alerts, only the 49 most recent are kept: what is stored never has
    more than 50 alerts; the dialog is shown.  When the text is no JSON
    text, the history starts again from the new alert alone, and the
    dialog is shown.  When the text is JSON but no array, [showFloodAlert]
    throws: no dialog is shown and the world is left as it was. *)
Theorem showFloodAlert_history :
  forall (riskLevel : string) (riskPercentage : float) (w : Mobile.World) (h : string),
    Mobile.storageWorks w ->
    Mobile.storage w !! "alertHistory" = Some h ->
    truthy_str h = true ->
    let title := ("🚨 Flood Risk Alert: " ++ toUpperCase riskLevel)%string in
    let message := Mobile.alertMessage riskLevel riskPercentage in
    let newAlert :=
      VObj [ ("id", VStr (NumberToString (Mobile.clock w)));
             ("title", VStr title);
             ("message", VStr message);
             ("riskLevel", VStr riskLevel);
             ("timestamp", VStr (toISOString (Mobile.clock w)));
             ("read", VBool false) ] in
    match JSON_parse h with
    | Some (VArr items) =>
        (List.length (newAlert :: firstn 49 items) <= 50)%nat /\
        exists w',
          Mobile.showFloodAlert riskLevel riskPercentage w = (Return tt, w') /\
          Mobile.storage w' !! "alertHistory"
          = Some (JSON_stringify (VArr (newAlert :: firstn 49 items))) /\
          Mobile.dialogs w' = Mobile.dialogs w ++ [(title, message)]
    | Some _ =>
        exists e, Mobile.showFloodAlert riskLevel riskPercentage w = (Throw e, w)
    | None =>
        exists w',
          Mobile.showFloodAlert riskLevel riskPercentage w = (Return tt, w') /\
          Mobile.storage w' !! "alertHistory" = Some (JSON_stringify (VArr [newAlert])) /\
          Mobile.dialogs w' = Mobile.dialogs w ++ [(title, message)] /\
          Mobile.errorsLogged w'
          = Mobile.errorsLogged w ++ ["Error loading alert history:"]
    end.
Proof.
  intros riskLevel riskPercentage w h Hworks Hstored Htruthy title message newAlert.
  assert (Hget : Mobile.getAlertHistory w
                 = match JSON_parse h with
                   | Some v => (Return v, w)
                   | None => (Return (VArr []),
                              Mobile.logged "Error loading alert history:" w)
                   end).
  { unfold Mobile.getAlertHistory, Mobile.try_catch, Mobile.bind, Mobile.getItem.
    rewrite Hworks, Hstored, Htruthy. destruct (JSON_parse h); reflexivity. }
  destruct (JSON_parse h) as [v |].
  - destruct v as [| | b | n | s | items | fs];
      try (eexists; unfold Mobile.showFloodAlert, Mobile.bind; rewrite Hget; reflexivity).
    split.
    { cbn [List.length]. pose proof (firstn_le_length 49 items). lia. }
    unfold Mobile.showFloodAlert, Mobile.bind. rewrite Hget.
    unfold Mobile.Date_now, Mobile.lift, Mobile.unshift, Mobile.setItem,
      Mobile.Alert_alert.
    rewrite Hworks. eexists. split; [reflexivity |].
    cbn [Mobile.storage Mobile.dialogs]. split; [| reflexivity].
    apply lookup_insert_eq.
  - unfold Mobile.showFloodAlert, Mobile.bind. rewrite Hget.
    unfold Mobile.Date_now, Mobile.lift, Mobile.unshift, Mobile.setItem,
      Mobile.Alert_alert.
    cbn [Mobile.logged Mobile.storageFails]. rewrite Hworks.
    eexists. split; [reflexivity |].
    cbn [Mobile.storage Mobile.dialogs Mobile.errorsLogged Mobile.clock].
    split; [apply lookup_insert_eq |]. split; reflexivity.
Qed.

(** [showFloodAlert] sends nothing. *)
Lemma showFloodAlert_requests (riskLevel : string) (riskPercentage : float)
    (w : Mobile.World) :
  Mobile.requests (snd (Mobile.showFloodAlert riskLevel riskPercentage w))
  = Mobile.requests w.
Proof.
  unfold Mobile.showFloodAlert.
  unfold Mobile.bind at 1.
  assert (Hget : exists v w1,
             Mobile.getAlertHistory w = (Return v, w1) /\
             Mobile.requests w1 = Mobile.requests w).
  { unfold Mobile.getAlertHistory, Mobile.try_catch, Mobile.bind, Mobile.getItem.
    destruct (Mobile.storageFails w "alertHistory");
      [eexists; eexists; split; reflexivity |].
    destruct (Mobile.storage w !! "alertHistory") as [h |];
      [| eexists; eexists; split; reflexivity].
    destruct (truthy_str h); [| eexists; eexists; split; reflexivity].
    destruct (JSON_parse h); eexists; eexists; split; reflexivity. }
  destruct Hget as (v & w1 & -> & Hreq).
  unfold Mobile.bind, Mobile.Date_now, Mobile.lift, Mobile.setItem, Mobile.Alert_alert.
  destruct (Mobile.unshift v _); [| exact Hreq].
  destruct (Mobile.storageFails w1 "alertHistory"); exact Hreq.
Qed.

End MobileHistory.

Lemma corrupt_history_example :
  let w := Inputs.withHistory "null" (Sample.freshWorld (Sample.backendWith None)) in
  Mobile.storageWorks w /\
  exists e, @Mobile.showFloodAlert Sample.builtins "severe" 90 w = (Throw e, w).
Proof.
  intros w.
  assert (Hworks : Mobile.storageWorks w) by (intros key; reflexivity).
  split; [exact Hworks |].
  exact (@showFloodAlert_history Sample.builtins "severe" 90 w "null"
           Hworks eq_refl eq_refl).
Defined.

(** ** The first poll of the mobile app *)

Section MobileFirstPoll.
Context `{Builtins}.

(** X13.  The first poll (no last risk stored, or an empty one; the
    storage working and the history readable) with a reading whose
    probability is the number [p]: [getFloodStatus] returns the status
    labelled from [p] and stores [p] as the last risk.  An alert is shown
    exactly when [p >= 0.4].  Unlike a later poll, the first one never
    asks the backend for SMS alerts, however severe the risk (the two
    requests sent are the one for the reading and the one for the
    recommendations), and it stores no alert time, so that the alert does
    not start the cooldown. *)
Theorem first_poll_alerts_without_cooldown_or_sms :
  forall (w : Mobile.World) (response : Response) (readings : value)
         (fields : list (string * value)) (p : float),
    Mobile.storageWorks w ->
    Mobile.historyReadable w ->
    Mobile.backend w Mobile.recentReadingsRequest = Responded response ->
    resp_ok response = true ->
    resp_json response = Some readings ->
    truthy readings = true ->
    JS.gt (ToNumber (JS.length_of readings)) 0 = true ->
    JS.index0 readings = VObj fields ->
    JS.assoc "floodProbability" fields = VNum p ->
    truthy_opt (Mobile.storage w !! "lastRiskLevel") = false ->
    exists d w',
      Mobile.getFloodStatus w = (Return d, w') /\
      Mobile.riskLevel d = Mobile.riskLevelOf (VNum p) /\
      Mobile.storage w' !! "lastRiskLevel" = Some (NumberToString p) /\
      Mobile.storage w' !! "lastFloodAlert" = Mobile.storage w !! "lastFloodAlert" /\
      Mobile.requests w'
      = Mobile.requests w
        ++ [Mobile.recentReadingsRequest;
            mkRequest "GET" (Mobile.API_BASE_URL ++ "/api/ai-recommendations")%string None] /\
      Mobile.dialogs w'
      = Mobile.dialogs w
        ++ (if JS.ge p 0.4
            then [(("🚨 Flood Risk Alert: "
                      ++ toUpperCase (Mobile.riskLevelOf (VNum p)))%string,
                   Mobile.alertMessage (Mobile.riskLevelOf (VNum p)) (p * 100)%float)]
            else []).
Proof.
  intros w response readings fields p Hworks Hhistory Hb Hok Hj Htruthy Hlen Hidx Hfp Hprev.
  unfold Mobile.getFloodStatus, Mobile.try_catch.
  unfold Mobile.bind at 1. unfold Mobile.fetch. rewrite Hb, Hok. cbn [negb].
  unfold Mobile.bind at 1. unfold Mobile.json. rewrite Hj. cbn [Mobile.ret].
  rewrite Htruthy, Hlen, Hidx. cbn [andb JS.get]. rewrite Hfp.
  do 6 (unfold Mobile.bind at 1; unfold Mobile.lift at 1).
  destruct (getRecommendations_outcome (Mobile.sent Mobile.recentReadingsRequest w))
    as (r & w1 & Hrun & _ & Hreq1 & Hsto1 & Hsf1 & Hclock1 & Hdia1 & _).
  unfold Mobile.bind at 1. rewrite Hrun.
  assert (Hworks1 : Mobile.storageWorks w1).
  { intros key. rewrite Hsf1. apply Hworks. }
  unfold Mobile.bind at 1. unfold Mobile.getItem at 1.
  rewrite Hworks1, Hsto1. cbn [Mobile.sent Mobile.storage].
  set (firstTime := Mobile.bind (Mobile.lift (toString_method (VNum p))) _).
  assert (Hbranch :
            match Mobile.storage w !! "lastRiskLevel" with
            | Some s =>
                if truthy_str s
                then Mobile.checkRiskAndNotify (VNum p) (parseFloat s)
                       (Mobile.riskLevelOf (VNum p))
                else firstTime
            | None => firstTime
            end = firstTime).
  { destruct (Mobile.storage w !! "lastRiskLevel") as [s |]; [| reflexivity].
    cbn [truthy_opt] in Hprev. rewrite Hprev. reflexivity. }
  rewrite Hbranch. clear Hbranch.
  set (w2 := Mobile.mkWorld (<["lastRiskLevel" := NumberToString p]> (Mobile.storage w1))
               (Mobile.storageFails w1) (Mobile.clock w1) (Mobile.backend w1)
               (Mobile.requests w1) (Mobile.dialogs w1) (Mobile.errorsLogged w1)
               (Mobile.floodData w1) (Mobile.loading w1) (Mobile.monitoringInterval w1)).
  assert (Hworks2 : Mobile.storageWorks w2).
  { intros key. apply Hworks1. }
  assert (Hhistory2 : Mobile.historyReadable w2).
  { unfold Mobile.historyReadable, w2. cbn [Mobile.storage].
    rewrite lookup_insert_ne by discriminate. rewrite Hsto1. exact Hhistory. }
  assert (Hfirst :
            exists w3,
              firstTime w1 = (Return tt, w3) /\
              Mobile.storage w3 !! "lastRiskLevel" = Some (NumberToString p) /\
              Mobile.storage w3 !! "lastFloodAlert" = Mobile.storage w !! "lastFloodAlert" /\
              Mobile.requests w3 = Mobile.requests w1 /\
              Mobile.dialogs w3
              = Mobile.dialogs w1
                ++ (if JS.ge p 0.4
                    then [(("🚨 Flood Risk Alert: "
                              ++ toUpperCase (Mobile.riskLevelOf (VNum p)))%string,
                           Mobile.alertMessage (Mobile.riskLevelOf (VNum p))
                             (p * 100)%float)]
                    else [])).
  { unfold firstTime. cbn [toString_method ToString ToNumber].
    unfold Mobile.bind at 1. unfold Mobile.lift.
    unfold Mobile.bind at 1. unfold Mobile.setItem.
    rewrite Hworks1. fold w2.
    destruct (JS.ge p 0.4).
    - destruct (showFloodAlert_shows (Mobile.riskLevelOf (VNum p)) (p * 100)%float w2
                  Hworks2 Hhistory2)
        as (w3 & Hshow & Hdia3 & Hsto3 & _ & _).
      pose proof (showFloodAlert_requests (Mobile.riskLevelOf (VNum p))
                    (p * 100)%float w2) as Hreq3.
      rewrite Hshow in Hreq3. cbn [snd] in Hreq3.
      exists w3. split; [exact Hshow |].
      split.
      { rewrite Hsto3 by discriminate. unfold w2. cbn [Mobile.storage].
        apply lookup_insert_eq. }
      split.
      { rewrite Hsto3 by discriminate. unfold w2. cbn [Mobile.storage].
        rewrite lookup_insert_ne by discriminate. rewrite Hsto1. reflexivity. }
      split; [exact Hreq3 | exact Hdia3].
    - exists w2. split; [reflexivity |].
      unfold w2. cbn [Mobile.storage Mobile.requests Mobile.dialogs].
      split; [apply lookup_insert_eq |].
      split; [rewrite lookup_insert_ne by discriminate; rewrite Hsto1; reflexivity |].
      split; [reflexivity | symmetry; apply app_nil_r]. }
  destruct Hfirst as (w3 & Hrun3 & Hlast & Halert & Hreq3 & Hdia3).
  unfold Mobile.bind at 1. rewrite Hrun3. unfold Mobile.ret.
  eexists; eexists. split; [reflexivity |].
  cbn [Mobile.riskLevel].
  split; [reflexivity |]. split; [exact Hlast |]. split; [exact Halert |].
  split.
  - rewrite Hreq3, Hreq1. cbn [Mobile.sent Mobile.requests].
    rewrite <- app_assoc. reflexivity.
  - rewrite Hdia3, Hdia1. reflexivity.
Qed.

End MobileFirstPoll.

Lemma first_poll_example :
  exists d w',
    @Mobile.getFloodStatus Sample.builtins Inputs.severeWorld = (Return d, w') /\
    Mobile.riskLevel d = "severe" /\
    Mobile.storage w' !! "lastFloodAlert" = None /\
    List.length (Mobile.requests w') = 2%nat /\
    List.length (Mobile.dialogs w') = 1%nat.
Proof.
  assert (Hworks : Mobile.storageWorks Inputs.severeWorld) by (intros key; reflexivity).
  destruct (@first_poll_alerts_without_cooldown_or_sms Sample.builtins Inputs.severeWorld
              (mkResponse true 200 (Some (VArr [Sample.readingJson "SEVERE" 0.9])))
              (VArr [Sample.readingJson "SEVERE" 0.9])
              [ ("timestamp", VStr "2025-01-01T00:00:00Z");
                ("floodProbability", VNum 0.9);
                ("risk_level", VStr "SEVERE") ]
              0.9%float Hworks I eq_refl eq_refl eq_refl eq_refl eq_refl eq_refl eq_refl
              eq_refl)
    as (d & w' & Hrun & Hlabel & _ & Halert & Hreq & Hdia).
  exists d, w'. split; [exact Hrun |]. split; [exact Hlabel |].
  split; [exact Halert |].
  split; [rewrite Hreq | rewrite Hdia]; reflexivity.
Defined.

(** ** The alert portal: messages and outcomes *)

Lemma trimStart_nil (s : UString.ustring) :
  UString.trimStart s = [] <-> Forall (fun c => UString.isWhiteSpace c = true) s.
Proof.
  induction s as [| c s IH]; cbn [UString.trimStart].
  - split; [constructor | reflexivity].
  - destruct (UString.isWhiteSpace c) eqn:Hc.
    + rewrite IH. split.
      * intros Hs. constructor; assumption.
      * intros Hs. inversion Hs; assumption.
    + split; [discriminate |].
      intros Hs. inversion Hs as [| ? ? Hc' _]. congruence.
Qed.

(** What [trimStart] leaves is blank only when it is empty. *)
Lemma trimStart_blank (s : UString.ustring) :
  Forall (fun c => UString.isWhiteSpace c = true) (UString.trimStart s) ->
  UString.trimStart s = [].
Proof.
  induction s as [| c s IH]; cbn [UString.trimStart]; [reflexivity |].
  destruct (UString.isWhiteSpace c) eqn:Hc; [exact IH |].
  intros Hs. inversion Hs as [| ? ? Hc' _]. congruence.
Qed.

(** [trim] leaves nothing exactly of the texts made of white space. *)
Lemma trim_nil (s : UString.ustring) :
  UString.trim s = [] <-> Forall (fun c => UString.isWhiteSpace c = true) s.
Proof.
  unfold UString.trim. split.
  - intros Hnil.
    assert (Hrev : UString.trimStart (rev (UString.trimStart s)) = []).
    { destruct (UString.trimStart (rev (UString.trimStart s))) as [| x t];
        [reflexivity |].
      apply (f_equal (@List.length N)) in Hnil.
      rewrite length_rev in Hnil. discriminate. }
    apply trimStart_nil in Hrev.
    apply trimStart_nil, trimStart_blank.
    apply List.Forall_rev in Hrev. rewrite rev_involutive in Hrev. exact Hrev.
  - intros Hblank. apply trimStart_nil in Hblank. rewrite Hblank. reflexivity.
Qed.

Section RegistrationOutcomes.
Context `{Builtins}.

(** X14.  Which message an invalid form gets.  The checks are made in the
    order phone number, name, area, and the first that fails decides: a
    phone number that is not of the pattern gives the phone message,
    whatever the name and the area; with a good phone number, a name that
    is empty or made of white space only gives the name message; with
    both good, an empty area gives the area message.  The phone number is
    not trimmed: a good number followed by a space is refused.  In each
    case nothing is sent and only the message changes. *)
Theorem invalid_form_message :
  forall (net : AlertPortal.Call -> FetchOutcome) (st : AlertPortal.State),
    let d := AlertPortal.registrationData st in
    let refusedWith text :=
      AlertPortal.handleRegistration net st
      = (AlertPortal.setMessage (Some (AlertPortal.error, text)) st, []) in
    (~ AlertPortal.phonePattern (AlertPortal.phone_number d) ->
     refusedWith "Please enter a valid phone number (e.g., +919876543210)") /\
    (AlertPortal.phonePattern (AlertPortal.phone_number d) ->
     Forall (fun c => UString.isWhiteSpace c = true) (AlertPortal.name d) ->
     refusedWith "Please enter your name") /\
    (AlertPortal.phonePattern (AlertPortal.phone_number d) ->
     ~ Forall (fun c => UString.isWhiteSpace c = true) (AlertPortal.name d) ->
     AlertPortal.area d = [] ->
     refusedWith "Please select your area") /\
    (forall number,
       AlertPortal.phonePattern number ->
       ~ AlertPortal.phonePattern (number ++ [32%N])).
Proof.
  intros net st d refusedWith. subst refusedWith d. cbv beta.
  split; [| split; [| split]].
  - intros Hphone. rewrite <- phoneRegex_test_spec in Hphone.
    unfold AlertPortal.handleRegistration.
    destruct (Regex.test _ _); [contradiction Hphone; reflexivity | reflexivity].
  - intros Hphone Hname. apply phoneRegex_test_spec in Hphone. apply trim_nil in Hname.
    unfold AlertPortal.handleRegistration. rewrite Hphone, Hname. reflexivity.
  - intros Hphone Hname Harea. apply phoneRegex_test_spec in Hphone.
    rewrite <- trim_nil in Hname. apply ustring_truthy in Hname.
    unfold AlertPortal.handleRegistration. rewrite Hphone, Hname, Harea. reflexivity.
  - intros number _ (d & ds & Heq & Hfirst & Hds & _).
    assert (Hlast : In 32%N (d :: ds)).
    { destruct number as [| x number]; [destruct ds; discriminate |].
      injection Heq as _ Heq. rewrite <- Heq. apply in_or_app. right. left. reflexivity. }
    destruct Hlast as [Hd | Hin].
    + lia.
    + pose proof (proj1 (List.Forall_forall _ _) Hds _ Hin) as Hdigit.
      unfold AlertPortal.isDigit in Hdigit. lia.
Qed.

(** A form that was reset cannot be sent again. *)
Lemma handleRegistration_emptyForm (net : AlertPortal.Call -> FetchOutcome)
    (st : AlertPortal.State) :
  AlertPortal.registrationData st = AlertPortal.emptyForm ->
  snd (AlertPortal.handleRegistration net st) = [].
Proof.
  intros Hform. unfold AlertPortal.handleRegistration. rewrite Hform. reflexivity.
Qed.

(** X15.  What a valid form leads to.  In every case the portal is no
    longer loading when all has settled.  When the backend accepts the
    registration, the form is reset (so that submitting it again sends
    nothing) and the list of users is asked for: if that succeeds the
    users are replaced and the success message stays; if it fails, the
    message shown in the end is the error "Failed to load users", not the
    success of the registration.  When the backend refuses, or cannot be
    reached, the form and the users are kept, nothing else is sent and an
    error message is shown: the [detail] of the backend's answer when it
    has one, "Registration failed" when it has none. *)
Theorem valid_form_outcomes :
  forall (net : AlertPortal.Call -> FetchOutcome) (st : AlertPortal.State),
    AlertPortal.validForm (AlertPortal.registrationData st) ->
    let data := AlertPortal.registrationData st in
    let result := fst (AlertPortal.handleRegistration net st) in
    let calls := snd (AlertPortal.handleRegistration net st) in
    let usersFailed :=
      AlertPortal.users result = AlertPortal.users st /\
      AlertPortal.message result = Some (AlertPortal.error, "Failed to load users") in
    let refused :=
      AlertPortal.registrationData result = data /\
      AlertPortal.users result = AlertPortal.users st /\
      calls = [AlertPortal.PostRegister data] in
    AlertPortal.loading result = false /\
    match net (AlertPortal.PostRegister data) with
    | Responded response =>
        if resp_ok response then
          AlertPortal.registrationData result = AlertPortal.emptyForm /\
          calls = [AlertPortal.PostRegister data; AlertPortal.GetUsers] /\
          snd (AlertPortal.handleRegistration net result) = [] /\
          match net AlertPortal.GetUsers with
          | Responded listing =>
              if resp_ok listing then
                match resp_json listing with
                | Some users =>
                    AlertPortal.users result = users /\
                    AlertPortal.message result
                    = Some (AlertPortal.success,
                            "Registration successful! You will receive flood alerts on your phone.")
                | None => usersFailed
                end
              else usersFailed
          | NetworkError => usersFailed
          end
        else
          refused /\
          match resp_json response with
          | Some (VObj fields) =>
              AlertPortal.message result
              = Some (AlertPortal.error,
                      ToString (JS.or_else (JS.assoc "detail" fields)
                                  (VStr "Registration failed")))
          | _ => exists text, AlertPortal.message result = Some (AlertPortal.error, text)
          end
    | NetworkError =>
        refused /\
        exists text, AlertPortal.message result = Some (AlertPortal.error, text)
    end.
Proof.
  intros net st Hvalid data result calls usersFailed refused.
  apply validForm_checks in Hvalid. destruct Hvalid as (Hphone & Hname & Harea).
  subst usersFailed refused calls result.
  remember (AlertPortal.handleRegistration net st) as run eqn:Hrun.
  unfold AlertPortal.handleRegistration in Hrun.
  rewrite Hphone, Hname, Harea in Hrun. cbn [negb] in Hrun. fold data in Hrun.
  destruct (net (AlertPortal.PostRegister data)) as [| response].
  { subst run. cbn. split; [reflexivity |]. split; [repeat split |].
    eexists; reflexivity. }
  destruct (resp_ok response).
  - subst run. cbn [fst snd].
    assert (Hform : forall s,
               AlertPortal.registrationData (AlertPortal.fetchUsers net s)
               = AlertPortal.registrationData s).
    { intros s. unfold AlertPortal.fetchUsers.
      destruct (net AlertPortal.GetUsers) as [| listing]; [reflexivity |].
      destruct (resp_ok listing); [| reflexivity].
      destruct (resp_json listing); reflexivity. }
    split.
    { unfold AlertPortal.fetchUsers. reflexivity. }
    split; [rewrite Hform; reflexivity |].
    split; [reflexivity |].
    split; [apply handleRegistration_emptyForm; rewrite Hform; reflexivity |].
    unfold AlertPortal.fetchUsers.
    destruct (net AlertPortal.GetUsers) as [| listing]; [split; reflexivity |].
    destruct (resp_ok listing); [| split; reflexivity].
    destruct (resp_json listing); split; reflexivity.
  - destruct (resp_json response) as [err |].
    + destruct err as [| | b | n | s | items | fields]; subst run; cbn;
        (split; [reflexivity |]); (split; [repeat split |]);
        try (eexists; reflexivity); reflexivity.
    + subst run. cbn. split; [reflexivity |]. split; [repeat split |].
      eexists; reflexivity.
Qed.

End RegistrationOutcomes.

Lemma valid_form_example :
  AlertPortal.validForm (AlertPortal.registrationData Inputs.filledForm) /\
  let result :=
    fst (@AlertPortal.handleRegistration Sample.builtins Inputs.registersOnly
           Inputs.filledForm) in
  AlertPortal.registrationData result = AlertPortal.emptyForm /\
  AlertPortal.message result = Some (AlertPortal.error, "Failed to load users").
Proof.
  assert (Hvalid : AlertPortal.validForm (AlertPortal.registrationData Inputs.filledForm)).
  { apply validForm_checks. repeat split. }
  split; [exact Hvalid |].
  destruct (@valid_form_outcomes Sample.builtins Inputs.registersOnly Inputs.filledForm
              Hvalid) as (_ & Hform & _ & _ & _ & Hmessage).
  split; [exact Hform | exact Hmessage].
Defined.

(** ** The alerts panel and the dashboard's alert list *)

Lemma filter_split_length {A : Type} (f : A -> bool) (l : list A) :
  (List.length (List.filter f l) + List.length (List.filter (fun x => negb (f x)) l)
   = List.length l)%nat.
Proof.
  induction l as [| x l IH]; [reflexivity |].
  cbn [List.filter]. destruct (f x); cbn [negb List.length]; lia.
Qed.

Lemma filter_split_count {A : Type} (f : A -> bool) (l : list A) (x : A)
    (eq_dec : forall a b : A, {a = b} + {a <> b}) :
  (count_occ eq_dec (List.filter (fun y => negb (f y)) l ++ List.filter f l) x
   = count_occ eq_dec l x)%nat.
Proof.
  rewrite count_occ_app.
  induction l as [| y l IH]; [reflexivity |].
  cbn [List.filter]. destruct (f y); cbn [negb count_occ];
    destruct (eq_dec y x); lia.
Qed.

(** X16.  What the alerts panel shows.  Without alerts it shows the "No
    alerts" placeholder and neither badge, nor button, nor footer.  With
    alerts, the rows it shows are the alerts that are not acknowledged, in
    their order, followed by the acknowledged ones, in their order: every
    alert has as many rows as it has occurrences in the list, none is lost
    and none is shown in both groups; the footer's pending and resolved
    counts add up to its total, the number of alerts; and the badge is
    missing exactly when every alert is acknowledged. *)
Theorem alerts_panel_shows_every_alert_once :
  forall alerts : list AlertsPanel.Alert,
    let panel := AlertsPanelView.render alerts in
    (alerts = [] ->
     panel = AlertsPanelView.mkPanel None false AlertsPanelView.NoAlerts None) /\
    (alerts <> [] ->
     exists pendingRows divider heading resolvedRows pending resolved,
       AlertsPanelView.body panel
       = AlertsPanelView.Rows pendingRows divider heading resolvedRows /\
       AlertsPanelView.footer panel
       = Some (AlertsPanelView.mkFooter (List.length alerts) pending resolved) /\
       AlertsPanelView.clearAll panel = true /\
       (pending + resolved = List.length alerts)%nat /\
       List.length pendingRows = pending /\
       List.length resolvedRows = resolved /\
       pendingRows = List.filter (fun a => negb (AlertsPanel.acknowledged a)) alerts /\
       resolvedRows = List.filter (fun a => AlertsPanel.acknowledged a) alerts /\
       (forall (eq_dec : forall a b : AlertsPanel.Alert, {a = b} + {a <> b}) a,
          count_occ eq_dec (pendingRows ++ resolvedRows) a = count_occ eq_dec alerts a) /\
       (AlertsPanelView.badge panel = None <->
        Forall (fun a => AlertsPanel.acknowledged a = true) alerts)).
Proof.
  intros alerts panel. subst panel. split.
  - intros ->. reflexivity.
  - intros Hne.
    pose proof (filter_split_length (fun a => AlertsPanel.acknowledged a) alerts) as Hlen.
    unfold AlertsPanelView.render.
    fold (AlertsPanelView.unacknowledgedAlerts alerts)
         (AlertsPanelView.acknowledgedAlerts alerts) in *.
    cbn [AlertsPanelView.body AlertsPanelView.footer AlertsPanelView.clearAll
         AlertsPanelView.badge].
    assert (Hpos : (0 < List.length alerts)%nat)
      by (destruct alerts; [congruence | cbn; lia]).
    destruct (Nat.eqb_spec (List.length alerts) 0) as [Hz | _]; [lia |].
    destruct (Nat.ltb_spec 0 (List.length alerts)) as [_ | Hz]; [| lia].
    assert (Hbadge :
              (if (0 <? List.length (AlertsPanelView.unacknowledgedAlerts alerts))%nat
               then Some (List.length (AlertsPanelView.unacknowledgedAlerts alerts))
               else None) = None <->
              Forall (fun a => AlertsPanel.acknowledged a = true) alerts).
    { unfold AlertsPanelView.unacknowledgedAlerts.
      clear. induction alerts as [| a alerts IH].
      - cbn. split; [constructor | reflexivity].
      - cbn [List.filter]. destruct (AlertsPanel.acknowledged a) eqn:Ha; cbn [negb].
        + rewrite IH. split.
          * intros Hall. constructor; assumption.
          * intros Hall. inversion Hall; assumption.
        + cbn. split; [discriminate |].
          intros Hall. inversion Hall. congruence. }
    destruct (Nat.ltb_spec 0 (List.length (AlertsPanelView.acknowledgedAlerts alerts)))
      as [Hack | Hack].
    + eexists; eexists; eexists; eexists; eexists; eexists.
      split; [reflexivity |]. split; [reflexivity |]. split; [reflexivity |].
      split; [unfold AlertsPanelView.unacknowledgedAlerts,
                AlertsPanelView.acknowledgedAlerts in *; lia |].
      split; [reflexivity |]. split; [reflexivity |].
      split; [reflexivity |]. split; [reflexivity |].
      split; [| exact Hbadge].
      intros eq_dec a. apply filter_split_count.
    + assert (Hnil : AlertsPanelView.acknowledgedAlerts alerts = [])
        by (destruct (AlertsPanelView.acknowledgedAlerts alerts);
            [reflexivity | cbn in Hack; lia]).
      eexists; eexists; eexists; eexists; eexists; eexists.
      split; [reflexivity |]. split; [reflexivity |]. split; [reflexivity |].
      split; [unfold AlertsPanelView.unacknowledgedAlerts,
                AlertsPanelView.acknowledgedAlerts in *; lia |].
      split; [reflexivity |]. split; [rewrite Hnil; reflexivity |].
      split; [reflexivity |]. split; [symmetry; exact Hnil |].
      split; [| exact Hbadge].
      intros eq_dec a.
      pose proof (filter_split_count (fun a => AlertsPanel.acknowledged a) alerts a eq_dec)
        as Hcount.
      unfold AlertsPanelView.acknowledgedAlerts in Hnil. rewrite Hnil in Hcount.
      exact Hcount.
Qed.

Section DashboardAlertsFacts.
Context `{Builtins}.

(** X17.  [generateSampleAlerts] always returns exactly one alert, so
    that the panel never shows "No alerts" for it.  The alert is pending
    (and the badge reads "1 new") exactly when the label is the text
    'SEVERE' or 'HIGH' in capitals; for every other label, a label in
    small letters and a missing label it is the acknowledged "System
    Status" note, whatever the probability. *)
Theorem sample_alerts_single_row :
  forall (now floodProbability : float) (riskLevel : option string),
    exists a,
      AlertsPanel.generateSampleAlerts now floodProbability riskLevel = [a] /\
      AlertsPanelView.footer
        (AlertsPanelView.render
           (AlertsPanel.generateSampleAlerts now floodProbability riskLevel))
      = Some (AlertsPanelView.mkFooter 1
                (if AlertsPanel.acknowledged a then 0 else 1)
                (if AlertsPanel.acknowledged a then 1 else 0)) /\
      AlertsPanelView.badge
        (AlertsPanelView.render
           (AlertsPanel.generateSampleAlerts now floodProbability riskLevel))
      = (if AlertsPanel.acknowledged a then None else Some 1%nat) /\
      (AlertsPanel.acknowledged a = false <->
       riskLevel = Some "SEVERE" \/ riskLevel = Some "HIGH") /\
      (AlertsPanel.acknowledged a = true ->
       AlertsPanel.type a = AlertsPanel.info /\ AlertsPanel.title a = "System Status").
Proof.
  intros now floodProbability riskLevel.
  unfold AlertsPanel.generateSampleAlerts.
  destruct (decide (riskLevel = Some "SEVERE")) as [Hs | Hs].
  { eexists. split; [reflexivity |]. cbn.
    repeat split; try discriminate. intros _. left. exact Hs. }
  destruct (decide (riskLevel = Some "HIGH")) as [Hh | Hh].
  { eexists. split; [reflexivity |]. cbn.
    repeat split; try discriminate. intros _. right. exact Hh. }
  eexists. split; [reflexivity |]. cbn.
  repeat split; try discriminate. intros [? | ?]; contradiction.
Qed.

(** The alerts of a sensor without a label. *)
Lemma alertsOf_unlabelled (now : float) (sensor : SensorAlerts.SensorData) :
  SensorAlerts.risk_level sensor = None ->
  Forall (fun a => AlertsPanel.type a = AlertsPanel.warning /\
                   AlertsPanel.title a = "Sensor Communication Warning" /\
                   AlertsPanel.acknowledged a = false)
    (SensorAlerts.alertsOf now sensor) /\
  (List.length (SensorAlerts.alertsOf now sensor) <= 1)%nat.
Proof.
  intros Hl. unfold SensorAlerts.alertsOf. rewrite Hl. cbn [app].
  destruct (SensorAlerts.status sensor); cbn [List.length]; split;
    repeat constructor.
Qed.

Lemma sensorsFrom_unlabelled (random clock : nat -> float)
    (locations : list (string * string * float * float)) :
  forall i : nat,
    Forall (fun sensor => SensorAlerts.risk_level sensor = None)
      (DashboardAlerts.sensorsFrom random clock i locations) /\
    List.length (DashboardAlerts.sensorsFrom random clock i locations)
    = List.length locations.
Proof.
  induction locations as [| [[[id name] lat] lng] rest IH]; intros i.
  - split; [constructor | reflexivity].
  - cbn [DashboardAlerts.sensorsFrom List.length].
    destruct (IH (S i)) as [Hall Hlen]. split.
    + constructor; [reflexivity | exact Hall].
    + rewrite Hlen. reflexivity.
Qed.

Lemma generateAlerts_unlabelled (now : float) (sensors : list SensorAlerts.SensorData) :
  Forall (fun sensor => SensorAlerts.risk_level sensor = None) sensors ->
  Forall (fun a => AlertsPanel.type a = AlertsPanel.warning /\
                   AlertsPanel.title a = "Sensor Communication Warning" /\
                   AlertsPanel.acknowledged a = false)
    (SensorAlerts.generateAlerts now sensors) /\
  (List.length (SensorAlerts.generateAlerts now sensors) <= List.length sensors)%nat.
Proof.
  unfold SensorAlerts.generateAlerts.
  induction 1 as [| sensor sensors Hl _ [IHall IHlen]]; cbn [flat_map List.length].
  - split; [constructor | lia].
  - destruct (alertsOf_unlabelled now sensor Hl) as [Hall Hlen]. split.
    + apply Forall_app. split; assumption.
    + rewrite length_app. lia.
Qed.

(** X18.  The mock sensors never raise a flood alert.  [initializeSensors]
    makes five sensors and gives none a [risk_level], whatever numbers
    [Math.random] returns; [generateAlerts] therefore yields for them at
    most five alerts, every one a "Sensor Communication Warning" of type
    warning: no alert of type critical, and none about the flood
    probability, however high it was drawn. *)
Theorem mock_sensors_raise_no_flood_alert :
  forall (random clock : nat -> float) (now : float),
    let sensors := DashboardAlerts.initializeSensors random clock in
    List.length sensors = 5%nat /\
    (List.length (SensorAlerts.generateAlerts now sensors) <= 5)%nat /\
    Forall (fun a => AlertsPanel.type a = AlertsPanel.warning /\
                     AlertsPanel.title a = "Sensor Communication Warning" /\
                     AlertsPanel.acknowledged a = false)
      (SensorAlerts.generateAlerts now sensors) /\
    (forall i : nat,
       (i < 5)%nat ->
       exists sensor,
         nth_error sensors i = Some sensor /\
         SensorAlerts.floodProbability sensor = (random (9 * i)%nat * 0.8 + 0.1)%float /\
         SensorAlerts.alertsOf now sensor
         = if JS.gt (random (9 * i + 8)%nat) 0.8
           then [ AlertsPanel.mkAlert
                    ("sensor-" ++ SensorAlerts.id sensor ++ "-" ++ NumberToString now)%string
                    AlertsPanel.warning
                    "Sensor Communication Warning"
                    ("Intermittent connection issues with sensor at "
                       ++ SensorAlerts.name sensor)%string
                    (toISOString now) false ]
           else []).
Proof.
  intros random clock now sensors. subst sensors.
  unfold DashboardAlerts.initializeSensors.
  destruct (sensorsFrom_unlabelled random clock DashboardAlerts.sensorLocations 0)
    as [Hnone Hlen].
  destruct (generateAlerts_unlabelled now _ Hnone) as [Hall Hcount].
  split; [exact Hlen |].
  split; [rewrite Hlen in Hcount; exact Hcount |].
  split; [exact Hall |].
  intros i Hi.
  destruct i as [| [| [| [| [| i]]]]]; [| | | | | lia];
    (eexists; split; [reflexivity |]; split; [reflexivity |];
     unfold SensorAlerts.alertsOf; cbn [SensorAlerts.risk_level SensorAlerts.status app];
     destruct (JS.gt _ 0.8); reflexivity).
Qed.

Lemma alertsEffect_length (now : float) (sensors : list SensorAlerts.SensorData)
    (isMonitoring : bool) (prev : list AlertsPanel.Alert) :
  (List.length (DashboardAlerts.alertsEffect now sensors isMonitoring prev)
   <= Nat.max 20 (List.length prev))%nat.
Proof.
  unfold DashboardAlerts.alertsEffect.
  destruct ((0 <? List.length sensors)%nat && isMonitoring); [| lia].
  change (-20)%Z with (- Z.of_nat 20)%Z.
  rewrite slice_negative by lia. rewrite length_skipn. lia.
Qed.

(** X19.  The dashboard's list of alerts.  The effect leaves the list
    alone while there are no sensors or the monitoring is off.  Otherwise
    it appends the new alerts and keeps the 20 last: the list never has
    more than 20 alerts, from the first run on and after every further
    run; the newest alert is its last element; and when the list is full,
    each new alert pushes out the oldest one, acknowledged or not. *)
Theorem dashboard_alerts_keep_last_20 :
  forall (now : float) (sensors : list SensorAlerts.SensorData) (isMonitoring : bool)
         (prev : list AlertsPanel.Alert)
         (runs : list (float * list SensorAlerts.SensorData * bool)),
    let new := SensorAlerts.generateAlerts now sensors in
    let next := DashboardAlerts.alertsEffect now sensors isMonitoring prev in
    (sensors = [] \/ isMonitoring = false -> next = prev) /\
    (sensors <> [] -> isMonitoring = true ->
     next = Dashboard.lastn 20 (prev ++ new) /\
     (List.length next <= 20)%nat /\
     (new <> [] -> last next = last new) /\
     (List.length prev = 20%nat -> (List.length new <= 20)%nat ->
      next = skipn (List.length new) prev ++ new)) /\
    (List.length (DashboardAlerts.alertsAfter runs []) <= 20)%nat.
Proof.
  intros now sensors isMonitoring prev runs new next.
  split; [| split].
  - intros [-> | ->]; subst next; unfold DashboardAlerts.alertsEffect.
    + reflexivity.
    + rewrite andb_false_r. reflexivity.
  - intros Hsensors ->.
    assert (Hnext : next = Dashboard.lastn 20 (prev ++ new)).
    { subst next. unfold DashboardAlerts.alertsEffect.
      destruct sensors as [| s sensors']; [congruence |].
      cbn [List.length Nat.ltb Nat.leb andb].
      change (-20)%Z with (- Z.of_nat 20)%Z.
      rewrite slice_negative by lia. reflexivity. }
    split; [exact Hnext |].
    split; [rewrite Hnext, lastn_length; lia |].
    split.
    + intros Hnew. rewrite Hnext. unfold Dashboard.lastn.
      destruct (exists_last Hnew) as (front & a & Hsplit). rewrite Hsplit.
      rewrite app_assoc, !last_snoc.
      rewrite length_app. cbn [List.length].
      rewrite skipn_app.
      replace (List.length (prev ++ front) + 1 - 20 - List.length (prev ++ front))%nat
        with 0%nat by lia.
      cbn [skipn]. apply last_snoc.
    + intros Hfull Hlen. rewrite Hnext. unfold Dashboard.lastn.
      rewrite length_app, skipn_app, Hfull.
      replace (20 + List.length new - 20)%nat with (List.length new) by lia.
      replace (List.length new - 20)%nat with 0%nat by lia.
      reflexivity.
  - unfold DashboardAlerts.alertsAfter.
    assert (Hinv : forall alerts : list AlertsPanel.Alert,
               (List.length alerts <= 20)%nat ->
               (List.length
                  (fold_left
                     (fun alerts run =>
                        DashboardAlerts.alertsEffect (fst (fst run)) (snd (fst run))
                          (snd run) alerts)
                     runs alerts) <= 20)%nat).
    { induction runs as [| run runs IH]; intros alerts Hle; [exact Hle |].
      cbn [fold_left]. apply IH.
      pose proof (alertsEffect_length (fst (fst run)) (snd (fst run)) (snd run) alerts).
      lia. }
    apply Hinv. cbn. lia.
Qed.

End DashboardAlertsFacts.

(** ** The API client: disconnecting *)

Section DisconnectReconnect.
Context {App : Type}.
Context `{Builtins}.
Variable call : nat -> value -> App -> completion unit * App * list WebApi.Method.

(** X20.  [disconnectWebSocket] does not keep the client disconnected.
    It closes the socket and forgets it; the close event of that socket
    then reaches the [onclose] handler, which schedules a reconnection
    after 5000 ms; and when the timer goes off the client has a socket
    again, a new one.  The listeners are still gone: a message on the new
    connection calls nobody. *)
Theorem disconnect_is_undone_by_reconnect :
  forall (c : WebApi.Client App) (socket : nat) (eventData : string),
    WebApi.ws c = Some socket ->
    WebApi.hasHandlers socket c = true ->
    (WebApi.fired c <= List.length (WebApi.timeouts c))%nat ->
    let c1 := WebApi.step call (WebApi.Call WebApi.Disconnect) c in
    let c2 := WebApi.step call (WebApi.Close socket) c1 in
    let c3 := WebApi.step call (WebApi.TimerFires true) c2 in
    WebApi.ws c1 = None /\
    WebApi.timeouts c2 = WebApi.timeouts c ++ [5000%float] /\
    WebApi.ws c3 = Some (WebApi.sockets c) /\
    WebApi.sockets c3 = S (WebApi.sockets c) /\
    WebApi.listeners c3 = [] /\
    fst (fst (WebApi.onmessage call eventData c3)) = [].
Proof.
  intros c socket eventData Hws Hhandlers Hfired c1 c2 c3.
  assert (H2 : c2 = WebApi.onclose c1).
  { subst c2 c1. cbn [WebApi.step WebApi.invoke].
    unfold WebApi.hasHandlers in *. cbn [WebApi.disconnectWebSocket WebApi.sockets].
    rewrite Hhandlers. reflexivity. }
  assert (H3 : c3 = WebApi.connectWebSocket true
                      (WebApi.mkClient (WebApi.arrays c2) (WebApi.wsListeners c2)
                         (WebApi.ws c2) (WebApi.sockets c2) (WebApi.timeouts c2)
                         (S (WebApi.fired c2)) (WebApi.console c2) (WebApi.app c2))).
  { subst c3. cbn [WebApi.step].
    assert (Hpending : (WebApi.fired c2 <? List.length (WebApi.timeouts c2))%nat = true).
    { rewrite H2. subst c1. cbn. rewrite length_app. cbn. apply Nat.ltb_lt. lia. }
    rewrite Hpending. reflexivity. }
  assert (Hlisteners : WebApi.listeners c3 = []).
  { rewrite H3, H2. subst c1. unfold WebApi.listeners. cbn.
    rewrite list_lookup_middle by reflexivity. reflexivity. }
  split; [reflexivity |].
  split; [rewrite H2; reflexivity |].
  split; [rewrite H3, H2; reflexivity |].
  split; [rewrite H3, H2; reflexivity |].
  split; [exact Hlisteners |].
  unfold WebApi.onmessage, WebApi.forEach.
  destruct (JSON_parse eventData) as [data |]; [| reflexivity].
  rewrite Hlisteners. reflexivity.
Qed.

End DisconnectReconnect.

Lemma disconnect_reconnect_example :
  WebApi.ws Inputs.connectedClient = Some 0%nat /\
  WebApi.listeners Inputs.connectedClient = [0; 1]%nat /\
  let reached :=
    WebApi.run (H := Sample.builtins) Sample.firstThrows
      [ WebApi.Call WebApi.Disconnect; WebApi.Close 0; WebApi.TimerFires true ]
      Inputs.connectedClient in
  WebApi.ws reached = Some 1%nat /\ WebApi.listeners reached = [].
Proof.
  split; [reflexivity |]. split; [reflexivity |].
  destruct (@disconnect_is_undone_by_reconnect unit Sample.builtins Sample.firstThrows
              Inputs.connectedClient 0%nat "null" eq_refl eq_refl (le_n 0))
    as (_ & _ & Hws & _ & Hlisteners & _).
  split; [exact Hws | exact Hlisteners].
Defined.

(** ** The requests of a monitoring tick *)

Section SendsRules.
Context {A B : Type}.
Variable P : Request -> Prop.

Lemma sends_ret (a : A) : MobileTraffic.sends P (Mobile.ret a).
Proof. intros w. exists []. split; [symmetry; apply app_nil_r | constructor]. Qed.

Lemma sends_throw (e : error) : MobileTraffic.sends P (@Mobile.throw A e).
Proof. intros w. exists []. split; [symmetry; apply app_nil_r | constructor]. Qed.

Lemma sends_lift (c : completion A) : MobileTraffic.sends P (Mobile.lift c).
Proof. intros w. exists []. split; [symmetry; apply app_nil_r | constructor]. Qed.

Lemma sends_bind (c : Mobile.M A) (k : A -> Mobile.M B) :
  MobileTraffic.sends P c ->
  (forall a, MobileTraffic.sends P (k a)) ->
  MobileTraffic.sends P (Mobile.bind c k).
Proof.
  intros Hc Hk w. unfold Mobile.bind.
  destruct (Hc w) as (rest1 & Hreq1 & Hall1).
  destruct (c w) as [[a | e] w1]; cbn [snd] in *.
  - destruct (Hk a w1) as (rest2 & Hreq2 & Hall2).
    exists (rest1 ++ rest2). split.
    + rewrite Hreq2, Hreq1, <- app_assoc. reflexivity.
    + apply Forall_app. split; assumption.
  - exists rest1. split; assumption.
Qed.

Lemma sends_try_catch (body : Mobile.M A) (handler : error -> Mobile.M A) :
  MobileTraffic.sends P body ->
  (forall e, MobileTraffic.sends P (handler e)) ->
  MobileTraffic.sends P (Mobile.try_catch body handler).
Proof.
  intros Hbody Hhandler w. unfold Mobile.try_catch.
  destruct (Hbody w) as (rest1 & Hreq1 & Hall1).
  destruct (body w) as [[a | e] w1]; cbn [snd] in *.
  - exists rest1. split; assumption.
  - destruct (Hhandler e w1) as (rest2 & Hreq2 & Hall2).
    exists (rest1 ++ rest2). split.
    + rewrite Hreq2, Hreq1, <- app_assoc. reflexivity.
    + apply Forall_app. split; assumption.
Qed.

End SendsRules.

Section SendsPlatform.
Variable P : Request -> Prop.

Lemma sends_fetch (r : Request) : P r -> MobileTraffic.sends P (Mobile.fetch r).
Proof.
  intros Hr w. exists [r]. unfold Mobile.fetch.
  destruct (Mobile.backend w r); (split; [reflexivity | repeat constructor; exact Hr]).
Qed.

Lemma sends_json (response : Response) : MobileTraffic.sends P (Mobile.json response).
Proof.
  unfold Mobile.json. destruct (resp_json response); [apply sends_ret | apply sends_throw].
Qed.

Lemma sends_getItem (key : string) : MobileTraffic.sends P (Mobile.getItem key).
Proof.
  intros w. exists []. unfold Mobile.getItem.
  destruct (Mobile.storageFails w key); (split; [symmetry; apply app_nil_r | constructor]).
Qed.

Lemma sends_setItem (key v : string) : MobileTraffic.sends P (Mobile.setItem key v).
Proof.
  intros w. exists []. unfold Mobile.setItem.
  destruct (Mobile.storageFails w key); (split; [symmetry; apply app_nil_r | constructor]).
Qed.

Lemma sends_Date_now : MobileTraffic.sends P Mobile.Date_now.
Proof. intros w. exists []. split; [symmetry; apply app_nil_r | constructor]. Qed.

Lemma sends_Alert_alert (title message : string) :
  MobileTraffic.sends P (Mobile.Alert_alert title message).
Proof. intros w. exists []. split; [symmetry; apply app_nil_r | constructor]. Qed.

Lemma sends_console_error (label : string) :
  MobileTraffic.sends P (Mobile.console_error label).
Proof. intros w. exists []. split; [symmetry; apply app_nil_r | constructor]. Qed.

Lemma sends_setFloodData (d : Mobile.Status) : MobileTraffic.sends P (Mobile.setFloodData d).
Proof. intros w. exists []. split; [symmetry; apply app_nil_r | constructor]. Qed.

Lemma sends_setLoading (b : bool) : MobileTraffic.sends P (Mobile.setLoading b).
Proof. intros w. exists []. split; [symmetry; apply app_nil_r | constructor]. Qed.

Lemma sends_setInterval (ms : Z) : MobileTraffic.sends P (Mobile.setInterval ms).
Proof. intros w. exists []. split; [symmetry; apply app_nil_r | constructor]. Qed.

End SendsPlatform.

(** One step of a proof that a computation sends only what it may. *)
Ltac sends_step :=
  match goal with
  | |- MobileTraffic.sends _ (Mobile.bind _ _) => apply sends_bind; [| intros ?]
  | |- MobileTraffic.sends _ (Mobile.try_catch _ _) => apply sends_try_catch; [| intros ?]
  | |- MobileTraffic.sends _ (Mobile.ret _) => apply sends_ret
  | |- MobileTraffic.sends _ (Mobile.throw _) => apply sends_throw
  | |- MobileTraffic.sends _ (Mobile.lift _) => apply sends_lift
  | |- MobileTraffic.sends _ (Mobile.json _) => apply sends_json
  | |- MobileTraffic.sends _ (Mobile.getItem _) => apply sends_getItem
  | |- MobileTraffic.sends _ (Mobile.setItem _ _) => apply sends_setItem
  | |- MobileTraffic.sends _ Mobile.Date_now => apply sends_Date_now
  | |- MobileTraffic.sends _ (Mobile.Alert_alert _ _) => apply sends_Alert_alert
  | |- MobileTraffic.sends _ (Mobile.console_error _) => apply sends_console_error
  | |- MobileTraffic.sends _ (Mobile.setFloodData _) => apply sends_setFloodData
  | |- MobileTraffic.sends _ (Mobile.setLoading _) => apply sends_setLoading
  | |- MobileTraffic.sends _ (Mobile.setInterval _) => apply sends_setInterval
  | |- MobileTraffic.sends _ (if ?b then _ else _) => destruct b
  | |- MobileTraffic.sends _ (match ?x with _ => _ end) => destruct x
  end.

Section MobileTrafficFacts.
Context `{Builtins}.

Lemma sends_showFloodAlert (P : Request -> Prop) (riskLevel : string)
    (riskPercentage : float) :
  MobileTraffic.sends P (Mobile.showFloodAlert riskLevel riskPercentage).
Proof.
  unfold Mobile.showFloodAlert, Mobile.getAlertHistory. repeat sends_step.
Qed.

Lemma sends_triggerSms :
  MobileTraffic.sends MobileTraffic.followUp Mobile.triggerSms.
Proof.
  unfold Mobile.triggerSms.
  sends_step.
  - sends_step; [apply sends_fetch; right; reflexivity |]. repeat sends_step.
  - repeat sends_step.
Qed.

Lemma sends_checkRiskAndNotify (currentRisk : value) (previousRisk : float)
    (riskLevel : string) :
  MobileTraffic.sends MobileTraffic.followUp
    (Mobile.checkRiskAndNotify currentRisk previousRisk riskLevel).
Proof.
  unfold Mobile.checkRiskAndNotify.
  repeat first [ apply sends_showFloodAlert | apply sends_triggerSms | sends_step ].
Qed.

Lemma sends_getRecommendations :
  MobileTraffic.sends MobileTraffic.followUp Mobile.getRecommendations.
Proof.
  unfold Mobile.getRecommendations.
  sends_step; [| repeat sends_step].
  sends_step; [| repeat sends_step].
  sends_step; [apply sends_fetch; left; reflexivity |].
  repeat sends_step.
Qed.

(** A computation that starts with a [fetch] inside a [try]: the request
    fetched comes first. *)
Lemma fetch_first_traffic {A : Type} (Q : Request -> Prop) (r : Request)
    (k : Response -> Mobile.M A) (handler : error -> Mobile.M A) :
  (forall response, MobileTraffic.sends Q (k response)) ->
  (forall e, MobileTraffic.sends Q (handler e)) ->
  forall w,
    exists rest,
      Mobile.requests (snd (Mobile.try_catch (Mobile.bind (Mobile.fetch r) k) handler w))
      = Mobile.requests w ++ r :: rest /\
      Forall Q rest.
Proof.
  intros Hk Hhandler w.
  unfold Mobile.try_catch, Mobile.bind, Mobile.fetch.
  destruct (Mobile.backend w r) as [| response].
  - destruct (Hhandler (TypeError "Network request failed") (Mobile.sent r w))
      as (rest & Hreq & Hall).
    exists rest. split; [| exact Hall].
    rewrite Hreq. cbn [Mobile.sent Mobile.requests]. rewrite <- app_assoc. reflexivity.
  - destruct (Hk response (Mobile.sent r w)) as (rest1 & Hreq1 & Hall1).
    destruct (k response (Mobile.sent r w)) as [[a | e] w1]; cbn [snd] in *.
    + exists rest1. split; [| exact Hall1].
      rewrite Hreq1. cbn [Mobile.sent Mobile.requests]. rewrite <- app_assoc. reflexivity.
    + destruct (Hhandler e w1) as (rest2 & Hreq2 & Hall2).
      exists (rest1 ++ rest2). split; [| apply Forall_app; split; assumption].
      rewrite Hreq2, Hreq1. cbn [Mobile.sent Mobile.requests].
      rewrite <- !app_assoc. reflexivity.
Qed.

(** What [getFloodStatus] sends: first the request for the reading, then
    only requests for the recommendations and for the SMS alerts. *)
Lemma getFloodStatus_traffic (w : Mobile.World) :
  exists d w' rest,
    Mobile.getFloodStatus w = (Return d, w') /\
    Mobile.requests w' = Mobile.requests w ++ Mobile.recentReadingsRequest :: rest /\
    Forall MobileTraffic.followUp rest.
Proof.
  destruct (getFloodStatus_returns w) as (d & w' & Hget).
  assert (Htraffic :
            exists rest,
              Mobile.requests (snd (Mobile.getFloodStatus w))
              = Mobile.requests w ++ Mobile.recentReadingsRequest :: rest /\
              Forall MobileTraffic.followUp rest).
  { unfold Mobile.getFloodStatus. apply fetch_first_traffic.
    - intros response.
      repeat first [ apply sends_showFloodAlert | apply sends_checkRiskAndNotify
                   | apply sends_getRecommendations | sends_step ].
    - intros e. repeat sends_step. }
  destruct Htraffic as (rest & Hreq & Hall).
  rewrite Hget in Hreq. cbn [snd] in Hreq.
  exists d, w', rest. split; [exact Hget |]. split; assumption.
Qed.

(** X21.  A monitoring tick polls twice.  [checkAndUpdateInterval] never
    throws, and it asks the backend for the latest reading exactly two
    times: once to show the status and once more to choose the interval.
    Whatever else it sends are requests for the recommendations and for
    the SMS alerts. *)
Theorem monitoring_tick_polls_twice :
  forall w : Mobile.World,
    exists first second w',
      Mobile.checkAndUpdateInterval w = (Return tt, w') /\
      Mobile.requests w'
      = Mobile.requests w
        ++ Mobile.recentReadingsRequest :: first
        ++ Mobile.recentReadingsRequest :: second /\
      Forall (fun r => r <> Mobile.recentReadingsRequest /\
                       (r = mkRequest "GET" "http://10.49.178.86:8000/api/ai-recommendations"
                              None \/
                        r = mkRequest "POST" "http://10.49.178.86:8000/api/alerts/auto-send"
                              None))
        (first ++ second).
Proof.
  intros w.
  destruct (getFloodStatus_traffic w) as (d1 & w1 & first & Hget1 & Hreq1 & Hall1).
  set (w1' := snd (Mobile.setLoading false (snd (Mobile.setFloodData d1 w1)))).
  destruct (getFloodStatus_traffic w1') as (d2 & w2 & second & Hget2 & Hreq2 & Hall2).
  exists first, second.
  unfold Mobile.checkAndUpdateInterval, Mobile.try_catch.
  unfold Mobile.bind at 1.
  assert (Hload : Mobile.loadFloodData w = (Return tt, w1')).
  { unfold Mobile.loadFloodData, Mobile.try_catch, Mobile.bind. rewrite Hget1. reflexivity. }
  rewrite Hload. unfold Mobile.bind at 1. rewrite Hget2.
  unfold Mobile.bind, Mobile.clearInterval, Mobile.setInterval, Mobile.ret.
  destruct (Mobile.monitoringInterval w2);
    (eexists; split; [reflexivity |]; cbn [Mobile.requests]; split;
     [ rewrite Hreq2; unfold w1'; cbn [Mobile.setLoading Mobile.setFloodData snd
                                       Mobile.requests];
       rewrite Hreq1, <- app_assoc; reflexivity
     | apply Forall_app; split;
       [ eapply List.Forall_impl; [| exact Hall1] | eapply List.Forall_impl; [| exact Hall2] ];
       (intros r [-> | ->];
        (split; [ discriminate | (left; reflexivity) || (right; reflexivity) ])) ]).
Qed.

End MobileTrafficFacts.

(** ** The test buttons of the mobile app *)

Section MobileTestButtons.
Context `{Builtins}.



End MobileTestButtons.

(** Both cases occur: the history of a freshly installed app is writable;
    it is not when the text [null] is stored as the history, nor when
    AsyncStorage rejects the key. *)
Example historyWritable_examples :
  let fresh := Sample.freshWorld (Sample.backendWith None) in
  @MobileHistory.historyWritable Sample.builtins fresh = true /\
  @MobileHistory.historyWritable Sample.builtins (Inputs.withHistory "null" fresh) = false /\
  @MobileHistory.historyWritable Sample.builtins (Inputs.storageRejects "alertHistory" fresh)
  = false /\
  Mobile.dialogs (snd (@HomeScreen.testAlert Sample.builtins fresh))
  = [("🚨 Flood Risk Alert: SEVERE",
      "SEVERE flood risk detected (#%)! Take immediate action and evacuate if necessary.")] /\
  Mobile.dialogs (snd (@HomeScreen.testAlert Sample.builtins (Inputs.withHistory "null" fresh)))
  = [("Error", "Failed to trigger test alert")].
Proof. repeat split; vm_compute; reflexivity. Qed.
